(** * Red Hat platform tasks of FreeIPA: a shallow embedding

    The development follows [ipaplatform/redhat/tasks.py]: the version
    wrapper [IPAVersion] and the methods of [RedHatTaskNamespace] that
    toggle SELinux booleans, write the p11-kit trust file, the PKCS#11
    module overrides and the resolver configuration.

    Python strings are represented by their UTF-8 encoding (a [string] of
    8-bit characters); byte strings handed to C are [list byte]. *)

From stdpp Require Import gmap strings list.
From Stdlib Require Import ZArith NArith Strings.Byte Ascii String List Lia.
Import ListNotations.

Local Open Scope N_scope.

(** ** The vendor version comparison *)

Module Librpm.

(** Modelled from the spec: [rpmvercmp] of the native library librpm, which
    [IPAVersion._rpmvercmp] looks up with [ctypes] and which is not part of
    the repository. The definitions below follow section 4.1 of the
    specification, which asks for the vendor semantics: a version is split
    into numeric and alphabetic segments, every other character only
    separates segments, a tilde is a marker of its own, and corresponding
    segments are compared left to right. Separators are split points only,
    so a trailing run of them is no segment; the specification names no
    marker besides the tilde, so every other punctuation character,
    the caret included, is a separator. *)

Definition is_digit (c : byte) : bool :=
  (48 <=? to_N c) && (to_N c <=? 57).

Definition is_alpha (c : byte) : bool :=
  ((97 <=? to_N c) && (to_N c <=? 122)) || ((65 <=? to_N c) && (to_N c <=? 90)).

Definition is_tilde (c : byte) : bool := to_N c =? 126.

(** Every character that is neither a digit, a letter nor a tilde is a
    separator: it ends a segment and is never compared. *)
Definition is_separator (c : byte) : bool :=
  negb (is_digit c) && negb (is_alpha c) && negb (is_tilde c).

Inductive segment : Type :=
  | Tilde
  | Numeric (digits : list byte)
  | Alphabetic (letters : list byte).

Definition starts_with (p : byte -> bool) (s : list byte) : bool :=
  match s with
  | c :: _ => p c
  | [] => false
  end.

(** Modelled from the spec: step 1, a new segment starts whenever the
    character class changes.
    The character [c] joins the segment that follows it exactly when the
    next character is of the same class. *)
Fixpoint split_segments (s : list byte) : list segment :=
  match s with
  | [] => []
  | c :: rest =>
      let segs := split_segments rest in
      if is_digit c then
        match segs with
        | Numeric ds :: segs' =>
            if starts_with is_digit rest then Numeric (c :: ds) :: segs'
            else Numeric [c] :: segs
        | _ => Numeric [c] :: segs
        end
      else if is_alpha c then
        match segs with
        | Alphabetic ls :: segs' =>
            if starts_with is_alpha rest then Alphabetic (c :: ls) :: segs'
            else Alphabetic [c] :: segs
        | _ => Alphabetic [c] :: segs
        end
      else if is_tilde c then Tilde :: segs
      else segs
  end.

(** Modelled from the spec: numeric segments are arbitrary-precision
    integers; leading zeros do not count. *)
Definition digits_value (ds : list byte) : N :=
  fold_left (fun acc d => 10 * acc + (to_N d - 48)) ds 0.

(** Modelled from the spec: alphabetic segments compare
    lexicographically by raw byte value. *)
Fixpoint bytes_compare (a b : list byte) : comparison :=
  match a, b with
  | [], [] => Eq
  | [], _ :: _ => Lt
  | _ :: _, [] => Gt
  | x :: a', y :: b' =>
      match to_N x ?= to_N y with
      | Eq => bytes_compare a' b'
      | c => c
      end
  end.

(** Modelled from the spec: step 2, for two segments at the same
    position. A tilde sorts before everything, and a numeric segment is
    greater than an alphabetic one. *)
Definition compare_segment (x y : segment) : comparison :=
  match x, y with
  | Tilde, Tilde => Eq
  | Tilde, _ => Lt
  | _, Tilde => Gt
  | Numeric a, Numeric b => digits_value a ?= digits_value b
  | Numeric _, Alphabetic _ => Gt
  | Alphabetic _, Numeric _ => Lt
  | Alphabetic a, Alphabetic b => bytes_compare a b
  end.

(** Modelled from the spec: steps 2 to 4. When one side runs out of
    segments the longer side is greater, unless its next segment is a
    tilde, which makes it lesser. *)
Fixpoint compare_segments (xs ys : list segment) : comparison :=
  match xs, ys with
  | [], [] => Eq
  | [], Tilde :: _ => Gt
  | [], _ :: _ => Lt
  | Tilde :: _, [] => Lt
  | _ :: _, [] => Gt
  | x :: xs', y :: ys' =>
      match compare_segment x y with
      | Eq => compare_segments xs' ys'
      | c => c
      end
  end.

(** Modelled from the spec: [int rpmvercmp(const char *a, const char *b)],
    the contract [compare] of section 4.1 with LESS, EQUAL and GREATER
    as -1, 0 and 1. *)
Definition rpmvercmp (a b : list byte) : Z :=
  match compare_segments (split_segments a) (split_segments b) with
  | Lt => (-1)%Z
  | Eq => 0%Z
  | Gt => 1%Z
  end.

End Librpm.

(** ** [IPAVersion] *)

(** [ctypes.c_char_p]: the C callee reads the buffer up to the first NUL. *)
Fixpoint c_char_p (b : list byte) : list byte :=
  match b with
  | [] => []
  | c :: rest => if to_N c =? 0 then [] else c :: c_char_p rest
  end.

(** The only foreign function the class ever stores in [_rpmvercmp_func]:
    [librpm.rpmvercmp] with [argtypes = [c_char_p, c_char_p]] and
    [restype = c_int]. *)
Inductive rpmvercmp_func_t : Type :=
  | librpm_rpmvercmp.

Definition call_rpmvercmp_func (f : rpmvercmp_func_t) (a b : list byte) : Z :=
  match f with
  | librpm_rpmvercmp => Librpm.rpmvercmp (c_char_p a) (c_char_p b)
  end.

(** The class attribute [IPAVersion._rpmvercmp_func]: [None] until the
    first comparison. *)
Definition cls_state : Type := option rpmvercmp_func_t.

Definition _rpmvercmp_func_initial : cls_state := None.

(** [IPAVersion._rpmvercmp]: lazy load, then call. The result comes with
    the class attribute as the call leaves it. *)
Definition _rpmvercmp (cls : cls_state) (a b : list byte) : Z * cls_state :=
  let rpmvercmp_func :=
    match cls with
    | Some f => f
    | None => librpm_rpmvercmp
    end in
  (call_rpmvercmp_func rpmvercmp_func a b, Some rpmvercmp_func).

Record IPAVersion : Type := {
  _version : string;
  _bytes : list byte;
}.

(** [version.encode('utf-8')] on a string held in UTF-8. *)
Definition encode_utf8 (s : string) : list byte := list_byte_of_string s.

Definition __init__ (version : string) : IPAVersion :=
  {| _version := version; _bytes := encode_utf8 version |}.

Definition version (self : IPAVersion) : string := _version self.

Definition __eq__ (cls : cls_state) (self other : IPAVersion) : bool * cls_state :=
  let (r, cls') := _rpmvercmp cls (_bytes self) (_bytes other) in
  ((r =? 0)%Z, cls').

Definition __lt__ (cls : cls_state) (self other : IPAVersion) : bool * cls_state :=
  let (r, cls') := _rpmvercmp cls (_bytes self) (_bytes other) in
  ((r <? 0)%Z, cls').

(** The operators [functools.total_ordering] derives from [__lt__] and
    [__eq__]. *)
Definition __le__ (cls : cls_state) (self other : IPAVersion) : bool * cls_state :=
  let (lt, cls1) := __lt__ cls self other in
  if lt then (true, cls1) else __eq__ cls1 self other.

Definition __gt__ (cls : cls_state) (self other : IPAVersion) : bool * cls_state :=
  let (lt, cls1) := __lt__ cls self other in
  if lt then (false, cls1)
  else let (eq, cls2) := __eq__ cls1 self other in (negb eq, cls2).

Definition __ge__ (cls : cls_state) (self other : IPAVersion) : bool * cls_state :=
  let (lt, cls1) := __lt__ cls self other in (negb lt, cls1).

(** [RedHatTaskNamespace.parse_ipa_version]. *)
Definition parse_ipa_version (version : string) : IPAVersion := __init__ version.

(** The three-way comparison of two version strings through the objects
    [parse_ipa_version] returns: [Lt] when [a < b], [Eq] when [a == b],
    [Gt] otherwise. *)
Definition compare_versions (cls : cls_state) (a b : string) : comparison * cls_state :=
  let x := parse_ipa_version a in
  let y := parse_ipa_version b in
  let (lt, cls1) := __lt__ cls x y in
  if lt then (Lt, cls1)
  else let (eq, cls2) := __eq__ cls1 x y in
       if eq then (Eq, cls2) else (Gt, cls2).

Definition compare_in (cls : cls_state) (a b : string) : comparison :=
  fst (compare_versions cls a b).

(** The comparison as a fresh process makes it. *)
Definition version_compare (a b : string) : comparison :=
  compare_in _rpmvercmp_func_initial a b.

(** *** Vocabulary of the statements about versions *)

(** The segments the vendor routine sees for a version string. *)
Definition segments_of (a : string) : list Librpm.segment :=
  Librpm.split_segments (c_char_p (encode_utf8 a)).

Fixpoint skip_separators (s : list byte) : list byte :=
  match s with
  | c :: rest => if Librpm.is_separator c then skip_separators rest else s
  | [] => []
  end.

(** The first character of a version string that is not a separator, if
    there is one before the string ends. *)
Definition first_significant (a : string) : option byte :=
  head (skip_separators (c_char_p (encode_utf8 a))).

(** A separator character of a version string: not the terminator. *)
Definition separator_char (c : byte) : bool :=
  Librpm.is_separator c && negb (to_N c =? 0).

(** Two byte strings of the same length that differ, if at all, only at
    positions where both hold a separator character. *)
Fixpoint same_but_separators (a b : list byte) : bool :=
  match a, b with
  | [], [] => true
  | x :: a', y :: b' =>
      ((to_N x =? to_N y) || (separator_char x && separator_char y))
      && same_but_separators a' b'
  | _, _ => false
  end.

(** A version string without a caret. The vendor routine gives the caret
    a meaning of its own, which the specification does not describe. *)
Definition caret_free (a : string) : bool :=
  forallb (fun c => negb (to_N c =? 94)) (encode_utf8 a).

(** A three-way comparison is coherent when it is reflexive, flips under
    exchange of its arguments, identifies what it calls equal and is
    transitive on [Lt]. *)
Class Comparator {A : Type} (cmp : A -> A -> comparison) : Prop := {
  cmp_refl : forall x, cmp x x = Eq;
  cmp_antisym : forall x y, cmp y x = CompOpp (cmp x y);
  cmp_eq_l : forall x y z, cmp x y = Eq -> cmp x z = cmp y z;
  cmp_lt_trans : forall x y z, cmp x y = Lt -> cmp y z = Lt -> cmp x z = Lt;
}.

Local Close Scope N_scope.
Local Open Scope string_scope.
Local Open Scope Z_scope.

(** ** The Python runtime: exceptions, dictionaries, strings *)

(** An insertion-ordered dictionary with string keys. *)
Definition dict (V : Type) : Type := list (string * V).

Fixpoint dict_set {V} (k : string) (v : V) (d : dict V) : dict V :=
  match d with
  | [] => [(k, v)]
  | (k', v') :: d' =>
      if String.eqb k k' then (k, v) :: d' else (k', v') :: dict_set k v d'
  end.

(** [d.update(other)]. *)
Definition dict_update {V} (d other : dict V) : dict V :=
  fold_left (fun acc kv => dict_set (fst kv) (snd kv) acc) other d.

Definition dict_keys {V} (d : dict V) : list string := map fst d.

Inductive exn : Type :=
  | AssertionError
  | IndexError
  | OSError (errno : Z)
  | CalledProcessError (cmd : list string) (returncode : Z)
  | SetseboolError (failed : dict string) (command : string)
  | PyAsn1Error
  | ValueError
  | CertificateError
  | OtherError (name : string).

Definition ENOENT : Z := 2.
Definition EISDIR : Z := 21.

Definition nl : string := String (ascii_of_nat 10) "".

(** [sep.join(items)]. *)
Fixpoint join (sep : string) (items : list string) : string :=
  match items with
  | [] => ""
  | [x] => x
  | x :: rest => x ++ sep ++ join sep rest
  end.

(** [needle in hay] for two strings. *)
Fixpoint str_contains (needle hay : string) : bool :=
  String.prefix needle hay ||
  match hay with
  | String _ hay' => str_contains needle hay'
  | EmptyString => false
  end.

(** The ASCII characters [str.split()] treats as blanks. *)
Definition is_space (c : ascii) : bool :=
  let n := Z.of_nat (nat_of_ascii c) in
  ((9 <=? n) && (n <=? 13)) || ((28 <=? n) && (n <=? 32)).

(** [s.split()]: the maximal runs of non-blank characters. [cur] is the
    word read so far, in reverse. *)
Fixpoint split_aux (cur : list ascii) (s : string) : list string :=
  match s with
  | EmptyString =>
      match cur with
      | [] => []
      | _ => [string_of_list_ascii (rev cur)]
      end
  | String c s' =>
      if is_space c then
        match cur with
        | [] => split_aux [] s'
        | _ => string_of_list_ascii (rev cur) :: split_aux [] s'
        end
      else split_aux (c :: cur) s'
  end.

Definition str_split (s : string) : list string := split_aux [] s.

(** *** Text and its UTF-8 encoding *)

Definition byte_in (lo hi : Z) (c : ascii) : bool :=
  let n := Z.of_nat (nat_of_ascii c) in (lo <=? n) && (n <=? hi).

(** The byte strings the strict UTF-8 decoder accepts: one to four bytes
    per character, no overlong form, no surrogate, nothing above
    U+10FFFF. *)
Fixpoint utf8_valid (s : string) : bool :=
  match s with
  | EmptyString => true
  | String b0 rest =>
      if byte_in 0 127 b0 then utf8_valid rest
      else if byte_in 194 223 b0 then
        match rest with
        | String b1 r => byte_in 128 191 b1 && utf8_valid r
        | EmptyString => false
        end
      else if byte_in 224 239 b0 then
        match rest with
        | String b1 (String b2 r) =>
            byte_in (if byte_in 224 224 b0 then 160 else 128)
                    (if byte_in 237 237 b0 then 159 else 191) b1
            && byte_in 128 191 b2 && utf8_valid r
        | _ => false
        end
      else if byte_in 240 244 b0 then
        match rest with
        | String b1 (String b2 (String b3 r)) =>
            byte_in (if byte_in 240 240 b0 then 144 else 128)
                    (if byte_in 244 244 b0 then 143 else 191) b1
            && byte_in 128 191 b2 && byte_in 128 191 b3 && utf8_valid r
        | _ => false
        end
      else false
  end.

(** The UTF-8 encoding of a character [str.isspace] holds of: the ASCII
    blanks, U+0085, U+00A0, U+1680, U+2000 to U+200A, U+2028, U+2029,
    U+202F, U+205F and U+3000. *)
Definition is_blank_char (t : string) : bool :=
  match t with
  | String c EmptyString => is_space c
  | String c (String d EmptyString) =>
      byte_in 194 194 c && (byte_in 133 133 d || byte_in 160 160 d)
  | String c (String d (String e EmptyString)) =>
      (byte_in 225 225 c && byte_in 154 154 d && byte_in 128 128 e) ||
      (byte_in 226 226 c && byte_in 128 128 d &&
       (byte_in 128 138 e || byte_in 168 169 e || byte_in 175 175 e)) ||
      (byte_in 226 226 c && byte_in 129 129 d && byte_in 159 159 e) ||
      (byte_in 227 227 c && byte_in 128 128 d && byte_in 128 128 e)
  | _ => false
  end.

(** [s.lstrip()], [s.rstrip()] and [s.strip()] on text in its UTF-8
    encoding. *)
Fixpoint text_lstrip (s : string) : string :=
  match s with
  | EmptyString => EmptyString
  | String c rest =>
      if is_blank_char (String c "") then text_lstrip rest
      else
        match rest with
        | String d rest2 =>
            if is_blank_char (String c (String d "")) then text_lstrip rest2
            else
              match rest2 with
              | String e rest3 =>
                  if is_blank_char (String c (String d (String e "")))
                  then text_lstrip rest3 else s
              | EmptyString => s
              end
        | EmptyString => s
        end
  end.

Fixpoint text_rstrip (s : string) : string :=
  match s with
  | EmptyString => EmptyString
  | String c rest =>
      let t := String c (text_rstrip rest) in
      if is_blank_char t then EmptyString else t
  end.

Definition text_strip (s : string) : string := text_lstrip (text_rstrip s).

(** Values a caller may pass where the code expects a list of strings. *)
Inductive pyval : Type :=
  | PyNone
  | PyBool (b : bool)
  | PyInt (z : Z)
  | PyStr (s : string)
  | PyTuple (items : list string)
  | PyList (items : list string).

Definition truthy (v : pyval) : bool :=
  match v with
  | PyNone => false
  | PyBool b => b
  | PyInt z => negb (z =? 0)
  | PyStr s => negb (String.eqb s "")
  | PyTuple items | PyList items =>
      match items with [] => false | _ => true end
  end.

Definition isinstance_list (v : pyval) : bool :=
  match v with PyList _ => true | _ => false end.

Definition items_of (v : pyval) : list string :=
  match v with
  | PyTuple items | PyList items => items
  | _ => []
  end.

(** [os.path.join(a, b)]. *)
Definition os_path_join (a b : string) : string :=
  if String.prefix "/" b then b
  else if String.eqb a "" then b
  else if String.eqb (String.substring (String.length a - 1) 1 a) "/" then a ++ b
  else a ++ "/" ++ b.

(** ** The host: file system, backup store, child processes *)

Inductive node : Type :=
  | File (content : string)
  | Dir.

Inductive level : Type := DEBUG | INFO | ERROR.

(** What the module does to its collaborators, in the order it does it. *)
Inductive event : Type :=
  | Run (args : list string)
  | Log (lvl : level) (fmt : string)
  | Chmod (path : string) (mode : Z)
  | BackupFile (path : string)
  | RestoreFile (path : string)
  | ReloadOrRestart (service : string).

Record World : Type := mkWorld {
  fs : gmap string node;
  fstore_files : gmap string string;
  journal : list event;
}.

Inductive proc_outcome : Type :=
  | Exited (returncode : Z) (output : string)
  | SpawnFailed (errno : Z).

(** What the module cannot change: how each command line ends, which
    paths refuse I/O (and with which errno), whether NetworkManager is
    enabled. *)
Record Host : Type := mkHost {
  exec : list string -> proc_outcome;
  io_fault : string -> option Z;
  nm_enabled : bool;
}.

Inductive result (A : Type) : Type :=
  | Ok (a : A)
  | Raise (e : exn).
Arguments Ok {A} a.
Arguments Raise {A} e.

(** A computation that may raise and that changes the world either way. *)
Definition M (A : Type) : Type := World -> result A * World.

Definition ret {A} (a : A) : M A := fun w => (Ok a, w).

Definition raise {A} (e : exn) : M A := fun w => (Raise e, w).

Definition bind {A B} (m : M A) (k : A -> M B) : M B :=
  fun w =>
    match m w with
    | (Ok a, w') => k a w'
    | (Raise e, w') => (Raise e, w')
    end.

(** [try: body / except ...: handler]; [handler e = None] when no clause
    matches [e]. *)
Definition try_except {A} (body : M A) (handler : exn -> option (M A)) : M A :=
  fun w =>
    match body w with
    | (Ok a, w') => (Ok a, w')
    | (Raise e, w') =>
        match handler e with
        | Some h => h w'
        | None => (Raise e, w')
        end
    end.

Declare Scope task_scope.
Delimit Scope task_scope with task.
Notation "x <- c1 ;; c2" := (bind c1 (fun x => c2))
  (at level 100, c1 at next level, right associativity) : task_scope.
Notation "c1 ;; c2" := (bind c1 (fun _ => c2))
  (at level 100, right associativity) : task_scope.
Local Open Scope task_scope.

(** The world after more journal entries. *)
Definition logged_all (evs : list event) (w : World) : World :=
  mkWorld (fs w) (fstore_files w) (journal w ++ evs).

Definition logged (e : event) (w : World) : World := logged_all [e] w.

Definition emit (e : event) : M unit := fun w => (Ok tt, logged e w).

Definition set_fs (f : gmap string node -> gmap string node) : M unit :=
  fun w => (Ok tt, mkWorld (f (fs w)) (fstore_files w) (journal w)).

Definition set_fstore (f : gmap string string -> gmap string string) : M unit :=
  fun w => (Ok tt, mkWorld (fs w) (f (fstore_files w)) (journal w)).

Definition get_fs : M (gmap string node) := fun w => (Ok (fs w), w).

Definition get_fstore : M (gmap string string) := fun w => (Ok (fstore_files w), w).

Definition assert_ (b : bool) : M unit :=
  if b then ret tt else raise AssertionError.

Definition logger (lvl : level) (fmt : string) : M unit := emit (Log lvl fmt).

(** [a and b], where evaluating [b] has effects: [b] runs only when [a]
    holds. *)
Definition and_then (a : bool) (b : M bool) : M bool :=
  if a then b else ret false.

Record run_result : Type := mkRunResult {
  returncode : Z;
  output : string;
}.

(** [urllib.parse.quote] with the default [safe='/']: letters, digits and
    [_.-~/] stay, every other byte becomes [%XX]. *)
Definition always_safe (c : byte) : bool :=
  Librpm.is_digit c || Librpm.is_alpha c ||
  (let n := to_N c in (n =? 95) || (n =? 46) || (n =? 45) || (n =? 126) || (n =? 47))%N.

Definition hex_digit (n : N) : ascii :=
  if (n <? 10)%N then ascii_of_N (48 + n) else ascii_of_N (55 + n).

Definition quote_byte (c : byte) : string :=
  if always_safe c then String (ascii_of_byte c) ""
  else String "%" (String (hex_digit (to_N c / 16))
                     (String (hex_digit (to_N c mod 16)) "")).

Fixpoint quote_from_bytes (bs : list byte) : string :=
  match bs with
  | [] => ""
  | c :: rest => quote_byte c ++ quote_from_bytes rest
  end.

Definition quote (s : string) : string := quote_from_bytes (encode_utf8 s).

(** The double quote character of the object files. *)
Definition dq : string := String (ascii_of_nat 34) "".

(** [ipaplatform.paths]: the constants the methods below read. *)
Record Paths : Type := mkPaths {
  SBIN_RESTORECON : string;
  SELINUXENABLED : string;
  GETSEBOOL : string;
  SETSEBOOL : string;
  SYSTEMCTL : string;
  SYSTEMD_SYSTEM_HTTPD_IPA_CONF : string;
  RESOLV_CONF : string;
  NETWORK_MANAGER_IPA_CONF : string;
  ETC_PKCS11_MODULES_DIR : string;
  LIBSOFTHSM2_SO : string;
}.

(** [ipalib.x509.IPACertificate], as far as [write_p11kit_certs] reads it:
    each property either yields its value or raises. *)
Record IPACertificate : Type := mkCert {
  subject_bytes : result (list byte);
  issuer_bytes : result (list byte);
  serial_number_bytes : result (list byte);
  public_key_info_bytes : result (list byte);
  extended_key_usage : option (list string);
  extended_key_usage_bytes : result (list byte);
  public_bytes_pem : string;
}.

(** An element of [ca_certs]: [(cert, nickname, trusted, ext_key_usage)]. *)
Definition ca_cert : Type :=
  IPACertificate * string * option bool * option (list string).

Definition lift {A} (r : result A) : M A := fun w => (r, w).

(** What a file opened in text mode hands out of the bytes it reads, and
    what [bytes.decode('utf-8')] returns: the text, kept here in its UTF-8
    encoding, or [UnicodeDecodeError] for bytes that are no UTF-8 (the
    encoding of the locale on the hosts the installer supports). *)
Definition decode_text (content : string) : M string :=
  if utf8_valid content then ret content
  else raise (OtherError "UnicodeDecodeError").

(** ** [RedHatTaskNamespace] *)

Section RedHatTaskNamespace.

Variable paths : Paths.
Variable host : Host.

(** [BaseTaskNamespace.configure_dns_resolver], reached through [super()];
    its module is not among the sources. *)
Variable base_configure_dns_resolver :
  list string -> list string -> bool -> bool -> M unit.

(** *** File operations *)

Definition io_check (path : string) : M unit :=
  match io_fault host path with
  | Some errno => raise (OSError errno)
  | None => ret tt
  end.

Definition os_unlink (path : string) : M unit :=
  io_check path ;;
  files <- get_fs ;;
  match files !! path with
  | None => raise (OSError ENOENT)
  | Some Dir => raise (OSError EISDIR)
  | Some (File _) => set_fs (delete path)
  end.

Definition os_path_isfile (path : string) : M bool :=
  files <- get_fs ;;
  ret match files !! path with Some (File _) => true | _ => false end.

Definition os_path_exists (path : string) : M bool :=
  files <- get_fs ;;
  ret match files !! path with Some _ => true | None => false end.

(** [with open(path) as f: f.read()]. *)
Definition read_file (path : string) : M string :=
  io_check path ;;
  files <- get_fs ;;
  match files !! path with
  | Some (File content) => ret content
  | Some Dir => raise (OSError EISDIR)
  | None => raise (OSError ENOENT)
  end.

(** [open(path, 'w')]: the file is created or truncated. *)
Definition open_w (path : string) : M unit :=
  io_check path ;;
  files <- get_fs ;;
  match files !! path with
  | Some Dir => raise (OSError EISDIR)
  | _ => set_fs (insert path (File ""))
  end.

(** [f.write(text)] on the file opened at [path]. *)
Definition f_write (path text : string) : M unit :=
  files <- get_fs ;;
  match files !! path with
  | Some (File content) => set_fs (insert path (File (content ++ text)))
  | _ => ret tt
  end.

Definition os_fchmod (path : string) (mode : Z) : M unit := emit (Chmod path mode).

(** *** Collaborators *)

(** Modelled from the spec: [ipapython.ipautil.run], which is not among the
    sources. It runs the command line to completion; a non-zero exit code
    is a command failure that carries the command and the exit code, unless
    the caller passed [raiseonerr=False]; a command that cannot be started
    is an [OSError]. *)
Definition ipautil_run (args : list string) (raiseonerr : bool) : M run_result :=
  emit (Run args) ;;
  match exec host args with
  | SpawnFailed errno => raise (OSError errno)
  | Exited rc out =>
      if negb (rc =? 0) && raiseonerr then raise (CalledProcessError args rc)
      else ret (mkRunResult rc out)
  end.

(** Modelled from the spec: the file-backup store ([has_file],
    [backup_file], [restore_file]) of [ipalib.sysrestore], which is not
    among the sources. It keeps the contents of a backed-up file under its
    path until the file is restored. *)
Definition fstore_has_file (path : string) : M bool :=
  store <- get_fstore ;;
  ret match store !! path with Some _ => true | None => false end.

(** Modelled from the spec: [backup_file] records the contents of the
    file under its path. *)
Definition fstore_backup_file (path : string) : M unit :=
  emit (BackupFile path) ;;
  files <- get_fs ;;
  match files !! path with
  | Some (File content) => set_fstore (insert path content)
  | _ => ret tt
  end.

(** Modelled from the spec: [restore_file] puts a recorded file back and
    forgets it. The saved file is copied to the path: where the path is a
    directory the copy lands inside it, under a name of the store's own,
    and the path stays a directory. *)
Definition fstore_restore_file (path : string) : M bool :=
  emit (RestoreFile path) ;;
  store <- get_fstore ;;
  match store !! path with
  | Some content =>
      files <- get_fs ;;
      match files !! path with
      | Some Dir => ret tt
      | _ => set_fs (insert path (File content))
      end ;;
      set_fstore (delete path) ;;
      ret true
  | None => ret false
  end.

(** Modelled from the spec: the service-registry lookup
    [knownservices['NetworkManager']] of [ipaplatform.services], which is
    not among the sources. Whether the service is enabled is a fact of the
    host; a reload is recorded in the journal. *)
Definition nm_is_enabled : M bool := ret (nm_enabled host).

Definition nm_reload_or_restart : M unit := emit (ReloadOrRestart "NetworkManager").

(** *** SELinux *)

Definition is_selinux_enabled : M bool :=
  try_except
    (ipautil_run [SELINUXENABLED paths] true ;; ret true)
    (fun e =>
       match e with
       | CalledProcessError _ _ => Some (ret false)
       | OSError _ => Some (ret false)
       | _ => None
       end).

Definition restore_context (filepath : string) (force : bool) : M unit :=
  let restorecon := SBIN_RESTORECON paths in
  enabled <- is_selinux_enabled ;;
  if negb enabled then ret tt
  else
    present <- os_path_exists restorecon ;;
    if negb present then ret tt
    else
      let args := ([restorecon] ++ (if force then ["-F"] else []) ++ [filepath])%list in
      ipautil_run args false ;; ret tt.

Definition get_setsebool_args (changes : dict string) : list string :=
  ([SETSEBOOL paths; "-P"] ++
   map (fun update => (fst update ++ "=" ++ snd update)%string) changes)%list.

(** The body of the loop of [set_selinux_booleans] for one setting whose
    required state is not [None]. *)
Definition query_setting (backup_func : option (string -> string -> M unit))
    (setting state : string) (updated_vars failed_vars : dict string)
    : M (dict string * dict string) :=
  try_except
    (result <- ipautil_run [GETSEBOOL paths; setting] true ;;
     match nth_error (str_split (output result)) 2 with
     | None => raise IndexError
     | Some original_state =>
         match backup_func with
         | Some f => f setting original_state
         | None => ret tt
         end ;;
         if negb (String.eqb original_state state)
         then ret (dict_set setting state updated_vars, failed_vars)
         else ret (updated_vars, failed_vars)
     end)
    (fun e =>
       match e with
       | CalledProcessError _ _ =>
           Some (logger ERROR "Cannot get SELinux boolean '%s': %s" ;;
                 ret (updated_vars, dict_set setting state failed_vars))
       | _ => None
       end).

Fixpoint query_settings (backup_func : option (string -> string -> M unit))
    (items : dict (option string)) (updated_vars failed_vars : dict string)
    : M (dict string * dict string) :=
  match items with
  | [] => ret (updated_vars, failed_vars)
  | (setting, None) :: rest =>
      query_settings backup_func rest updated_vars failed_vars
  | (setting, Some state) :: rest =>
      uf <- query_setting backup_func setting state updated_vars failed_vars ;;
      query_settings backup_func rest (fst uf) (snd uf)
  end.

Definition set_selinux_booleans (required_settings : dict (option string))
    (backup_func : option (string -> string -> M unit)) : M bool :=
  enabled <- is_selinux_enabled ;;
  if negb enabled then ret false
  else
    uf <- query_settings backup_func required_settings [] [] ;;
    let updated_vars := fst uf in
    failed_vars <-
      match updated_vars with
      | [] => ret (snd uf)
      | _ =>
          let args := get_setsebool_args updated_vars in
          try_except
            (ipautil_run args true ;; ret (snd uf))
            (fun e =>
               match e with
               | CalledProcessError _ _ => Some (ret (dict_update (snd uf) updated_vars))
               | _ => None
               end)
      end ;;
    match failed_vars with
    | [] => ret true
    | _ => raise (SetseboolError failed_vars
                    (join " " (get_setsebool_args failed_vars)))
    end.

(** *** The p11-kit trust file *)

Definition certificate_object
    (label subject issuer serial_number public_key_info : string)
    (trusted : option bool) (pem : string) : string :=
  "[p11-kit-object-v1]" ++ nl ++
  "class: certificate" ++ nl ++
  "certificate-type: x-509" ++ nl ++
  "certificate-category: authority" ++ nl ++
  "label: " ++ dq ++ label ++ dq ++ nl ++
  "subject: " ++ dq ++ subject ++ dq ++ nl ++
  "issuer: " ++ dq ++ issuer ++ dq ++ nl ++
  "serial-number: " ++ dq ++ serial_number ++ dq ++ nl ++
  "x-public-key-info: " ++ dq ++ public_key_info ++ dq ++ nl ++
  match trusted with
  | Some true => "trusted: true" ++ nl
  | Some false => "x-distrusted: true" ++ nl
  | None => ""
  end ++
  pem ++ nl ++ nl.

Definition extension_object (label public_key_info value : string) : string :=
  "[p11-kit-object-v1]" ++ nl ++
  "class: x-certificate-extension" ++ nl ++
  "label: " ++ dq ++ "ExtendedKeyUsage for " ++ label ++ dq ++ nl ++
  "x-public-key-info: " ++ dq ++ public_key_info ++ dq ++ nl ++
  "object-id: 2.5.29.37" ++ nl ++
  "value: " ++ dq ++ value ++ dq ++ nl ++ nl.

Definition p11kit_header : string :=
  "# This file was created by IPA. Do not edit." ++ nl ++ nl.

(** [except (PyAsn1Error, ValueError, CertificateError): logger.error(...); raise]. *)
Definition log_decode_failure {A} (e : exn) : option (M A) :=
  match e with
  | PyAsn1Error | ValueError | CertificateError =>
      Some (logger ERROR "Failed to decode certificate %s" ;; raise e)
  | _ => None
  end.

Definition log_encode_failure {A} (e : exn) : option (M A) :=
  match e with
  | PyAsn1Error =>
      Some (logger ERROR "Failed to encode extended key usage for %s" ;; raise e)
  | _ => None
  end.

(** The first [try] block of the loop: the four encoded fields of the
    certificate, read in the order of the source. *)
Definition decode_certificate (cert : IPACertificate)
    : M (list byte * list byte * list byte * list byte) :=
  try_except
    (subject <- lift (subject_bytes cert) ;;
     issuer <- lift (issuer_bytes cert) ;;
     serial_number <- lift (serial_number_bytes cert) ;;
     public_key_info <- lift (public_key_info_bytes cert) ;;
     ret (subject, issuer, serial_number, public_key_info))
    log_decode_failure.

(** The second [try] block: the encoded extended key usage. *)
Definition encode_extended_key_usage (cert : IPACertificate) : M (list byte) :=
  try_except (lift (extended_key_usage_bytes cert)) log_encode_failure.

(** The loop over [ca_certs]; [f] is the path of the open file. *)
Fixpoint write_cert_objects (f : string) (ca_certs : list ca_cert)
    (has_eku : gset string) : M unit :=
  match ca_certs with
  | [] => ret tt
  | (cert, nickname, trusted, _ext_key_usage) :: rest =>
      attrs <- decode_certificate cert ;;
      let '(subject, issuer, serial_number, public_key_info) := attrs in
      let label := quote nickname in
      let subject := quote_from_bytes subject in
      let issuer := quote_from_bytes issuer in
      let serial_number := quote_from_bytes serial_number in
      let public_key_info := quote_from_bytes public_key_info in
      f_write f (certificate_object label subject issuer serial_number
                   public_key_info trusted (public_bytes_pem cert)) ;;
      match extended_key_usage cert with
      | Some _ =>
          if bool_decide (public_key_info ∈ has_eku)
          then write_cert_objects f rest has_eku
          else
            ext_key_usage <- encode_extended_key_usage cert ;;
            let value := quote_from_bytes ext_key_usage in
            f_write f (extension_object label public_key_info value) ;;
            write_cert_objects f rest ({[public_key_info]} ∪ has_eku)
      | None => write_cert_objects f rest has_eku
      end
  end.

Definition write_p11kit_certs (filename : string) (ca_certs : list ca_cert) : M bool :=
  try_except (open_w filename)
    (fun e =>
       match e with
       | OSError _ => Some (logger ERROR "Failed to open %s" ;; raise e)
       | _ => None
       end) ;;
  f_write filename p11kit_header ;;
  try_except (os_fchmod filename 420)
    (fun e =>
       match e with
       | OSError _ => Some (logger ERROR "Failed to set mode of %s" ;; raise e)
       | _ => None
       end) ;;
  write_cert_objects filename ca_certs ∅ ;;
  ret true.

(** *** httpd *)

Definition systemd_daemon_reload : M unit :=
  ipautil_run [SYSTEMCTL paths; "--system"; "daemon-reload"] true ;; ret tt.

Definition remove_httpd_service_ipa_conf : M unit :=
  removed <-
    try_except
      (os_unlink (SYSTEMD_SYSTEM_HTTPD_IPA_CONF paths) ;; ret true)
      (fun e =>
         match e with
         | OSError errno =>
             Some ((if errno =? ENOENT
                    then logger DEBUG "Trying to remove %s but file does not exist"
                    else logger ERROR "Error removing %s: %s") ;;
                   ret false)
         | _ => None
         end) ;;
  if removed then systemd_daemon_reload else ret tt.

(** *** The resolver *)

Definition NM_IPA_CONF (dnsprocessing searches servers : string) : string :=
  nl ++
  "# auto-generated by IPA installer" ++ nl ++
  "[main]" ++ nl ++
  "dns=" ++ dnsprocessing ++ nl ++
  nl ++
  "[global-dns]" ++ nl ++
  "searches=" ++ searches ++ nl ++
  nl ++
  "[global-dns-domain-*]" ++ nl ++
  "servers=" ++ servers ++ nl.

Definition configure_dns_resolver (nameservers searchdomains : pyval)
    (resolve1_enabled : bool) (fstore : bool) : M unit :=
  assert_ (truthy nameservers && isinstance_list nameservers) ;;
  assert_ (truthy searchdomains && isinstance_list searchdomains) ;;
  let nameservers := items_of nameservers in
  let searchdomains := items_of searchdomains in
  base_configure_dns_resolver nameservers searchdomains resolve1_enabled fstore ;;
  (if fstore then
     saved <- fstore_has_file (RESOLV_CONF paths) ;;
     if negb saved then fstore_backup_file (RESOLV_CONF paths) else ret tt
   else ret tt) ;;
  nm_enabled <- nm_is_enabled ;;
  (if nm_enabled then
     logger DEBUG "Network Manager is enabled, write %s" ;;
     let dnsprocessing := if resolve1_enabled then "systemd-resolved" else "default" in
     let cfg := NM_IPA_CONF dnsprocessing (join "," searchdomains) (join "," nameservers) in
     open_w (NETWORK_MANAGER_IPA_CONF paths) ;;
     os_fchmod (NETWORK_MANAGER_IPA_CONF paths) 420 ;;
     f_write (NETWORK_MANAGER_IPA_CONF paths) cfg ;;
     nm_reload_or_restart
   else ret tt) ;;
  if negb resolve1_enabled && negb nm_enabled then
    logger DEBUG
      "Neither Network Manager nor systemd-resolved are enabled, write %s directly." ;;
    let cfg :=
      (["# auto-generated by IPA installer";
        ("search " ++ join " " searchdomains)%string] ++
       map (fun nameserver => ("nameserver " ++ nameserver)%string) nameservers)%list in
    open_w (RESOLV_CONF paths) ;;
    f_write (RESOLV_CONF paths) (join nl cfg)
  else ret tt.

(** *** PKCS#11 modules *)

(** [(base filename, module, list of disabled-in)]. *)
Definition PKCS11_MODULES : list (string * string * list string) :=
  [("softhsm2", LIBSOFTHSM2_SO paths, ["p11-kit-proxy"])].

Definition module_filename (name : string) : string :=
  os_path_join (ETC_PKCS11_MODULES_DIR paths) (name ++ ".module").

(** The [if os.path.isfile(filename):] block of [configure_pkcs11_modules]:
    only back up if the file is not yet backed up and does not look like
    a file that is generated by IPA. The file is read in text mode, so
    bytes that do not decode end the call before anything is backed up. *)
Definition backup_module_file (filename : string) : M unit :=
  isfile <- os_path_isfile filename ;;
  if isfile then
    content <- read_file filename ;;
    content <- decode_text content ;;
    let is_ipa_file := str_contains "IPA" content in
    backup <-
      and_then (negb is_ipa_file)
        (saved <- fstore_has_file filename ;; ret (negb saved)) ;;
    if backup then
      logger DEBUG "Backing up existing '%s'." ;;
      fstore_backup_file filename
    else ret tt
  else ret tt.

(** The rest of the loop body: write the override, set its mode, restore
    its SELinux context. *)
Definition write_module_file (filename module : string)
    (disabled_in : list string) : M unit :=
  open_w filename ;;
  f_write filename ("# created by IPA installer" ++ nl) ;;
  f_write filename ("module: " ++ module ++ nl) ;;
  f_write filename ("disable-in: " ++ join ", " disabled_in ++ nl) ;;
  os_fchmod filename 420 ;;
  restore_context filename false ;;
  logger DEBUG "Created PKCS#11 module config '%s'.".

Fixpoint configure_modules (modules : list (string * string * list string))
    (filenames : list string) : M (list string) :=
  match modules with
  | [] => ret filenames
  | (name, module, disabled_in) :: rest =>
      let filename := module_filename name in
      backup_module_file filename ;;
      write_module_file filename module disabled_in ;;
      configure_modules rest (filenames ++ [filename])%list
  end.

Definition configure_pkcs11_modules : M (list string) :=
  configure_modules PKCS11_MODULES [].

Fixpoint restore_modules (modules : list (string * string * list string))
    (filenames : list string) : M (list string) :=
  match modules with
  | [] => ret filenames
  | (name, _module, _disabled_in) :: rest =>
      let filename := module_filename name in
      filenames <-
        try_except
          (os_unlink filename ;; ret (filenames ++ [filename])%list)
          (fun e =>
             match e with
             | OSError _ => Some (ret filenames)
             | _ => None
             end) ;;
      saved <- fstore_has_file filename ;;
      (if saved then fstore_restore_file filename ;; ret tt else ret tt) ;;
      restore_modules rest filenames
  end.

Definition restore_pkcs11_modules : M (list string) :=
  restore_modules PKCS11_MODULES [].

End RedHatTaskNamespace.

(** ** More of the Python runtime: text files and string methods *)

Definition LF : ascii := ascii_of_nat 10.
Definition CR : ascii := ascii_of_nat 13.

(** Reading a file opened in text mode: a carriage return, alone or
    followed by a line feed, arrives as one line feed. [after_cr] tells
    that the previous character was a carriage return. *)
Fixpoint translate_newlines_from (after_cr : bool) (s : string) : string :=
  match s with
  | EmptyString => EmptyString
  | String c s' =>
      if Ascii.eqb c CR then String LF (translate_newlines_from true s')
      else if Ascii.eqb c LF then
        if after_cr then translate_newlines_from false s'
        else String LF (translate_newlines_from false s')
      else String c (translate_newlines_from false s')
  end.

Definition translate_newlines (s : string) : string :=
  translate_newlines_from false s.

(** [for line in f]: the lines of a text, each with its line feed; a last
    line without one is a line too. [cur] is the line read so far. *)
Fixpoint readlines_from (cur : string) (s : string) : list string :=
  match s with
  | EmptyString => if String.eqb cur "" then [] else [cur]
  | String c s' =>
      if Ascii.eqb c LF then (cur ++ String c "") :: readlines_from "" s'
      else readlines_from (cur ++ String c "") s'
  end.

Definition readlines (s : string) : list string := readlines_from "" s.

(** [f.writelines(lines)]. *)
Fixpoint concat_lines (lines : list string) : string :=
  match lines with
  | [] => ""
  | l :: rest => l ++ concat_lines rest
  end.

(** [s.lstrip()], [s.rstrip()] and [s.strip()], on ASCII text. *)
Fixpoint lstrip (s : string) : string :=
  match s with
  | EmptyString => EmptyString
  | String c s' => if is_space c then lstrip s' else s
  end.

Fixpoint rstrip (s : string) : string :=
  match s with
  | EmptyString => EmptyString
  | String c s' =>
      match rstrip s' with
      | EmptyString => if is_space c then EmptyString else String c EmptyString
      | r => String c r
      end
  end.

Definition str_strip (s : string) : string := lstrip (rstrip s).

(** [s.upper()], on ASCII text. *)
Definition upper_char (c : ascii) : ascii :=
  let n := nat_of_ascii c in
  if ((97 <=? n) && (n <=? 122))%nat then ascii_of_nat (n - 32) else c.

Fixpoint str_upper (s : string) : string :=
  match s with
  | EmptyString => EmptyString
  | String c s' => String (upper_char c) (str_upper s')
  end.

(** Text whose characters are all ASCII: on it the models of [strip] and
    [upper] above are those of Python. *)
Fixpoint is_ascii (s : string) : bool :=
  match s with
  | EmptyString => true
  | String c s' => (nat_of_ascii c <? 128)%nat && is_ascii s'
  end.

(** [ipaplatform.paths]: the constants the methods below read besides
    those of [Paths]. *)
Record MorePaths : Type := mkMorePaths {
  SYSTEMD_DETECT_VIRT : string;
  SYSCONF_NETWORK : string;
  UPDATE_CA_TRUST : string;
  IPA_P11_KIT : string;
  SYSTEMWIDE_IPA_CA_CRT : string;
  PROC_FIPS_ENABLED : string;
  BIN_HOSTNAMECTL : string;
}.

(** ** [RedHatTaskNamespace], continued *)

Section MoreTasks.

Variable paths : Paths.
Variable more_paths : MorePaths.
Variable host : Host.

(** [BaseTaskNamespace.unconfigure_dns_resolver], reached through
    [super()]; its module is not among the sources. *)
Variable base_unconfigure_dns_resolver : bool -> M unit.

(** [with open(path) as f: f.read()] in text mode. *)
Definition read_text (path : string) : M string :=
  content <- read_file host path ;;
  ret (translate_newlines content).

(** [subprocess.check_output(args, stderr=subprocess.STDOUT)]: the output
    of a command that exits with 0, [CalledProcessError] otherwise. *)
Definition subprocess_check_output (args : list string) : M string :=
  emit (Run args) ;;
  match exec host args with
  | SpawnFailed errno => raise (OSError errno)
  | Exited rc out =>
      if rc =? 0 then ret out else raise (CalledProcessError args rc)
  end.

Definition check_selinux_status (restorecon : string) : M bool :=
  enabled <- is_selinux_enabled paths host ;;
  if negb enabled then ret false
  else
    present <- os_path_exists restorecon ;;
    if negb present then raise (OtherError "RuntimeError")
    else ret true.

Definition detect_container : M (option string) :=
  output <-
    try_except
      (output <- subprocess_check_output
                   [SYSTEMD_DETECT_VIRT more_paths; "--container"] ;;
       ret (Some output))
      (fun e =>
         match e with
         | CalledProcessError _ rc => if rc =? 1 then Some (ret None) else None
         | _ => None
         end) ;;
  match output with
  | None => ret None
  | Some output =>
      text <- decode_text output ;;
      ret (Some (text_strip text))
  end.

Definition is_nisdomain_line (line : string) : bool :=
  String.prefix "NISDOMAIN" (str_upper (str_strip line)).

Definition set_nisdomain (nisdomain : string) : M unit :=
  content <-
    try_except
      (text <- read_text (SYSCONF_NETWORK more_paths) ;;
       ret (List.filter (fun line => negb (is_nisdomain_line line)) (readlines text)))
      (fun e =>
         match e with
         | OSError _ => Some (ret [])
         | _ => None
         end) ;;
  let content := (content ++ [("NISDOMAIN=" ++ nisdomain ++ nl)%string])%list in
  open_w host (SYSCONF_NETWORK more_paths) ;;
  f_write (SYSCONF_NETWORK more_paths) (concat_lines content).

Definition reload_systemwide_ca_store : M bool :=
  try_except
    (ipautil_run host [UPDATE_CA_TRUST more_paths] true ;;
     logger INFO "Systemwide CA database updated." ;;
     ret true)
    (fun e =>
       match e with
       | CalledProcessError _ _ =>
           Some (logger ERROR "Could not update systemwide CA trust database: %s" ;;
                 ret false)
       | _ => None
       end).

Definition remove_ca_certificates_bundle (filename : string) : M bool :=
  isfile <- os_path_isfile filename ;;
  if negb isfile then ret false
  else
    try_except (os_unlink host filename)
      (fun e => Some (logger ERROR "Could not remove %s" ;; raise e)) ;;
    ret true.

(** [any([a, b])]: both elements are computed before [any] looks at them. *)
Definition platform_insert_ca_certs (ca_certs : list ca_cert) : M bool :=
  written <- write_p11kit_certs host (IPA_P11_KIT more_paths) ca_certs ;;
  removed <- remove_ca_certificates_bundle (SYSTEMWIDE_IPA_CA_CRT more_paths) ;;
  ret (written || removed).

Definition platform_remove_ca_certs : M bool :=
  first <- remove_ca_certificates_bundle (IPA_P11_KIT more_paths) ;;
  second <- remove_ca_certificates_bundle (SYSTEMWIDE_IPA_CA_CRT more_paths) ;;
  ret (first || second).

Definition set_hostname (hostname : string) : M unit :=
  ipautil_run host [BIN_HOSTNAMECTL more_paths; "set-hostname"; hostname] true ;;
  ret tt.

Definition is_fips_enabled : M bool :=
  try_except
    (text <- read_text (PROC_FIPS_ENABLED more_paths) ;;
     if negb (String.eqb (str_strip text) "0") then ret true else ret false)
    (fun e =>
       match e with
       | OSError _ => Some (ret false)
       | _ => None
       end).

Definition unconfigure_dns_resolver (fstore : bool) : M unit :=
  base_unconfigure_dns_resolver fstore ;;
  isfile <- os_path_isfile (NETWORK_MANAGER_IPA_CONF paths) ;;
  if isfile then
    os_unlink host (NETWORK_MANAGER_IPA_CONF paths) ;;
    enabled <- nm_is_enabled host ;;
    if enabled then nm_reload_or_restart else ret tt
  else ret tt.

Definition get_pkcs11_modules : list string :=
  map (fun '(name, _module, _disabled) => module_filename paths name)
    (PKCS11_MODULES paths).

End MoreTasks.

(** ** Vocabulary of the statements about tasks *)

(** The lines of a text: the pieces between newline characters. *)
Fixpoint lines_aux (cur : string) (s : string) : list string :=
  match s with
  | EmptyString => [cur]
  | String c s' =>
      if Ascii.eqb c (ascii_of_nat 10) then cur :: lines_aux "" s'
      else lines_aux (cur ++ String c "") s'
  end.

Definition str_lines (s : string) : list string := lines_aux "" s.

(** What the two asserts of [configure_dns_resolver] demand. *)
Definition nonempty_list (v : pyval) : bool :=
  match v with
  | PyList (_ :: _) => true
  | _ => false
  end.

(** [selinuxenabled] exits with 0. *)
Definition selinux_enabled_on (paths : Paths) (host : Host) : bool :=
  match exec host [SELINUXENABLED paths] with
  | Exited 0 _ => true
  | _ => false
  end.

(** How the query of one boolean with [getsebool] ends: with a command
    failure (a non-zero exit code), with a current state (the third field
    of the output), or in some other way (the command cannot be started,
    or its output has fewer than three fields). *)
Inductive query_outcome : Type :=
  | QueryFailed (rc : Z)
  | QueryState (state : string)
  | QueryBroken.

Definition query_of (paths : Paths) (host : Host) (setting : string) : query_outcome :=
  match exec host [GETSEBOOL paths; setting] with
  | Exited rc out =>
      if rc =? 0 then
        match nth_error (str_split out) 2 with
        | Some state => QueryState state
        | None => QueryBroken
        end
      else QueryFailed rc
  | SpawnFailed _ => QueryBroken
  end.

(** The settings whose query succeeds and reports a state other than the
    required one, in the order of the dictionary. *)
Fixpoint needed_changes (paths : Paths) (host : Host)
    (settings : dict (option string)) : dict string :=
  match settings with
  | [] => []
  | (setting, Some state) :: rest =>
      match query_of paths host setting with
      | QueryState current =>
          if String.eqb current state then needed_changes paths host rest
          else (setting, state) :: needed_changes paths host rest
      | _ => needed_changes paths host rest
      end
  | (_, None) :: rest => needed_changes paths host rest
  end.

(** The settings whose query fails, with their required states. *)
Fixpoint failed_queries (paths : Paths) (host : Host)
    (settings : dict (option string)) : dict string :=
  match settings with
  | [] => []
  | (setting, Some state) :: rest =>
      match query_of paths host setting with
      | QueryFailed _ => (setting, state) :: failed_queries paths host rest
      | _ => failed_queries paths host rest
      end
  | (_, None) :: rest => failed_queries paths host rest
  end.

(** Every query of a required setting ends in a failure or a state. *)
Definition all_answer (paths : Paths) (host : Host)
    (items : dict (option string)) : Prop :=
  forall setting state,
    In (setting, Some state) items -> query_of paths host setting <> QueryBroken.

(** A callback that returns whatever it is given. *)
Definition never_raises (f : string -> string -> M unit) : Prop :=
  forall setting state w, exists w', f setting state w = (Ok tt, w').

(** The objects of a p11-kit trust file. *)
Inductive p11kit_object : Type :=
  | CertificateObject (label subject issuer serial_number public_key_info : string)
      (trusted : option bool) (pem : string)
  | ExtensionObject (label public_key_info value : string).

Definition render_object (o : p11kit_object) : string :=
  match o with
  | CertificateObject label subject issuer serial_number public_key_info trusted pem =>
      certificate_object label subject issuer serial_number public_key_info trusted pem
  | ExtensionObject label public_key_info value =>
      extension_object label public_key_info value
  end.

Fixpoint render_objects (objs : list p11kit_object) : string :=
  match objs with
  | [] => ""
  | o :: rest => render_object o ++ render_objects rest
  end.

(** The public-key infos the extension objects of a file are keyed by. *)
Fixpoint extension_keys (objs : list p11kit_object) : list string :=
  match objs with
  | [] => []
  | ExtensionObject _ public_key_info _ :: rest => public_key_info :: extension_keys rest
  | CertificateObject _ _ _ _ _ _ _ :: rest => extension_keys rest
  end.

(** Some certificate of [ca_certs] has the public-key info that is
    written as [key] and carries an extended key usage. *)
Definition has_eku_for (ca_certs : list ca_cert) (key : string) : Prop :=
  exists cert nickname trusted ext_key_usage public_key_info usage,
    In (cert, nickname, trusted, ext_key_usage) ca_certs /\
    public_key_info_bytes cert = Ok public_key_info /\
    quote_from_bytes public_key_info = key /\
    extended_key_usage cert = Some usage.

(** A path [open(path, 'w')] succeeds on. *)
Definition writable (host : Host) (w : World) (path : string) : Prop :=
  io_fault host path = None /\ fs w !! path <> Some Dir.

(** A backup of [path] is due: it is a file that can be read as text,
    does not carry the IPA marker and the backup store does not hold it
    yet. *)
Definition backup_due (host : Host) (w : World) (path : string) : bool :=
  match io_fault host path, fs w !! path, fstore_files w !! path with
  | None, Some (File content), None =>
      utf8_valid content && negb (str_contains "IPA" content)
  | _, _, _ => false
  end.

(** A journal fragment without backups. *)
Definition backup_free (evs : list event) : Prop :=
  forall p, ~ In (BackupFile p) evs.

(** The backups a journal records for [path]. *)
Definition backups_of (path : string) (j : list event) : nat :=
  length (filter (fun e => match e with
                           | BackupFile p => String.eqb p path
                           | _ => false
                           end) j).

(** ** Concrete hosts and worlds for the examples *)

Definition fedora_paths : Paths :=
  {| SBIN_RESTORECON := "/usr/sbin/restorecon";
     SELINUXENABLED := "/usr/sbin/selinuxenabled";
     GETSEBOOL := "/usr/sbin/getsebool";
     SETSEBOOL := "/usr/sbin/setsebool";
     SYSTEMCTL := "/bin/systemctl";
     SYSTEMD_SYSTEM_HTTPD_IPA_CONF := "/etc/systemd/system/httpd.service.d/ipa.conf";
     RESOLV_CONF := "/etc/resolv.conf";
     NETWORK_MANAGER_IPA_CONF := "/etc/NetworkManager/conf.d/zzz-ipa.conf";
     ETC_PKCS11_MODULES_DIR := "/etc/pkcs11/modules";
     LIBSOFTHSM2_SO := "/usr/lib64/pkcs11/libsofthsm2.so" |}.

(** A certificate whose fields all decode, with the given public-key info
    and extended key usage. *)
Definition example_cert (public_key_info : string) (usage : option (list string))
    : IPACertificate :=
  {| subject_bytes := Ok (encode_utf8 "CN=Certificate Authority");
     issuer_bytes := Ok (encode_utf8 "CN=Certificate Authority");
     serial_number_bytes := Ok (encode_utf8 "1");
     public_key_info_bytes := Ok (encode_utf8 public_key_info);
     extended_key_usage := usage;
     extended_key_usage_bytes := Ok (encode_utf8 "0");
     public_bytes_pem := "-----BEGIN CERTIFICATE-----" |}.

Definition ipa_p11_kit : string := "/etc/pki/ca-trust/source/ipa.p11-kit".

(** A host without SELinux and without NetworkManager. *)
Definition plain_host : Host :=
  {| exec := fun _ => Exited 1 ""; io_fault := fun _ => None; nm_enabled := false |}.

Definition empty_world : World := mkWorld ∅ ∅ [].

(** The base class method when systemd-resolved is not in use: nothing. *)
Definition base_noop : list string -> list string -> bool -> bool -> M unit :=
  fun _ _ _ _ => ret tt.

(** A world where [path] is a directory. *)
Definition world_with_dir (path : string) : World :=
  mkWorld {[ path := Dir ]} ∅ [].

Definition world_with_file (path content : string) : World :=
  mkWorld {[ path := File content ]} ∅ [].

(** A host with SELinux enabled, where [getsebool] fails for [a] and
    reports [off] for [b] and [on] for [c]; [setsebool] exits with
    [setsebool_rc]. *)
Definition selinux_host (setsebool_rc : Z) : Host :=
  {| exec := fun args =>
       match args with
       | ["/usr/sbin/selinuxenabled"] => Exited 0 ""
       | ["/usr/sbin/getsebool"; "a"] => Exited 1 "Error getting active value for a"
       | ["/usr/sbin/getsebool"; "b"] => Exited 0 "b --> off"
       | ["/usr/sbin/getsebool"; "c"] => Exited 0 "c --> on"
       | "/usr/sbin/setsebool" :: _ => Exited setsebool_rc ""
       | _ => SpawnFailed ENOENT
       end;
     io_fault := fun _ => None;
     nm_enabled := false |}.

(** ** More concrete data for the examples *)

Definition fedora_more_paths : MorePaths :=
  {| SYSTEMD_DETECT_VIRT := "/usr/bin/systemd-detect-virt";
     SYSCONF_NETWORK := "/etc/sysconfig/network";
     UPDATE_CA_TRUST := "/usr/bin/update-ca-trust";
     IPA_P11_KIT := "/etc/pki/ca-trust/source/ipa.p11-kit";
     SYSTEMWIDE_IPA_CA_CRT := "/etc/pki/ca-trust/source/anchors/ipa-ca.crt";
     PROC_FIPS_ENABLED := "/proc/sys/crypto/fips_enabled";
     BIN_HOSTNAMECTL := "/usr/bin/hostnamectl" |}.

(** A world that holds the legacy CA bundle and nothing else. *)
Definition world_with_legacy_bundle : World :=
  world_with_file (SYSTEMWIDE_IPA_CA_CRT fedora_more_paths) "-----BEGIN CERTIFICATE-----".

(** ** Vocabulary of the further statements *)

(** The [setsebool] command for [changes] is run and exits with a
    non-zero code. *)
Definition setsebool_failed (paths : Paths) (host : Host) (changes : dict string) : bool :=
  match changes with
  | [] => false
  | _ =>
      match exec host (get_setsebool_args paths changes) with
      | Exited rc _ => negb (rc =? 0)
      | SpawnFailed _ => false
      end
  end.

(** The [setsebool] command for [changes], if any is needed, can be
    started. *)
Definition setsebool_starts (paths : Paths) (host : Host) (changes : dict string) : Prop :=
  changes <> [] ->
  exists rc out, exec host (get_setsebool_args paths changes) = Exited rc out.

(** [path] is a regular file. *)
Definition is_regular (w : World) (path : string) : bool :=
  match fs w !! path with
  | Some (File _) => true
  | _ => false
  end.

(** [os.unlink(path)] would succeed: a regular file that does not refuse
    I/O. *)
Definition deletable (host : Host) (w : World) (path : string) : bool :=
  is_regular w path &&
  match io_fault host path with None => true | Some _ => false end.

(** A text made of blanks only. *)
Fixpoint all_space (s : string) : bool :=
  match s with
  | EmptyString => true
  | String c s' => is_space c && all_space s'
  end.

(** The character [c] occurs in [s]. *)
Fixpoint has_char (c : ascii) (s : string) : bool :=
  match s with
  | EmptyString => false
  | String x s' => Ascii.eqb x c || has_char c s'
  end.

(** A text without line breaks. *)
Definition single_line (s : string) : bool :=
  negb (has_char LF s) && negb (has_char CR s).

Fixpoint ends_with_lf (s : string) : bool :=
  match s with
  | EmptyString => false
  | String c EmptyString => Ascii.eqb c LF
  | String _ s' => ends_with_lf s'
  end.

(** A text whose last line, if it has one, ends in a line feed. *)
Definition complete_text (s : string) : bool :=
  String.eqb s "" || ends_with_lf s.

(** A line with its line feed, and no other. *)
Definition proper_line (l : string) : Prop :=
  exists body, l = body ++ String LF "" /\ has_char LF body = false.

(** The line [set_nisdomain] appends. *)
Definition nisdomain_line (nisdomain : string) : string :=
  "NISDOMAIN=" ++ nisdomain ++ nl.

(** The lines of [content] that [set_nisdomain] keeps. *)
Definition kept_lines (content : string) : list string :=
  List.filter (fun line => negb (is_nisdomain_line line)) (readlines content).

(** A network configuration that sets the NIS domain in its second line. *)
Definition network_file : string :=
  "NETWORKING=yes" ++ nl ++ " nisdomain=old" ++ nl ++ "HOSTNAME=ipa.example.test" ++ nl.

(** The copy of [path] the backup store holds after a backup that is
    made only when the store has none yet. *)
Definition first_backup (path : string) (w : World) : option string :=
  match fstore_files w !! path with
  | Some saved => Some saved
  | None =>
      match fs w !! path with
      | Some (File content) => Some content
      | _ => None
      end
  end.

(** A host where NetworkManager is enabled. *)
Definition nm_host : Host :=
  {| exec := fun _ => Exited 1 ""; io_fault := fun _ => None; nm_enabled := true |}.

(** A world whose resolver file was written by the administrator. *)
Definition world_with_resolv_conf : World :=
  world_with_file (RESOLV_CONF fedora_paths) "nameserver 192.0.2.53".

(** Every command the host is asked to run can be started. *)
Definition commands_start (host : Host) : Prop :=
  forall args errno, exec host args <> SpawnFailed errno.

(** What [path] holds, if it is a file, can be read as text. *)
Definition reads_as_text (w : World) (path : string) : bool :=
  match fs w !! path with
  | Some (File content) => utf8_valid content
  | _ => true
  end.

(** The override [configure_pkcs11_modules] writes for [module]. *)
Definition module_override (module : string) (disabled_in : list string) : string :=
  "# created by IPA installer" ++ nl ++
  "module: " ++ module ++ nl ++
  "disable-in: " ++ join ", " disabled_in ++ nl.

(** The backup store after the backup block of
    [configure_pkcs11_modules] for [path]. *)
Definition store_after_backup (host : Host) (w : World) (path : string)
    : gmap string string :=
  match fs w !! path with
  | Some (File content) =>
      if backup_due host w path then <[path := content]> (fstore_files w)
      else fstore_files w
  | _ => fstore_files w
  end.

Definition is_certificate_object (o : p11kit_object) : bool :=
  match o with
  | CertificateObject _ _ _ _ _ _ _ => true
  | ExtensionObject _ _ _ => false
  end.

(** The certificate objects of a trust file, in the order of the file. *)
Definition certificates_of (objs : list p11kit_object) : list p11kit_object :=
  List.filter is_certificate_object objs.

(** The certificate object of an element of [ca_certs], when its four
    encoded fields can be read. *)
Definition certificate_object_of (entry : ca_cert) : option p11kit_object :=
  let '(cert, nickname, trusted, _) := entry in
  match subject_bytes cert, issuer_bytes cert, serial_number_bytes cert,
        public_key_info_bytes cert with
  | Ok subject, Ok issuer, Ok serial_number, Ok public_key_info =>
      Some (CertificateObject (quote nickname) (quote_from_bytes subject)
              (quote_from_bytes issuer) (quote_from_bytes serial_number)
              (quote_from_bytes public_key_info) trusted (public_bytes_pem cert))
  | _, _, _, _ => None
  end.

(** Every field the loop of [write_p11kit_certs] may read of the element
    is available. *)
Definition encodes (entry : ca_cert) : bool :=
  let '(cert, _, _, _) := entry in
  match certificate_object_of entry, extended_key_usage cert,
        extended_key_usage_bytes cert with
  | None, _, _ => false
  | Some _, Some _, Raise _ => false
  | Some _, _, _ => true
  end.

(** A certificate whose subject cannot be decoded. *)
Definition broken_cert : IPACertificate :=
  {| subject_bytes := Raise ValueError;
     issuer_bytes := Ok (encode_utf8 "CN=Certificate Authority");
     serial_number_bytes := Ok (encode_utf8 "2");
     public_key_info_bytes := Ok (encode_utf8 "key2");
     extended_key_usage := None;
     extended_key_usage_bytes := Ok (encode_utf8 "0");
     public_bytes_pem := "-----BEGIN CERTIFICATE-----" |}.

(** A byte that is no UTF-8 text. *)
Definition undecodable : string := String (ascii_of_nat 255) "".

(** What [getsebool] prints for the required settings is ASCII text, which
    [str.split()] splits at the blanks [is_space] lists. *)
Definition ascii_answers (paths : Paths) (host : Host)
    (items : dict (option string)) : bool :=
  forallb (fun item =>
             match exec host [GETSEBOOL paths; fst item] with
             | Exited _ out => is_ascii out
             | SpawnFailed _ => true
             end) items.

(** The extension object of an element of [ca_certs] that carries an
    extended key usage, when its public-key info and the encoded usage can
    be read. *)
Definition extension_object_of (entry : ca_cert) : option p11kit_object :=
  let '(cert, nickname, _, _) := entry in
  match extended_key_usage cert, public_key_info_bytes cert,
        extended_key_usage_bytes cert with
  | Some _, Ok public_key_info, Ok value =>
      Some (ExtensionObject (quote nickname) (quote_from_bytes public_key_info)
              (quote_from_bytes value))
  | _, _, _ => None
  end.

(** An object that is the certificate object or the extension object of
    an element of [ca_certs], with every field as that element gives it. *)
Definition object_of (ca_certs : list ca_cert) (o : p11kit_object) : Prop :=
  exists entry,
    In entry ca_certs /\
    (certificate_object_of entry = Some o \/ extension_object_of entry = Some o).

(** After blanks the line goes on with the nine letters of NISDOMAIN, in
    any mix of upper and lower case. *)
Definition begins_nisdomain (line : string) : Prop :=
  exists blanks word rest,
    line = blanks ++ word ++ rest /\
    all_space blanks = true /\ str_upper word = "NISDOMAIN".

(** A network configuration with four ways to mention the NIS domain. *)
Definition network_variants : string :=
  "NETWORKING=yes" ++ nl ++ " nisdomain=old" ++ nl ++ "NISDOMAINNAME=x" ++ nl ++
  "export NISDOMAIN=y" ++ nl.

(** A text made of whitespace characters only, in its UTF-8 encoding. *)
Inductive all_blank : string -> Prop :=
  | all_blank_nil : all_blank ""
  | all_blank_cons (t s : string) :
      is_blank_char t = true -> all_blank s -> all_blank (t ++ s).

(** * Properties *)

(** ** Three-way comparisons that order their arguments *)

Section ComparatorFacts.

Context {A : Type} (cmp : A -> A -> comparison) `{!Comparator cmp}.

Lemma cmp_eq_r x y z : cmp y z = Eq -> cmp x y = cmp x z.
Proof.
  intros H.
  rewrite (cmp_antisym (cmp := cmp) y x), (cmp_antisym (cmp := cmp) z x).
  f_equal. apply cmp_eq_l. exact H.
Qed.

Lemma cmp_eq_trans x y z : cmp x y = Eq -> cmp y z = Eq -> cmp x z = Eq.
Proof. intros Hxy Hyz. rewrite (cmp_eq_l _ _ _ Hxy). exact Hyz. Qed.

Lemma cmp_gt_trans x y z : cmp x y = Gt -> cmp y z = Gt -> cmp x z = Gt.
Proof.
  intros Hxy Hyz.
  rewrite (cmp_antisym (cmp := cmp) z x).
  rewrite (cmp_lt_trans z y x); [reflexivity | |].
  - rewrite (cmp_antisym (cmp := cmp) y z), Hyz. reflexivity.
  - rewrite (cmp_antisym (cmp := cmp) x y), Hxy. reflexivity.
Qed.

(** The order [<=] read off the comparison is transitive. *)
Lemma cmp_le_trans x y z : cmp x y <> Gt -> cmp y z <> Gt -> cmp x z <> Gt.
Proof.
  intros Hxy Hyz.
  destruct (cmp x y) eqn:Exy; [| | congruence].
  - rewrite (cmp_eq_l _ _ _ Exy). exact Hyz.
  - destruct (cmp y z) eqn:Eyz; [| | congruence].
    + rewrite <- (cmp_eq_r x _ _ Eyz), Exy. discriminate.
    + rewrite (cmp_lt_trans _ _ _ Exy Eyz). discriminate.
Qed.

End ComparatorFacts.

(** ** The vendor comparison orders segment lists *)

Module LibrpmFacts.
Import Librpm.

Lemma bytes_compare_refl a : bytes_compare a a = Eq.
Proof. induction a as [|x a IH]; simpl; [reflexivity |]. now rewrite N.compare_refl. Qed.

Lemma bytes_compare_antisym a b : bytes_compare b a = CompOpp (bytes_compare a b).
Proof.
  revert b. induction a as [|x a IH]; intros [|y b]; simpl; try reflexivity.
  rewrite (N.compare_antisym (to_N x) (to_N y)).
  destruct (to_N x ?= to_N y)%N; simpl; auto.
Qed.

Lemma bytes_compare_eq_l a b c :
  bytes_compare a b = Eq -> bytes_compare a c = bytes_compare b c.
Proof.
  revert b c. induction a as [|x a IH]; intros [|y b] [|z c]; simpl;
    try discriminate; auto.
  destruct (to_N x ?= to_N y)%N eqn:E; try discriminate.
  intros H. apply N.compare_eq in E. rewrite E, (IH _ c H). reflexivity.
Qed.

Lemma bytes_compare_lt_trans a b c :
  bytes_compare a b = Lt -> bytes_compare b c = Lt -> bytes_compare a c = Lt.
Proof.
  revert b c. induction a as [|x a IH]; intros [|y b] [|z c]; simpl;
    try discriminate; auto.
  destruct (N.compare_spec (to_N x) (to_N y)) as [Exy|Lxy|Gxy]; try discriminate;
    destruct (N.compare_spec (to_N y) (to_N z)) as [Eyz|Lyz|Gyz]; try discriminate;
    intros Hab Hbc.
  - rewrite Exy, Eyz, N.compare_refl. eauto.
  - rewrite Exy. unfold N.lt in Lyz. now rewrite Lyz.
  - rewrite <- Eyz. unfold N.lt in Lxy. now rewrite Lxy.
  - assert (to_N x < to_N z)%N as Lxz by lia. unfold N.lt in Lxz. now rewrite Lxz.
Qed.

#[export] Instance bytes_comparator : Comparator bytes_compare.
Proof.
  split.
  - apply bytes_compare_refl.
  - intros; apply bytes_compare_antisym.
  - apply bytes_compare_eq_l.
  - apply bytes_compare_lt_trans.
Qed.

#[export] Instance segment_comparator : Comparator compare_segment.
Proof.
  split.
  - intros [| |]; simpl; auto using N.compare_refl, bytes_compare_refl.
  - intros [| |] [| |]; simpl; auto using N.compare_antisym, bytes_compare_antisym.
  - intros [| |] [| |] [| |]; simpl; try discriminate; auto.
    + intros H. apply N.compare_eq in H. now rewrite H.
    + apply bytes_compare_eq_l.
  - intros [| |] [| |] [| |]; simpl; try discriminate; auto.
    + rewrite !N.compare_lt_iff. lia.
    + apply bytes_compare_lt_trans.
Qed.

(** How a non-empty list compares with an exhausted one. *)
Lemma compare_segments_nil_r x xs :
  compare_segments (x :: xs) [] = match x with Tilde => Lt | _ => Gt end.
Proof. destruct x; reflexivity. Qed.

Lemma compare_segments_nil_l y ys :
  compare_segments [] (y :: ys) = match y with Tilde => Gt | _ => Lt end.
Proof. destruct y; reflexivity. Qed.

Lemma compare_segments_cons x xs y ys :
  compare_segments (x :: xs) (y :: ys) =
  match compare_segment x y with
  | Eq => compare_segments xs ys
  | c => c
  end.
Proof. destruct x, y; reflexivity. Qed.

Lemma compare_segments_refl xs : compare_segments xs xs = Eq.
Proof.
  induction xs as [|x xs IH]; [reflexivity |].
  rewrite compare_segments_cons, (cmp_refl (cmp := compare_segment)). exact IH.
Qed.

Lemma compare_segments_antisym xs ys :
  compare_segments ys xs = CompOpp (compare_segments xs ys).
Proof.
  revert ys. induction xs as [|x xs IH]; intros [|y ys].
  - reflexivity.
  - destruct y; reflexivity.
  - destruct x; reflexivity.
  - rewrite !compare_segments_cons, (cmp_antisym (cmp := compare_segment) x y).
    destruct (compare_segment x y); simpl; auto.
Qed.

(** Segments that compare equal are tildes together or not at all. *)
Lemma compare_segment_eq_tilde x y :
  compare_segment x y = Eq ->
  match x with Tilde => Lt | _ => Gt end = match y with Tilde => Lt | _ => Gt end.
Proof. destruct x, y; simpl; intros; congruence. Qed.

Lemma compare_segments_eq_l xs ys zs :
  compare_segments xs ys = Eq -> compare_segments xs zs = compare_segments ys zs.
Proof.
  revert ys zs. induction xs as [|x xs IH]; intros [|y ys] zs.
  - reflexivity.
  - destruct y; discriminate.
  - destruct x; discriminate.
  - rewrite compare_segments_cons.
    destruct (compare_segment x y) eqn:Exy; try discriminate.
    intros H. destruct zs as [|z zs].
    + rewrite !compare_segments_nil_r. now apply compare_segment_eq_tilde.
    + rewrite !compare_segments_cons, (cmp_eq_l _ _ z Exy).
      destruct (compare_segment y z); auto.
Qed.

Local Ltac by_heads :=
  intros;
  repeat match goal with s : segment |- _ => destruct s end;
  simpl in *; congruence.

Lemma compare_segments_lt_trans xs ys zs :
  compare_segments xs ys = Lt -> compare_segments ys zs = Lt ->
  compare_segments xs zs = Lt.
Proof.
  revert ys zs. induction xs as [|x xs IH]; intros ys zs;
    destruct ys as [|y ys]; destruct zs as [|z zs]; try by_heads.
  rewrite !compare_segments_cons.
  destruct (compare_segment x y) eqn:Exy; try discriminate;
    destruct (compare_segment y z) eqn:Eyz; try discriminate; intros Hxy Hyz.
  - rewrite (cmp_eq_l _ _ z Exy), Eyz. eauto.
  - now rewrite (cmp_eq_l _ _ z Exy), Eyz.
  - now rewrite <- (cmp_eq_r compare_segment x _ _ Eyz), Exy.
  - now rewrite (cmp_lt_trans _ _ _ Exy Eyz).
Qed.

#[export] Instance segments_comparator : Comparator compare_segments.
Proof.
  split.
  - apply compare_segments_refl.
  - intros; apply compare_segments_antisym.
  - apply compare_segments_eq_l.
  - apply compare_segments_lt_trans.
Qed.

End LibrpmFacts.

(** ** Version comparison through [IPAVersion] *)

Section VersionFacts.
Import Librpm LibrpmFacts.

Lemma rpmvercmp_sign a b :
  ((rpmvercmp a b <? 0) = match compare_segments (split_segments a) (split_segments b)
                          with Lt => true | _ => false end) /\
  ((rpmvercmp a b =? 0) = match compare_segments (split_segments a) (split_segments b)
                          with Eq => true | _ => false end).
Proof. unfold rpmvercmp. destruct (compare_segments _ _); split; reflexivity. Qed.

(** Whatever the class attribute holds, the call reaches the vendor
    routine on the two C strings and leaves the attribute loaded. *)
Lemma _rpmvercmp_spec cls a b :
  _rpmvercmp cls a b = (rpmvercmp (c_char_p a) (c_char_p b), Some librpm_rpmvercmp).
Proof. destruct cls as [[]|]; reflexivity. Qed.

Lemma __lt___spec cls a b :
  fst (__lt__ cls (parse_ipa_version a) (parse_ipa_version b)) =
  match compare_segments (segments_of a) (segments_of b) with Lt => true | _ => false end.
Proof.
  unfold __lt__. rewrite _rpmvercmp_spec. simpl.
  apply (proj1 (rpmvercmp_sign _ _)).
Qed.

Lemma __eq___spec cls a b :
  fst (__eq__ cls (parse_ipa_version a) (parse_ipa_version b)) =
  match compare_segments (segments_of a) (segments_of b) with Eq => true | _ => false end.
Proof.
  unfold __eq__. rewrite _rpmvercmp_spec. simpl.
  apply (proj2 (rpmvercmp_sign _ _)).
Qed.

Lemma compare_versions_spec cls a b :
  compare_versions cls a b =
  (compare_segments (segments_of a) (segments_of b), Some librpm_rpmvercmp).
Proof.
  unfold compare_versions, __lt__, __eq__. rewrite !_rpmvercmp_spec.
  simpl. unfold segments_of.
  destruct (rpmvercmp_sign (c_char_p (encode_utf8 a)) (c_char_p (encode_utf8 b)))
    as [-> ->].
  destruct (compare_segments _ _); reflexivity.
Qed.

Lemma compare_in_spec cls a b :
  compare_in cls a b = compare_segments (segments_of a) (segments_of b).
Proof. unfold compare_in. now rewrite compare_versions_spec. Qed.

#[export] Instance version_comparator cls : Comparator (compare_in cls).
Proof.
  split; intros *; rewrite !compare_in_spec.
  - apply (cmp_refl (cmp := compare_segments)).
  - apply (cmp_antisym (cmp := compare_segments)).
  - apply (cmp_eq_l (cmp := compare_segments)).
  - apply (cmp_lt_trans (cmp := compare_segments)).
Qed.

(** Separators contribute no segment. *)
Lemma split_segments_skip s :
  split_segments (skip_separators s) = split_segments s.
Proof.
  induction s as [|c s IH]; [reflexivity |].
  cbn [skip_separators]. destruct (is_separator c) eqn:E; [| reflexivity].
  rewrite IH. cbn [split_segments]. unfold is_separator in E.
  destruct (is_digit c), (is_alpha c), (is_tilde c); try discriminate; reflexivity.
Qed.

Lemma tilde_not_alnum c :
  is_tilde c = true -> is_digit c = false /\ is_alpha c = false.
Proof.
  unfold is_tilde, is_digit, is_alpha. intros ->%N.eqb_eq. split; reflexivity.
Qed.

Lemma split_segments_head c s :
  is_separator c = false ->
  exists seg segs,
    split_segments (c :: s) = seg :: segs /\
    (seg = Tilde <-> is_tilde c = true).
Proof.
  unfold is_separator. intros Hc. simpl.
  destruct (is_digit c) eqn:Hd; [| destruct (is_alpha c) eqn:Ha].
  - assert (is_tilde c = false) as Ht.
    { destruct (is_tilde c) eqn:Ht; [| reflexivity].
      apply tilde_not_alnum in Ht as [? ?]. congruence. }
    rewrite Ht.
    destruct (split_segments s) as [|[| ds | ls] segs];
      try destruct (starts_with is_digit s);
      eexists _, _; (split; [reflexivity | split; discriminate]).
  - assert (is_tilde c = false) as Ht.
    { destruct (is_tilde c) eqn:Ht; [| reflexivity].
      apply tilde_not_alnum in Ht as [? ?]. congruence. }
    rewrite Ht.
    destruct (split_segments s) as [|[| ds | ls] segs];
      try destruct (starts_with is_alpha s);
      eexists _, _; (split; [reflexivity | split; discriminate]).
  - simpl in Hc. destruct (is_tilde c); [| discriminate].
    eexists _, _; split; [reflexivity | split; reflexivity].
Qed.

Lemma skip_separators_head s c rest :
  skip_separators s = c :: rest -> is_separator c = false.
Proof.
  induction s as [|x s IH]; simpl; [discriminate |].
  destruct (is_separator x) eqn:E; [exact IH |].
  intros [= <- <-]. exact E.
Qed.

(** How the empty string compares with any other. *)
Lemma version_compare_empty b :
  version_compare "" b =
  match first_significant b with
  | None => Eq
  | Some c => if is_tilde c then Gt else Lt
  end.
Proof.
  unfold version_compare. rewrite compare_in_spec.
  unfold first_significant, segments_of at 2.
  rewrite <- split_segments_skip.
  destruct (skip_separators _) as [|c rest] eqn:E; [reflexivity |].
  apply skip_separators_head in E.
  destruct (split_segments_head c rest E) as (seg & segs & -> & Hseg).
  change (segments_of "") with (@nil segment).
  rewrite compare_segments_nil_l. cbn [head].
  destruct (is_tilde c).
  - now rewrite (proj2 Hseg eq_refl).
  - destruct seg; [| reflexivity | reflexivity].
    discriminate (proj1 Hseg eq_refl).
Qed.

Lemma separator_char_spec c :
  separator_char c = true ->
  is_digit c = false /\ is_alpha c = false /\ is_tilde c = false /\
  (to_N c =? 0)%N = false.
Proof.
  unfold separator_char, is_separator.
  destruct (is_digit c), (is_alpha c), (is_tilde c), (to_N c =? 0)%N;
    simpl; intros; try discriminate; auto.
Qed.

Lemma to_N_eqb_eq x y : (to_N x =? to_N y)%N = true -> x = y.
Proof.
  intros H%N.eqb_eq.
  assert (Some x = Some y) as [= ->]; [| reflexivity].
  rewrite <- (of_to_N x), <- (of_to_N y). now rewrite H.
Qed.

Lemma same_but_separators_starts p a b :
  (forall c, separator_char c = true -> p c = false) ->
  same_but_separators a b = true -> starts_with p a = starts_with p b.
Proof.
  intros Hp. destruct a as [|x a], b as [|y b]; simpl; try discriminate; auto.
  intros [[Hxy | [Hx Hy]%andb_prop]%orb_prop _]%andb_prop.
  - now rewrite (to_N_eqb_eq _ _ Hxy).
  - now rewrite (Hp _ Hx), (Hp _ Hy).
Qed.

Lemma same_but_separators_segments a b :
  same_but_separators a b = true -> split_segments a = split_segments b.
Proof.
  revert b. induction a as [|x a IH]; intros [|y b]; simpl; try discriminate; auto.
  intros [Hhead Htail]%andb_prop.
  rewrite (IH _ Htail).
  rewrite (same_but_separators_starts is_digit a b), (same_but_separators_starts is_alpha a b);
    auto; try (intros c Hc; now apply separator_char_spec in Hc).
  apply orb_prop in Hhead as [Hxy | [Hx Hy]%andb_prop].
  - now rewrite (to_N_eqb_eq _ _ Hxy).
  - apply separator_char_spec in Hx as (-> & -> & -> & _).
    apply separator_char_spec in Hy as (-> & -> & -> & _).
    reflexivity.
Qed.

Lemma same_but_separators_c_char_p a b :
  same_but_separators a b = true ->
  same_but_separators (c_char_p a) (c_char_p b) = true.
Proof.
  revert b. induction a as [|x a IH]; intros [|y b]; simpl; try discriminate; auto.
  intros [Hhead Htail]%andb_prop.
  apply orb_prop in Hhead as [Hxy | [Hx Hy]%andb_prop].
  - rewrite <- (to_N_eqb_eq _ _ Hxy).
    destruct (to_N x =? 0)%N; simpl; [reflexivity |].
    rewrite N.eqb_refl. simpl. auto.
  - pose proof (separator_char_spec _ Hx) as (_ & _ & _ & ->).
    pose proof (separator_char_spec _ Hy) as (_ & _ & _ & ->).
    simpl. rewrite Hx, Hy, (IH _ Htail). simpl. now rewrite orb_true_r.
Qed.

End VersionFacts.

(** C1: the comparison of version strings through the [IPAVersion] objects
    that [parse_ipa_version] returns is a total order up to the equality
    [__eq__] computes. For all strings [a], [b], [c] and whatever the class
    attribute holds: a string compares [Eq] with itself; exchanging the
    arguments flips the result; [Lt], [Eq] and the order [<=] are
    transitive; [__eq__] and [__lt__] answer as the three-way result says;
    and the result depends neither on the class attribute nor on how often
    the comparison has been made. *)
Theorem version_comparison_total_order (cls cls' : cls_state) (a b c : string) :
  compare_in cls a a = Eq /\
  compare_in cls b a = CompOpp (compare_in cls a b) /\
  (compare_in cls a b = Lt -> compare_in cls b c = Lt -> compare_in cls a c = Lt) /\
  (compare_in cls a b = Eq -> compare_in cls b c = Eq -> compare_in cls a c = Eq) /\
  (compare_in cls a b <> Gt -> compare_in cls b c <> Gt -> compare_in cls a c <> Gt) /\
  (fst (__eq__ cls (parse_ipa_version a) (parse_ipa_version b)) = true
   <-> compare_in cls a b = Eq) /\
  (fst (__lt__ cls (parse_ipa_version a) (parse_ipa_version b)) = true
   <-> compare_in cls a b = Lt) /\
  compare_in cls' a b = compare_in cls a b /\
  compare_in (snd (compare_versions cls a b)) a b = compare_in cls a b.
Proof.
  repeat split.
  - apply (cmp_refl (cmp := compare_in cls)).
  - apply (cmp_antisym (cmp := compare_in cls)).
  - apply (cmp_lt_trans (cmp := compare_in cls)).
  - apply (cmp_eq_trans (compare_in cls)).
  - apply (cmp_le_trans (compare_in cls)).
  - rewrite __eq___spec, compare_in_spec.
    destruct (Librpm.compare_segments _ _); congruence.
  - rewrite __eq___spec, compare_in_spec. now intros ->.
  - rewrite __lt___spec, compare_in_spec.
    destruct (Librpm.compare_segments _ _); congruence.
  - rewrite __lt___spec, compare_in_spec. now intros ->.
  - now rewrite !compare_in_spec.
  - now rewrite !compare_in_spec.
Qed.

Lemma version_comparison_total_order_witness :
  compare_in None "1.0" "1.1" = Lt /\
  compare_in None "1.0" "1_0" = Eq /\
  compare_in (Some librpm_rpmvercmp) "1.0" "1.0.1" = compare_in None "1.0" "1.0.1".
Proof.
  pose proof (version_comparison_total_order None (Some librpm_rpmvercmp)
                "1.0" "1.0.1" "1.1") as (_ & _ & Hlt & _ & _ & _ & _ & Hst & _).
  pose proof (version_comparison_total_order None None
                "1.0" "1-0" "1_0") as (_ & _ & _ & Heq & _).
  split; [apply Hlt; reflexivity |].
  split; [apply Heq; reflexivity | exact Hst].
Defined.

(** C2: on the inputs the specification lists the comparator returns
    LESS for ("1.0", "1.0.1"), ("1.2-1", "1.2-2") and ("1.0~rc1", "1.0"),
    and GREATER for ("2.0", "1.9.9"). *)
Theorem version_compare_listed_inputs :
  version_compare "1.0" "1.0.1" = Lt /\
  version_compare "1.2-1" "1.2-2" = Lt /\
  version_compare "1.0~rc1" "1.0" = Lt /\
  version_compare "2.0" "1.9.9" = Gt.
Proof. repeat split; vm_compute; reflexivity. Qed.

(** C8, as the specification states it, fails: the empty string is not
    less than every non-empty string. It is greater than a string that
    starts with a tilde. *)
Lemma empty_string_not_least :
  ~ (forall b : string, b <> "" -> version_compare "" b = Lt).
Proof.
  intros H. specialize (H "~" ltac:(discriminate)).
  vm_compute in H. discriminate.
Qed.

(** C8, amended: among version strings without a caret, the empty string
    compares less than a string whose first character that is not a
    separator is a digit or a letter, and greater than one where that
    character is a tilde. Two such strings that differ only in separator
    characters, position by position, compare equal. *)
Theorem version_compare_empty_and_separators (a b : string) :
  caret_free a = true -> caret_free b = true ->
  (forall x, first_significant b = Some x ->
     version_compare "" b = if Librpm.is_tilde x then Gt else Lt) /\
  (same_but_separators (encode_utf8 a) (encode_utf8 b) = true ->
   version_compare a b = Eq).
Proof.
  intros _ _. split.
  - intros x Hx. rewrite version_compare_empty, Hx. reflexivity.
  - intros H%same_but_separators_c_char_p%same_but_separators_segments.
    unfold version_compare. rewrite !compare_in_spec.
    unfold segments_of at 1. rewrite H. fold (segments_of b).
    apply LibrpmFacts.compare_segments_refl.
Qed.

Lemma version_compare_empty_and_separators_witness :
  version_compare "" "1.0" = Lt /\
  version_compare "" "~1" = Gt /\
  version_compare "1.0" "1_0" = Eq.
Proof.
  split; [exact (proj1 (version_compare_empty_and_separators "" "1.0" eq_refl eq_refl)
                   _ eq_refl) |].
  split; [exact (proj1 (version_compare_empty_and_separators "" "~1" eq_refl eq_refl)
                   _ eq_refl) |].
  exact (proj2 (version_compare_empty_and_separators "1.0" "1_0" eq_refl eq_refl)
           eq_refl).
Defined.

(** ** Running computations *)

Lemma bind_ok {A B} (m : M A) (k : A -> M B) w a w' :
  m w = (Ok a, w') -> bind m k w = k a w'.
Proof. unfold bind. now intros ->. Qed.

Lemma bind_raise {A B} (m : M A) (k : A -> M B) w e w' :
  m w = (Raise e, w') -> bind m k w = (Raise e, w').
Proof. unfold bind. now intros ->. Qed.

Lemma bind_Ok_inv {A B} (m : M A) (k : A -> M B) w b w' :
  bind m k w = (Ok b, w') ->
  exists a w1, m w = (Ok a, w1) /\ k a w1 = (Ok b, w').
Proof.
  unfold bind. destruct (m w) as [[a|e] w1]; [eauto | discriminate].
Qed.

Lemma try_except_ok {A} (m : M A) handler w a w' :
  m w = (Ok a, w') -> try_except m handler w = (Ok a, w').
Proof. unfold try_except. now intros ->. Qed.

Lemma try_except_caught {A} (m : M A) handler w e w' h :
  m w = (Raise e, w') -> handler e = Some h -> try_except m handler w = h w'.
Proof. unfold try_except. now intros -> ->. Qed.

Lemma try_except_passed {A} (m : M A) handler w e w' :
  m w = (Raise e, w') -> handler e = None -> try_except m handler w = (Raise e, w').
Proof. unfold try_except. now intros -> ->. Qed.

Lemma emit_run e w : emit e w = (Ok tt, logged e w).
Proof. reflexivity. Qed.

Lemma logger_run lvl fmt w : logger lvl fmt w = (Ok tt, logged (Log lvl fmt) w).
Proof. reflexivity. Qed.

Section PrimitiveFacts.

Variable host : Host.

Lemma open_w_ok path w :
  writable host w path ->
  open_w host path w =
  (Ok tt, mkWorld (<[path := File ""]> (fs w)) (fstore_files w) (journal w)).
Proof.
  intros [Hfault Hdir]. unfold open_w, io_check, bind, get_fs. rewrite Hfault.
  simpl. destruct (fs w !! path) as [[c|]|]; try reflexivity. contradiction.
Qed.

Lemma f_write_ok path text content w :
  fs w !! path = Some (File content) ->
  f_write path text w =
  (Ok tt, mkWorld (<[path := File (content ++ text)]> (fs w)) (fstore_files w) (journal w)).
Proof. intros H. unfold f_write, bind, get_fs. simpl. now rewrite H. Qed.

(** Opening a file for writing and writing one text leaves that text. *)
Lemma write_new_file path text w :
  writable host w path ->
  exists w2,
    bind (open_w host path) (fun _ => f_write path text) w = (Ok tt, w2) /\
    fs w2 !! path = Some (File text) /\
    fstore_files w2 = fstore_files w /\ journal w2 = journal w.
Proof.
  intros Hw. rewrite (bind_ok _ _ _ _ _ (open_w_ok _ _ Hw)).
  erewrite f_write_ok by (simpl; apply lookup_insert_eq).
  eexists. split; [reflexivity |]. simpl. now rewrite lookup_insert_eq.
Qed.

End PrimitiveFacts.

(** ** The resolver *)

Section ResolverFacts.

Variable paths : Paths.
Variable host : Host.
Variable base : list string -> list string -> bool -> bool -> M unit.

Lemma nonempty_list_spec v :
  nonempty_list v = truthy v && isinstance_list v.
Proof. destruct v as [| | | | |[|x l]]; simpl; auto using andb_false_r. Qed.

(** C10: when [nameservers] or [searchdomains] is empty or not a list,
    [configure_dns_resolver] raises [AssertionError] and leaves the world
    as it found it: no file is read or written and no collaborator is
    called, whatever the base class method would do. *)
Theorem configure_dns_resolver_asserts
    (nameservers searchdomains : pyval) (resolve1_enabled fstore : bool) (w : World) :
  nonempty_list nameservers = false \/ nonempty_list searchdomains = false ->
  configure_dns_resolver paths host base nameservers searchdomains
    resolve1_enabled fstore w = (Raise AssertionError, w).
Proof.
  rewrite !nonempty_list_spec. unfold configure_dns_resolver, bind, assert_.
  destruct (truthy nameservers && isinstance_list nameservers); simpl.
  - intros [H | H]; [discriminate | rewrite H; reflexivity].
  - reflexivity.
Qed.

End ResolverFacts.

Lemma configure_dns_resolver_asserts_witness :
  configure_dns_resolver fedora_paths plain_host base_noop
    (PyTuple ["10.0.0.1"]) (PyList ["example.com"]) false true empty_world
  = (Raise AssertionError, empty_world) /\
  configure_dns_resolver fedora_paths plain_host base_noop
    (PyList ["10.0.0.1"]) (PyList []) false true empty_world
  = (Raise AssertionError, empty_world).
Proof.
  split; apply configure_dns_resolver_asserts; [left | right]; reflexivity.
Defined.

(** C3, as the specification states it, fails: the file written for
    nameservers 10.0.0.1 and 10.0.0.2 and the search domain example.com
    does not start with the [search] line; its first line is the comment
    that marks the file as generated. *)
Lemma resolv_conf_first_line_is_header :
  exists content,
    fs (snd (configure_dns_resolver fedora_paths plain_host base_noop
               (PyList ["10.0.0.1"; "10.0.0.2"]) (PyList ["example.com"])
               false false empty_world))
      !! RESOLV_CONF fedora_paths = Some (File content) /\
    head (str_lines content) = Some "# auto-generated by IPA installer" /\
    head (str_lines content) <> Some "search example.com".
Proof.
  eexists. split; [vm_compute; reflexivity |].
  split; [vm_compute; reflexivity | vm_compute; discriminate].
Qed.

Section StaticResolverFacts.

Variable paths : Paths.
Variable host : Host.
Variable base : list string -> list string -> bool -> bool -> M unit.

(** C3, amended: with NetworkManager and systemd-resolved disabled, when
    the base class method returns and the resolver file can be opened for
    writing, the call with nameservers 10.0.0.1 and 10.0.0.2 and the
    search domain example.com returns and leaves a resolver file of four
    lines: the comment [# auto-generated by IPA installer], then
    [search example.com], then one [nameserver] line per address, in
    input order. *)
Theorem resolv_conf_static_fallback (fstore : bool) (w w1 : World) :
  base ["10.0.0.1"; "10.0.0.2"] ["example.com"] false fstore w = (Ok tt, w1) ->
  nm_enabled host = false ->
  writable host w1 (RESOLV_CONF paths) ->
  exists w2 content,
    configure_dns_resolver paths host base
      (PyList ["10.0.0.1"; "10.0.0.2"]) (PyList ["example.com"]) false fstore w
      = (Ok tt, w2) /\
    fs w2 !! RESOLV_CONF paths = Some (File content) /\
    str_lines content =
      ["# auto-generated by IPA installer"; "search example.com";
       "nameserver 10.0.0.1"; "nameserver 10.0.0.2"].
Proof.
  intros Hbase Hnm Hw.
  assert (forall w', fs w' = fs w1 -> writable host w' (RESOLV_CONF paths)) as Hw'.
  { intros w' Hfs. destruct Hw as [Hfault Hdir]. split; [exact Hfault | now rewrite Hfs]. }
  assert (exists w', fs w' = fs w1 /\
    (if fstore then
       bind (fstore_has_file (RESOLV_CONF paths))
         (fun saved => if negb saved then fstore_backup_file (RESOLV_CONF paths)
                       else ret tt)
     else ret tt) w1 = (Ok tt, w')) as (w' & Hfs & Hbackup).
  { destruct fstore; [| eexists; split; reflexivity].
    unfold fstore_has_file, fstore_backup_file, bind, get_fstore, get_fs, ret,
      emit, set_fstore. simpl.
    destruct (fstore_files w1 !! RESOLV_CONF paths); simpl;
      [eexists; split; [| reflexivity]; reflexivity |].
    destruct (fs w1 !! RESOLV_CONF paths) as [[c|]|]; simpl;
      eexists; (split; [| reflexivity]); reflexivity. }
  destruct (write_new_file host (RESOLV_CONF paths)
              (join nl ["# auto-generated by IPA installer"; "search example.com";
                        "nameserver 10.0.0.1"; "nameserver 10.0.0.2"])
              (logged (Log DEBUG
                 "Neither Network Manager nor systemd-resolved are enabled, write %s directly.")
                 w'))
    as (w2 & Hrun & Hfile & _ & _); [apply Hw'; exact Hfs |].
  exists w2, (join nl ["# auto-generated by IPA installer"; "search example.com";
                       "nameserver 10.0.0.1"; "nameserver 10.0.0.2"]).
  split; [| split; [exact Hfile | vm_compute; reflexivity]].
  unfold configure_dns_resolver.
  rewrite (bind_ok _ _ _ tt w) by reflexivity.
  rewrite (bind_ok _ _ _ tt w) by reflexivity.
  cbn [items_of].
  rewrite (bind_ok _ _ _ _ _ Hbase).
  rewrite (bind_ok _ _ _ _ _ Hbackup).
  rewrite (bind_ok _ _ _ false w') by (unfold nm_is_enabled; now rewrite Hnm).
  rewrite (bind_ok _ _ _ tt w') by reflexivity.
  cbn [negb andb].
  rewrite (bind_ok _ _ _ _ _ (logger_run _ _ _)).
  exact Hrun.
Qed.

End StaticResolverFacts.

Lemma resolv_conf_static_fallback_witness :
  exists w2 content,
    configure_dns_resolver fedora_paths plain_host base_noop
      (PyList ["10.0.0.1"; "10.0.0.2"]) (PyList ["example.com"]) false true
      empty_world = (Ok tt, w2) /\
    fs w2 !! RESOLV_CONF fedora_paths = Some (File content) /\
    str_lines content =
      ["# auto-generated by IPA installer"; "search example.com";
       "nameserver 10.0.0.1"; "nameserver 10.0.0.2"].
Proof.
  apply (resolv_conf_static_fallback fedora_paths plain_host base_noop true
           empty_world empty_world).
  - reflexivity.
  - reflexivity.
  - split; [reflexivity | vm_compute; discriminate].
Defined.

(** ** Removing files *)


Section RemovalFacts.

Variable paths : Paths.
Variable host : Host.


End RemovalFacts.


(** ** SELinux booleans *)

(** C5, as the specification states it, fails: with SELinux enabled and
    the one required boolean already in the required state, nothing is
    changed ([setsebool] is not run) and the method still returns [True]. *)
Lemma set_selinux_booleans_true_without_change :
  set_selinux_booleans fedora_paths (selinux_host 0) [("c", Some "on")] None empty_world =
  (Ok true,
   mkWorld ∅ ∅ [Run ["/usr/sbin/selinuxenabled"]; Run ["/usr/sbin/getsebool"; "c"]]).
Proof. vm_compute. reflexivity. Qed.

Section SELinuxFacts.

Variable paths : Paths.
Variable host : Host.

Lemma is_selinux_enabled_run (w : World) :
  is_selinux_enabled paths host w =
  (Ok (selinux_enabled_on paths host), logged (Run [SELINUXENABLED paths]) w).
Proof.
  unfold is_selinux_enabled, selinux_enabled_on, try_except, bind, ipautil_run,
    bind, emit.
  destruct (exec host [SELINUXENABLED paths]) as [[|rc|rc] out | errno]; reflexivity.
Qed.

(** C5, amended: [set_selinux_booleans] returns [False] and touches
    nothing but the [selinuxenabled] probe whenever SELinux is not
    enabled; when SELinux is enabled and no error is raised it returns
    [True], whether or not any boolean had to be changed. *)
Theorem set_selinux_booleans_result
    (required_settings : dict (option string))
    (backup_func : option (string -> string -> M unit)) (w : World) :
  (selinux_enabled_on paths host = false ->
   set_selinux_booleans paths host required_settings backup_func w =
   (Ok false, logged (Run [SELINUXENABLED paths]) w)) /\
  (selinux_enabled_on paths host = true ->
   forall v w',
     set_selinux_booleans paths host required_settings backup_func w = (Ok v, w') ->
     v = true).
Proof.
  unfold set_selinux_booleans.
  rewrite (bind_ok _ _ _ _ _ (is_selinux_enabled_run w)).
  split; intros ->; cbn [negb]; [reflexivity |].
  intros v w' (uf & w1 & _ & H)%bind_Ok_inv.
  apply bind_Ok_inv in H as (failed & w2 & _ & H).
  destruct failed; [| discriminate].
  now injection H as <- _.
Qed.

End SELinuxFacts.

Lemma set_selinux_booleans_result_witness :
  set_selinux_booleans fedora_paths plain_host [("c", Some "on")] None empty_world =
  (Ok false, logged (Run ["/usr/sbin/selinuxenabled"]) empty_world) /\
  fst (set_selinux_booleans fedora_paths (selinux_host 0)
         [("b", Some "on"); ("c", Some "on")] None empty_world) = Ok true.
Proof.
  split.
  - apply (proj1 (set_selinux_booleans_result fedora_paths plain_host
                    [("c", Some "on")] None empty_world)).
    reflexivity.
  - destruct (set_selinux_booleans fedora_paths (selinux_host 0)
                [("b", Some "on"); ("c", Some "on")] None empty_world)
      as [r w'] eqn:E.
    assert (exists v, r = Ok v) as [v ->].
    { vm_compute in E. injection E as <- _. eexists; reflexivity. }
    simpl. f_equal.
    apply (proj2 (set_selinux_booleans_result fedora_paths (selinux_host 0)
                    [("b", Some "on"); ("c", Some "on")] None empty_world)
             eq_refl v w' E).
Defined.

(** ** PKCS#11 module overrides *)

Lemma prefix_app (n a b : string) :
  String.prefix n a = true -> String.prefix n (a ++ b) = true.
Proof.
  revert a. induction n as [|x n IH]; intros [|y a]; simpl; try discriminate;
    try (intros _; destruct b; reflexivity).
  destruct (ascii_dec x y); [apply IH | discriminate].
Qed.

Lemma str_contains_app_l (n a b : string) :
  str_contains n a = true -> str_contains n (a ++ b) = true.
Proof.
  induction a as [|y a IH]; intros H.
  - simpl in H. rewrite orb_false_r in H.
    destruct n; [| discriminate].
    change (str_contains "" b = true). destruct b; reflexivity.
  - change (String y a ++ b) with (String y (a ++ b)).
    cbn [str_contains] in H |- *. apply orb_prop in H as [H | H].
    + apply (prefix_app n (String y a) b) in H.
      change (String y a ++ b) with (String y (a ++ b)) in H.
      now rewrite H.
    + rewrite (IH H). apply orb_true_r.
Qed.

Lemma logged_all_compose evs1 evs2 w :
  logged_all evs2 (logged_all evs1 w) = logged_all (evs1 ++ evs2) w.
Proof. unfold logged_all. simpl. now rewrite <- app_assoc. Qed.

Lemma backups_of_app path j1 j2 :
  backups_of path (j1 ++ j2) = (backups_of path j1 + backups_of path j2)%nat.
Proof. unfold backups_of. now rewrite filter_app, length_app. Qed.

Lemma backup_free_count path evs : backup_free evs -> backups_of path evs = 0%nat.
Proof.
  unfold backups_of. induction evs as [|e evs IH]; intros H; [reflexivity |].
  assert (backup_free evs) as Hevs by (intros p Hp; apply (H p); now right).
  destruct e; simpl; auto.
  destruct (H path0). now left.
Qed.

Section Pkcs11Facts.

Variable paths : Paths.
Variable host : Host.

Lemma restore_context_frame (filepath : string) (force : bool) (w : World) :
  exists r evs,
    restore_context paths host filepath force w = (r, logged_all evs w) /\
    backup_free evs.
Proof.
  unfold restore_context.
  rewrite (bind_ok _ _ _ _ _ (is_selinux_enabled_run paths host w)).
  destruct (selinux_enabled_on paths host); cbn [negb].
  2: { eexists _, _. split; [reflexivity |]. intros p [H | []]. discriminate. }
  unfold os_path_exists, bind, get_fs, ret. cbn.
  destruct (fs w !! SBIN_RESTORECON paths); cbn.
  2: { eexists _, _. split; [reflexivity |]. intros p [H | []]. discriminate. }
  unfold ipautil_run, bind, emit. cbn.
  destruct (exec host _) as [rc out | errno]; rewrite ?andb_false_r; cbn;
    unfold logged; rewrite logged_all_compose;
    (eexists _, _; split; [reflexivity |]);
    intros p [H | [H | []]]; discriminate.
Qed.

Lemma open_w_refused path w :
  ~ writable host w path -> exists e, open_w host path w = (Raise e, w).
Proof.
  unfold writable, open_w, io_check, bind, get_fs, raise, ret. intros H.
  destruct (io_fault host path) as [errno|]; [eexists; reflexivity |].
  cbn. destruct (fs w !! path) as [[c|]|] eqn:E;
    try (exfalso; apply H; split; [reflexivity | congruence]).
  eexists; reflexivity.
Qed.

Lemma writable_dec path w : writable host w path \/ ~ writable host w path.
Proof.
  unfold writable.
  destruct (io_fault host path); [right; intros [? _]; discriminate |].
  destruct (fs w !! path) as [[c|]|]; [left | right | left];
    try (split; congruence). intros [_ H]. now apply H.
Qed.

(** Writing the override leaves the backup store alone, records no
    backup and, when the file could be opened, leaves a file that carries
    the IPA marker. *)
Lemma write_module_file_frame (filename module : string)
    (disabled_in : list string) (w : World) :
  exists r w' evs,
    write_module_file paths host filename module disabled_in w = (r, w') /\
    fstore_files w' = fstore_files w /\
    journal w' = (journal w ++ evs)%list /\ backup_free evs /\
    (fs w' !! filename = fs w !! filename \/
     exists content, fs w' !! filename = Some (File content) /\
                     str_contains "IPA" content = true).
Proof.
  unfold write_module_file.
  destruct (writable_dec filename w) as [Hw | Hw].
  - rewrite (bind_ok _ _ _ _ _ (open_w_ok host _ _ Hw)).
    erewrite bind_ok by (apply f_write_ok; cbn; apply lookup_insert_eq).
    erewrite bind_ok by (apply f_write_ok; cbn; apply lookup_insert_eq).
    erewrite bind_ok by (apply f_write_ok; cbn; apply lookup_insert_eq).
    erewrite bind_ok by (unfold os_fchmod; apply emit_run).
    match goal with |- context [bind (restore_context _ _ _ _) _ ?w0] =>
      destruct (restore_context_frame filename false w0) as (r & evs & Hrc & Hfree);
      set (w1 := w0) in *
    end.
    assert (exists content, fs w1 !! filename = Some (File content) /\
                            str_contains "IPA" content = true) as Hmark.
    { eexists. split; [cbn; apply lookup_insert_eq |].
      apply str_contains_app_l, str_contains_app_l. vm_compute. reflexivity. }
    destruct r as [[]|e].
    + exists (Ok tt),
        (logged_all (evs ++ [Log DEBUG "Created PKCS#11 module config '%s'."]) w1),
        (Chmod filename 420 :: evs ++ [Log DEBUG "Created PKCS#11 module config '%s'."])%list.
      split.
      { rewrite (bind_ok _ _ _ _ _ Hrc), logger_run. unfold logged.
        now rewrite logged_all_compose. }
      split; [reflexivity |].
      split; [cbn; now rewrite <- app_assoc |].
      split; [| right; exact Hmark].
      intros p [H | H]; [discriminate |].
      apply in_app_or in H as [H | [H | []]]; [now apply (Hfree p) | discriminate].
    + exists (Raise e), (logged_all evs w1), (Chmod filename 420 :: evs).
      split; [now rewrite (bind_raise _ _ _ _ _ Hrc) |].
      split; [reflexivity |].
      split; [cbn; now rewrite <- app_assoc |].
      split; [| right; exact Hmark].
      intros p [H | H]; [discriminate | now apply (Hfree p)].
  - destruct (open_w_refused _ _ Hw) as [e He].
    rewrite (bind_raise _ _ _ _ _ He).
    exists (Raise e), w, []. rewrite app_nil_r.
    repeat split; auto. intros p [].
Qed.

(** The backup block: when a backup is due it logs, records the backup
    and stores the file's contents; otherwise it changes nothing. *)
Lemma backup_module_file_run (filename : string) (w : World) :
  if backup_due host w filename then
    exists content,
      fs w !! filename = Some (File content) /\
      backup_module_file host filename w =
      (Ok tt, mkWorld (fs w) (<[filename := content]> (fstore_files w))
                (journal w ++ [Log DEBUG "Backing up existing '%s'."; BackupFile filename]))
  else exists r, backup_module_file host filename w = (r, w).
Proof.
  unfold backup_due, backup_module_file, os_path_isfile, read_file, decode_text,
    io_check, and_then, fstore_has_file, fstore_backup_file, logger, emit, logged,
    logged_all, set_fstore, bind, get_fs, get_fstore, ret, raise.
  destruct (fs w !! filename) as [[content|]|] eqn:Efs; cbn;
    destruct (io_fault host filename) as [errno|]; cbn; rewrite ?Efs; cbn;
    try (destruct (fstore_files w !! filename); eexists; reflexivity);
    try (eexists; reflexivity).
  destruct (utf8_valid content); cbn;
    [| destruct (fstore_files w !! filename); eexists; reflexivity].
  destruct (str_contains "IPA" content); cbn;
    destruct (fstore_files w !! filename); cbn; rewrite ?Efs;
    try (destruct w; eexists; reflexivity).
  exists content. split; [reflexivity |]. cbn. now rewrite <- app_assoc.
Qed.

Lemma backup_due_congr (w w' : World) (path : string) :
  fs w' !! path = fs w !! path ->
  fstore_files w' !! path = fstore_files w !! path ->
  backup_due host w' path = backup_due host w path.
Proof. unfold backup_due. now intros -> ->. Qed.

Lemma backup_due_marked (w : World) (path content : string) :
  fs w !! path = Some (File content) -> str_contains "IPA" content = true ->
  backup_due host w path = false.
Proof.
  unfold backup_due. intros -> ->. rewrite andb_false_r.
  destruct (io_fault host path), (fstore_files w !! path); reflexivity.
Qed.

Lemma backup_due_stored (w : World) (path content : string) :
  fstore_files w !! path = Some content -> backup_due host w path = false.
Proof.
  unfold backup_due. intros ->.
  destruct (io_fault host path), (fs w !! path) as [[c|]|]; reflexivity.
Qed.

Local Abbreviation softhsm2_module := (module_filename paths "softhsm2").

(** One call: the journal grows by at most one backup, of the softhsm2
    override and only when one is due, and afterwards none is due. *)
Lemma configure_pkcs11_modules_once (w : World) :
  exists added,
    journal (snd (configure_pkcs11_modules paths host w)) = (journal w ++ added)%list /\
    (forall p, In (BackupFile p) added -> p = softhsm2_module) /\
    backups_of softhsm2_module added =
      (if backup_due host w softhsm2_module then 1 else 0)%nat /\
    backup_due host (snd (configure_pkcs11_modules paths host w)) softhsm2_module = false.
Proof.
  unfold configure_pkcs11_modules, PKCS11_MODULES. cbn [configure_modules].
  pose proof (backup_module_file_run softhsm2_module w) as Hb.
  destruct (backup_due host w softhsm2_module) eqn:Hdue.
  - destruct Hb as (content & Hfs & Hrun).
    rewrite (bind_ok _ _ _ _ _ Hrun).
    match goal with |- context [bind (write_module_file _ _ _ ?m ?d) _ ?w0] =>
      destruct (write_module_file_frame softhsm2_module m d w0)
        as (r & w' & evs & Hw & Hstore & Hj & Hfree & _)
    end.
    exists ([Log DEBUG "Backing up existing '%s'."; BackupFile softhsm2_module] ++ evs)%list.
    assert (snd (bind (write_module_file paths host softhsm2_module
                         (LIBSOFTHSM2_SO paths) ["p11-kit-proxy"])
                   (fun _ => ret ([] ++ [softhsm2_module])%list)
                   (mkWorld (fs w) (<[softhsm2_module := content]> (fstore_files w))
                      (journal w ++
                       [Log DEBUG "Backing up existing '%s'."; BackupFile softhsm2_module])))
            = w') as ->.
    { unfold bind. rewrite Hw. now destruct r. }
    split; [rewrite Hj; cbn; now rewrite <- app_assoc |].
    split.
    { intros p [H | [H | H]]; [discriminate | now injection H | now destruct (Hfree p)]. }
    split.
    { rewrite backups_of_app, (backup_free_count _ _ Hfree).
      unfold backups_of. cbn. now rewrite String.eqb_refl. }
    apply (backup_due_stored _ _ content). rewrite Hstore. cbn.
    apply lookup_insert_eq.
  - destruct Hb as [r Hrun]. destruct r as [[]|e].
    + rewrite (bind_ok _ _ _ _ _ Hrun).
      destruct (write_module_file_frame softhsm2_module (LIBSOFTHSM2_SO paths)
                  ["p11-kit-proxy"] w)
        as (r & w' & evs & Hw & Hstore & Hj & Hfree & Hmark).
      exists evs.
      assert (snd (bind (write_module_file paths host softhsm2_module
                           (LIBSOFTHSM2_SO paths) ["p11-kit-proxy"])
                     (fun _ => ret ([] ++ [softhsm2_module])%list) w) = w') as ->.
      { unfold bind. rewrite Hw. now destruct r. }
      split; [exact Hj |].
      split; [intros p Hp; now destruct (Hfree p) |].
      split; [now apply backup_free_count |].
      destruct Hmark as [Hsame | (content & Hfile & Hipa)].
      * etransitivity; [| exact Hdue].
        apply backup_due_congr; [exact Hsame | now rewrite Hstore].
      * now apply (backup_due_marked _ _ content).
    + rewrite (bind_raise _ _ _ _ _ Hrun). exists []. cbn.
      rewrite app_nil_r. repeat split; auto. intros p [].
Qed.

(** C7: [configure_pkcs11_modules] backs up the softhsm2 override exactly
    when it exists as a file that can be read as text, does not contain
    the marker IPA and is not held by the backup store yet, and then once;
    it backs up nothing else. After the call no backup is due any more, so
    a second call adds none: over two calls the journal gains one backup
    if one was due at the start and none otherwise. A file whose bytes do
    not decode stops the call with [UnicodeDecodeError] before any backup
    or write. *)
Theorem configure_pkcs11_modules_backs_up_once (w : World) :
  (exists added,
     journal (snd (configure_pkcs11_modules paths host w)) = (journal w ++ added)%list /\
     (forall p, In (BackupFile p) added -> p = softhsm2_module) /\
     backups_of softhsm2_module added =
       (if backup_due host w softhsm2_module then 1 else 0)%nat) /\
  (forall content,
     fs w !! softhsm2_module = Some (File content) ->
     str_contains "IPA" content = true \/ fstore_files w !! softhsm2_module <> None ->
     backup_due host w softhsm2_module = false) /\
  backups_of softhsm2_module
    (journal (snd (configure_pkcs11_modules paths host
                     (snd (configure_pkcs11_modules paths host w))))) =
  (backups_of softhsm2_module (journal w) +
   (if backup_due host w softhsm2_module then 1 else 0))%nat /\
  (forall content,
     io_fault host softhsm2_module = None ->
     fs w !! softhsm2_module = Some (File content) ->
     utf8_valid content = false ->
     backup_due host w softhsm2_module = false /\
     configure_pkcs11_modules paths host w = (Raise (OtherError "UnicodeDecodeError"), w)).
Proof.
  destruct (configure_pkcs11_modules_once w) as (added & Hj & Honly & Hcount & Hafter).
  destruct (configure_pkcs11_modules_once (snd (configure_pkcs11_modules paths host w)))
    as (added' & Hj' & _ & Hcount' & _).
  split; [exists added; auto |].
  split; [| split].
  - intros content Hfile [Hipa | Hstored].
    + now apply (backup_due_marked _ _ content).
    + destruct (fstore_files w !! softhsm2_module) as [c|] eqn:E; [| congruence].
      now apply (backup_due_stored _ _ c).
  - rewrite Hj', Hj, !backups_of_app, Hcount, Hcount', Hafter. lia.
  - intros content Hfault Hfile Hbad. split.
    + unfold backup_due. rewrite Hfault, Hfile, Hbad.
      now destruct (fstore_files w !! softhsm2_module).
    + unfold configure_pkcs11_modules, PKCS11_MODULES. cbn [configure_modules].
      unfold backup_module_file, os_path_isfile, read_file, decode_text, io_check,
        bind, get_fs, ret, raise.
      rewrite Hfault. cbn [fs]. rewrite Hfile. cbn [fs]. rewrite Hfile, Hbad.
      reflexivity.
Qed.

End Pkcs11Facts.

(** ** A batch of SELinux booleans *)

(** C4, as the specification states it, fails: the query of [a] fails, the
    queries of [b] and [c] succeed and [b] has to change, but [setsebool]
    itself fails, so [b] is not applied and the aggregate error names [b]
    besides [a]. *)
Lemma failed_setsebool_names_more :
  query_of fedora_paths (selinux_host 1) "a" = QueryFailed 1 /\
  query_of fedora_paths (selinux_host 1) "b" = QueryState "off" /\
  query_of fedora_paths (selinux_host 1) "c" = QueryState "on" /\
  fst (set_selinux_booleans fedora_paths (selinux_host 1)
         [("a", Some "on"); ("b", Some "on"); ("c", Some "on")] None empty_world) =
  Raise (SetseboolError [("a", "on"); ("b", "on")]
           "/usr/sbin/setsebool -P a=on b=on").
Proof. repeat split; vm_compute; reflexivity. Qed.

Lemma dict_set_fresh {V} (k : string) (v : V) (d : dict V) :
  ~ In k (dict_keys d) -> dict_set k v d = (d ++ [(k, v)])%list.
Proof.
  induction d as [|[k' v'] d IH]; intros H; [reflexivity |].
  cbn [dict_set]. destruct (String.eqb_spec k k') as [-> | Hne].
  - destruct H. now left.
  - cbn. f_equal. apply IH. intros Hin. apply H. now right.
Qed.

Lemma dict_update_fresh {V} (d other : dict V) :
  NoDup (dict_keys other) ->
  (forall k, In k (dict_keys other) -> ~ In k (dict_keys d)) ->
  dict_update d other = (d ++ other)%list.
Proof.
  unfold dict_update. revert d.
  induction other as [|[k v] other IH]; intros d Hnd Hfresh; cbn.
  - now rewrite app_nil_r.
  - cbn in Hnd. apply NoDup_cons_iff in Hnd as [Hk Hnd].
    rewrite (dict_set_fresh k v d) by (apply Hfresh; now left).
    rewrite IH; [now rewrite <- app_assoc | exact Hnd |].
    intros k' Hk'. unfold dict_keys. rewrite map_app, in_app_iff.
    intros [Hin | [<- | []]]; [| exact (Hk Hk')].
    apply (Hfresh k'); [now right | exact Hin].
Qed.

Section BooleanBatchFacts.

Variable paths : Paths.
Variable host : Host.
Variable backup_func : option (string -> string -> M unit).

Hypothesis backup_func_returns :
  match backup_func with
  | Some f => never_raises f
  | None => True
  end.

Lemma backup_func_run (setting state : string) (w : World) :
  exists w',
    match backup_func with
    | Some f => f setting state
    | None => ret tt
    end w = (Ok tt, w').
Proof.
  destruct backup_func as [f|]; [apply backup_func_returns | eexists; reflexivity].
Qed.

(** One turn of the loop, for a query that answers. *)
Lemma query_setting_run (setting state : string) (updated failed : dict string) (w : World) :
  match query_of paths host setting with
  | QueryFailed _ =>
      exists w', query_setting paths host backup_func setting state updated failed w =
                 (Ok (updated, dict_set setting state failed), w')
  | QueryState current =>
      exists w', query_setting paths host backup_func setting state updated failed w =
                 (Ok (if String.eqb current state then updated
                      else dict_set setting state updated, failed), w')
  | QueryBroken => True
  end.
Proof.
  unfold query_of, query_setting, try_except, ipautil_run, bind, emit.
  destruct (exec host [GETSEBOOL paths; setting]) as [rc out | errno]; [| exact I].
  destruct (rc =? 0) eqn:Hrc; cbn [negb andb output ret raise].
  - destruct (nth_error (str_split out) 2) as [current|]; [| exact I].
    destruct (backup_func_run setting current (logged (Run [GETSEBOOL paths; setting]) w))
      as [w' Hf].
    rewrite Hf.
    exists w'. now destruct (String.eqb current state).
  - eexists. reflexivity.
Qed.

Lemma query_settings_run (items : dict (option string)) :
  forall (updated failed : dict string) (w : World),
    all_answer paths host items ->
    NoDup (dict_keys items) ->
    (forall k, In k (dict_keys items) ->
               ~ In k (dict_keys updated) /\ ~ In k (dict_keys failed)) ->
    exists w',
      query_settings paths host backup_func items updated failed w =
      (Ok ((updated ++ needed_changes paths host items)%list,
           (failed ++ failed_queries paths host items)%list), w').
Proof.
  induction items as [|[setting [state|]] rest IH]; intros updated failed w Hans Hnd Hfresh.
  - cbn. rewrite !app_nil_r. eexists; reflexivity.
  - cbn [query_settings needed_changes failed_queries].
    assert (all_answer paths host rest) as Hans' by (intros s st Hin; apply (Hans s st); now right).
    cbn in Hnd. apply NoDup_cons_iff in Hnd as [Hnotin Hnd].
    destruct (Hfresh setting (or_introl eq_refl)) as [Hu Hf].
    pose proof (query_setting_run setting state updated failed w) as Hq.
    pose proof (Hans setting state (or_introl eq_refl)) as Hok.
    destruct (query_of paths host setting) as [rc | current |]; [| | congruence].
    + destruct Hq as [w1 Hq]. rewrite (bind_ok _ _ _ _ _ Hq). cbn [fst snd].
      rewrite (dict_set_fresh _ _ _ Hf).
      destruct (IH updated (failed ++ [(setting, state)])%list w1 Hans' Hnd) as [w' Hrest].
      { intros k Hk. destruct (Hfresh k (or_intror Hk)) as [Hku Hkf].
        split; [exact Hku |]. unfold dict_keys. rewrite map_app, in_app_iff.
        intros [Hin | [<- | []]]; auto. }
      exists w'. rewrite Hrest. now rewrite <- app_assoc.
    + destruct Hq as [w1 Hq]. rewrite (bind_ok _ _ _ _ _ Hq). cbn [fst snd].
      destruct (String.eqb current state).
      * apply IH; auto. intros k Hk. apply Hfresh. now right.
      * rewrite (dict_set_fresh _ _ _ Hu).
        destruct (IH (updated ++ [(setting, state)])%list failed w1 Hans' Hnd) as [w' Hrest].
        { intros k Hk. destruct (Hfresh k (or_intror Hk)) as [Hku Hkf].
          split; [| exact Hkf]. unfold dict_keys. rewrite map_app, in_app_iff.
          intros [Hin | [<- | []]]; auto. }
        exists w'. rewrite Hrest. now rewrite <- app_assoc.
  - cbn [query_settings needed_changes failed_queries].
    cbn in Hnd. apply NoDup_cons_iff in Hnd as [Hnotin Hnd].
    apply IH; auto.
    + intros s st Hin. apply (Hans s st). now right.
    + intros k Hk. apply Hfresh. now right.
Qed.

Lemma failed_queries_none (items : dict (option string)) :
  (forall setting state, In (setting, Some state) items ->
     exists current, query_of paths host setting = QueryState current) ->
  failed_queries paths host items = [].
Proof.
  induction items as [|[setting [state|]] rest IH]; intros H; [reflexivity | |].
  - cbn. destruct (H setting state (or_introl eq_refl)) as [current ->].
    apply IH. intros s st Hin. apply (H s st). now right.
  - cbn. apply IH. intros s st Hin. apply (H s st). now right.
Qed.

Lemma failed_queries_single (items : dict (option string)) (bad target : string) (rc : Z) :
  NoDup (dict_keys items) ->
  In (bad, Some target) items ->
  query_of paths host bad = QueryFailed rc ->
  (forall setting state, In (setting, Some state) items -> setting <> bad ->
     exists current, query_of paths host setting = QueryState current) ->
  failed_queries paths host items = [(bad, target)].
Proof.
  induction items as [|[setting ostate] rest IH]; intros Hnd Hin Hbad Hothers; [destruct Hin |].
  cbn in Hnd. apply NoDup_cons_iff in Hnd as [Hnotin Hnd].
  destruct Hin as [[= -> ->] | Hin].
  - cbn. rewrite Hbad. f_equal. apply failed_queries_none.
    intros s st Hs. apply (Hothers s st); [now right |].
    intros ->. apply Hnotin. unfold dict_keys. apply (in_map fst _ _ Hs).
  - assert (setting <> bad) as Hne.
    { intros ->. apply Hnotin. unfold dict_keys. apply (in_map fst _ _ Hin). }
    assert (failed_queries paths host rest = [(bad, target)]) as Hrest.
    { apply IH; auto. intros s st Hs. apply (Hothers s st). now right. }
    destruct ostate as [state|]; cbn; [| exact Hrest].
    destruct (Hothers setting state (or_introl eq_refl) Hne) as [current ->].
    exact Hrest.
Qed.

Lemma needed_changes_spec (items : dict (option string)) (setting state : string) :
  In (setting, state) (needed_changes paths host items) <->
  In (setting, Some state) items /\
  exists current, query_of paths host setting = QueryState current /\ current <> state.
Proof.
  induction items as [|[s [st|]] rest IH]; cbn.
  - split; [intros [] | intros [[] _]].
  - destruct (query_of paths host s) as [rc | current |] eqn:Hq.
    + rewrite IH. split; [intros [? ?]; auto |].
      intros [[[= -> ->] | Hin] Hc]; [| auto].
      destruct Hc as (c & Hc & _). congruence.
    + destruct (String.eqb_spec current st) as [-> | Hne].
      * rewrite IH. split; [intros [? ?]; auto |].
        intros [[[= -> ->] | Hin] Hc]; [| auto].
        destruct Hc as (c & Hc & Hne). congruence.
      * cbn. rewrite IH. split.
        -- intros [[= -> ->] | [Hin Hc]]; [| auto].
           split; [now left | eauto].
        -- intros [[[= -> ->] | Hin] Hc]; [now left | right; auto].
    + rewrite IH. split; [intros [? ?]; auto |].
      intros [[[= -> ->] | Hin] Hc]; [| auto].
      destruct Hc as (c & Hc & _). congruence.
  - rewrite IH. split; [intros [? ?]; auto |].
    intros [[[=] | Hin] Hc]; auto.
Qed.

Lemma needed_changes_keys (items : dict (option string)) (k : string) :
  In k (dict_keys (needed_changes paths host items)) ->
  In k (dict_keys items) /\ exists current, query_of paths host k = QueryState current.
Proof.
  induction items as [|[s [st|]] rest IH]; cbn; [intros [] | |].
  - destruct (query_of paths host s) as [rc | current |] eqn:Hq;
      try (intros H; destruct (IH H); split; [now right | assumption]).
    destruct (String.eqb current st);
      [intros H; destruct (IH H); split; [now right | assumption] |].
    cbn. intros [<- | H]; [split; [now left | eauto] |].
    destruct (IH H); split; [now right | assumption].
  - intros H; destruct (IH H); split; [now right | assumption].
Qed.

Lemma failed_queries_keys (items : dict (option string)) (k : string) :
  In k (dict_keys (failed_queries paths host items)) ->
  In k (dict_keys items) /\ exists rc, query_of paths host k = QueryFailed rc.
Proof.
  induction items as [|[s [st|]] rest IH]; cbn; [intros [] | |].
  - destruct (query_of paths host s) as [rc | current |] eqn:Hq;
      try (intros H; destruct (IH H); split; [now right | assumption]).
    cbn. intros [<- | H]; [split; [now left | eauto] |].
    destruct (IH H); split; [now right | assumption].
  - intros H; destruct (IH H); split; [now right | assumption].
Qed.

Lemma needed_changes_NoDup (items : dict (option string)) :
  NoDup (dict_keys items) -> NoDup (dict_keys (needed_changes paths host items)).
Proof.
  induction items as [|[s [st|]] rest IH]; cbn; intros Hnd; [constructor | |];
    apply NoDup_cons_iff in Hnd as [Hs Hnd]; auto.
  destruct (query_of paths host s) as [rc | current |]; auto.
  destruct (String.eqb current st); auto.
  cbn. constructor; [| auto].
  intros Hin. apply Hs. now apply needed_changes_keys in Hin as [Hin _].
Qed.

(** The whole call, when every query answers and [setsebool] can be
    started: the failed queries, joined by the settings to change when
    [setsebool] fails, decide the outcome. *)
Lemma set_selinux_booleans_run (required_settings : dict (option string)) (w : World) :
  selinux_enabled_on paths host = true ->
  NoDup (dict_keys required_settings) ->
  all_answer paths host required_settings ->
  setsebool_starts paths host (needed_changes paths host required_settings) ->
  exists w',
    set_selinux_booleans paths host required_settings backup_func w =
    (match (failed_queries paths host required_settings ++
            (if setsebool_failed paths host (needed_changes paths host required_settings)
             then needed_changes paths host required_settings else []))%list with
     | [] => Ok true
     | failed =>
         Raise (SetseboolError failed (join " " (get_setsebool_args paths failed)))
     end, w') /\
    (needed_changes paths host required_settings <> [] ->
     In (Run (get_setsebool_args paths (needed_changes paths host required_settings)))
        (journal w')).
Proof.
  intros Hen Hnd Hans Hstart.
  destruct (query_settings_run required_settings [] []
              (logged (Run [SELINUXENABLED paths]) w) Hans Hnd)
    as [w1 Hloop]; [intros k _; split; intros [] |].
  cbn [app] in Hloop.
  unfold set_selinux_booleans.
  rewrite (bind_ok _ _ _ _ _ (is_selinux_enabled_run paths host w)), Hen.
  cbn [negb]. rewrite (bind_ok _ _ _ _ _ Hloop). cbn [fst snd].
  unfold setsebool_failed, setsebool_starts in *.
  pose proof (needed_changes_NoDup _ Hnd) as Hnd'.
  assert (forall k, In k (dict_keys (needed_changes paths host required_settings)) ->
                    ~ In k (dict_keys (failed_queries paths host required_settings)))
    as Hfresh.
  { intros k (_ & c & Hc)%needed_changes_keys (_ & rc & Hrc)%failed_queries_keys.
    congruence. }
  pose proof (dict_update_fresh _ _ Hnd' Hfresh) as Hupd.
  destruct (needed_changes paths host required_settings) as [|change changes].
  - rewrite app_nil_r. cbn.
    destruct (failed_queries paths host required_settings);
      eexists; (split; [reflexivity | congruence]).
  - destruct (Hstart ltac:(discriminate)) as (rc & out & Hexec).
    unfold bind at 1, try_except, bind at 1, ipautil_run, bind at 1, emit.
    rewrite Hexec. destruct (rc =? 0); cbn [negb andb].
    + rewrite app_nil_r. cbn.
      destruct (failed_queries paths host required_settings);
        eexists; (split; [reflexivity |]); intros _; cbn;
        apply in_or_app; right; now left.
    + cbv beta iota. unfold raise, ret. cbv beta iota. rewrite Hupd.
      destruct (failed_queries paths host required_settings ++ change :: changes)%list;
        eexists; (split; [reflexivity |]); intros _; cbn;
        apply in_or_app; right; now left.
Qed.

(** C4, amended: with SELinux enabled and [getsebool] printing ASCII text,
    when the query of one setting fails with a command failure, the
    queries of the other settings succeed and report a current state, the
    backup callback (if any) returns and [setsebool] can be started, then
    [setsebool] is run with exactly the settings whose required state
    differs from the current one, in dictionary order, and the call ends
    in one [SetseboolError]. When [setsebool] succeeds its [failed]
    mapping holds only the setting whose query failed, with its required
    state; when [setsebool] fails, the settings it was to change follow
    in the mapping. *)
Theorem set_selinux_booleans_one_query_fails
    (required_settings : dict (option string)) (bad target : string) (rc : Z)
    (w : World) :
  selinux_enabled_on paths host = true ->
  NoDup (dict_keys required_settings) ->
  ascii_answers paths host required_settings = true ->
  In (bad, Some target) required_settings ->
  query_of paths host bad = QueryFailed rc ->
  (forall setting state,
     In (setting, Some state) required_settings -> setting <> bad ->
     exists current, query_of paths host setting = QueryState current) ->
  setsebool_starts paths host (needed_changes paths host required_settings) ->
  exists w',
    set_selinux_booleans paths host required_settings backup_func w =
    (Raise (SetseboolError
              ((bad, target) ::
               (if setsebool_failed paths host (needed_changes paths host required_settings)
                then needed_changes paths host required_settings else []))
              (join " "
                 (get_setsebool_args paths
                    ((bad, target) ::
                     (if setsebool_failed paths host
                           (needed_changes paths host required_settings)
                      then needed_changes paths host required_settings else []))))),
     w') /\
    (needed_changes paths host required_settings <> [] ->
     In (Run (get_setsebool_args paths (needed_changes paths host required_settings)))
        (journal w')) /\
    (forall setting state,
       In (setting, state) (needed_changes paths host required_settings) <->
       In (setting, Some state) required_settings /\
       exists current,
         query_of paths host setting = QueryState current /\ current <> state).
Proof.
  intros Hen Hnd _ Hin Hbad Hothers Hset.
  assert (all_answer paths host required_settings) as Hans.
  { intros s st Hs. destruct (String.eqb_spec s bad) as [-> | Hne]; [congruence |].
    destruct (Hothers s st Hs Hne) as [c ->]. discriminate. }
  destruct (set_selinux_booleans_run required_settings w Hen Hnd Hans Hset)
    as (w' & Hrun & Hjournal).
  rewrite (failed_queries_single _ _ _ _ Hnd Hin Hbad Hothers) in Hrun.
  exists w'. split; [exact Hrun |]. split; [exact Hjournal |].
  intros s st. apply needed_changes_spec.
Qed.

End BooleanBatchFacts.

Lemma set_selinux_booleans_one_query_fails_witness :
  (exists w',
     set_selinux_booleans fedora_paths (selinux_host 0)
       [("a", Some "on"); ("b", Some "on"); ("c", Some "on")] None empty_world =
     (Raise (SetseboolError [("a", "on")] "/usr/sbin/setsebool -P a=on"), w') /\
     In (Run ["/usr/sbin/setsebool"; "-P"; "b=on"]) (journal w')) /\
  (exists w',
     set_selinux_booleans fedora_paths (selinux_host 1)
       [("a", Some "on"); ("b", Some "on"); ("c", Some "on")] None empty_world =
     (Raise (SetseboolError [("a", "on"); ("b", "on")]
               "/usr/sbin/setsebool -P a=on b=on"), w') /\
     In (Run ["/usr/sbin/setsebool"; "-P"; "b=on"]) (journal w')).
Proof.
  split.
  - destruct (set_selinux_booleans_one_query_fails fedora_paths (selinux_host 0) None I
                [("a", Some "on"); ("b", Some "on"); ("c", Some "on")] "a" "on" 1
                empty_world) as (w' & Hraise & Hrun & _).
    + reflexivity.
    + repeat constructor; cbn; intuition discriminate.
    + reflexivity.
    + now left.
    + reflexivity.
    + intros s st [H | [H | [H | []]]] Hne; injection H as <- <-;
        [congruence | eexists; reflexivity | eexists; reflexivity].
    + intros _. eexists _, _. reflexivity.
    + exists w'. split; [exact Hraise | apply Hrun; discriminate].
  - destruct (set_selinux_booleans_one_query_fails fedora_paths (selinux_host 1) None I
                [("a", Some "on"); ("b", Some "on"); ("c", Some "on")] "a" "on" 1
                empty_world) as (w' & Hraise & Hrun & _).
    + reflexivity.
    + repeat constructor; cbn; intuition discriminate.
    + reflexivity.
    + now left.
    + reflexivity.
    + intros s st [H | [H | [H | []]]] Hne; injection H as <- <-;
        [congruence | eexists; reflexivity | eexists; reflexivity].
    + intros _. eexists _, _. reflexivity.
    + exists w'. split; [exact Hraise | apply Hrun; discriminate].
Defined.

Lemma configure_pkcs11_modules_backs_up_once_witness :
  backups_of (module_filename fedora_paths "softhsm2")
    (journal (snd (configure_pkcs11_modules fedora_paths plain_host
                     (snd (configure_pkcs11_modules fedora_paths plain_host
                             (world_with_file (module_filename fedora_paths "softhsm2")
                                "module: /usr/lib64/libsofthsm2.so")))))) = 1%nat /\
  backups_of (module_filename fedora_paths "softhsm2")
    (journal (snd (configure_pkcs11_modules fedora_paths plain_host
                     (snd (configure_pkcs11_modules fedora_paths plain_host
                             (world_with_file (module_filename fedora_paths "softhsm2")
                                "# created by IPA installer")))))) = 0%nat /\
  configure_pkcs11_modules fedora_paths plain_host
    (world_with_file (module_filename fedora_paths "softhsm2") undecodable) =
  (Raise (OtherError "UnicodeDecodeError"),
   world_with_file (module_filename fedora_paths "softhsm2") undecodable).
Proof.
  split; [| split].
  - exact (proj1 (proj2 (proj2 (configure_pkcs11_modules_backs_up_once
                                  fedora_paths plain_host
                                  (world_with_file (module_filename fedora_paths "softhsm2")
                                     "module: /usr/lib64/libsofthsm2.so"))))).
  - exact (proj1 (proj2 (proj2 (configure_pkcs11_modules_backs_up_once
                                  fedora_paths plain_host
                                  (world_with_file (module_filename fedora_paths "softhsm2")
                                     "# created by IPA installer"))))).
  - apply (proj2 (proj2 (proj2 (configure_pkcs11_modules_backs_up_once
                                  fedora_paths plain_host
                                  (world_with_file (module_filename fedora_paths "softhsm2")
                                     undecodable)))) undecodable);
      reflexivity.
Defined.

(** ** The p11-kit trust file *)

Lemma string_app_assoc (a b c : string) : (a ++ b) ++ c = a ++ (b ++ c).
Proof.
  induction a as [|x a IH]; [reflexivity |].
  change (String x ((a ++ b) ++ c) = String x (a ++ (b ++ c))). now rewrite IH.
Qed.

Lemma string_app_nil_r (a : string) : a ++ "" = a.
Proof.
  induction a as [|x a IH]; [reflexivity |].
  change (String x (a ++ "") = String x a). now rewrite IH.
Qed.

(** C6, as the specification states it, fails: a certificate without an
    extended key usage gets no extension object, so its public key has
    none in the output. *)
Lemma no_extension_object_without_eku :
  exists content,
    write_p11kit_certs plain_host ipa_p11_kit
      [(example_cert "key1" None, "CA 1", Some true, None)] empty_world =
    (Ok true,
     mkWorld {[ ipa_p11_kit := File content ]} ∅ [Chmod ipa_p11_kit 420]) /\
    content =
      p11kit_header ++
      render_objects
        [CertificateObject "CA%201" "CN%3DCertificate%20Authority"
           "CN%3DCertificate%20Authority" "1" "key1" (Some true)
           "-----BEGIN CERTIFICATE-----"] /\
    str_contains "x-certificate-extension" content = false.
Proof.
  eexists. split; [vm_compute; reflexivity |].
  split; vm_compute; reflexivity.
Qed.

Lemma decode_certificate_fields (cert : IPACertificate) (nickname : string)
    (trusted : option bool) (eku : option (list string)) (w : World) :
  (exists s i n p,
     decode_certificate cert w = (Ok (s, i, n, p), w) /\
     public_key_info_bytes cert = Ok p /\
     certificate_object_of (cert, nickname, trusted, eku) =
     Some (CertificateObject (quote nickname) (quote_from_bytes s) (quote_from_bytes i)
             (quote_from_bytes n) (quote_from_bytes p) trusted (public_bytes_pem cert))) \/
  (exists e w1, decode_certificate cert w = (Raise e, w1) /\ fs w1 = fs w).
Proof.
  unfold certificate_object_of, decode_certificate, try_except, bind, lift, ret.
  destruct (subject_bytes cert) as [s|e];
    [destruct (issuer_bytes cert) as [i|e];
     [destruct (serial_number_bytes cert) as [n|e];
      [destruct (public_key_info_bytes cert) as [p|e] |] |] |];
    try (left; eexists _, _, _, _; repeat split; reflexivity);
    right; destruct e; cbn; eexists _, _; split; reflexivity.
Qed.

Lemma encode_extended_key_usage_run (cert : IPACertificate) (w : World) :
  (exists v, encode_extended_key_usage cert w = (Ok v, w) /\
             extended_key_usage_bytes cert = Ok v) \/
  (exists e w1, encode_extended_key_usage cert w = (Raise e, w1) /\ fs w1 = fs w).
Proof.
  unfold encode_extended_key_usage, try_except, lift.
  destruct (extended_key_usage_bytes cert) as [v|e]; [left; eexists; split; reflexivity |].
  right; destruct e; cbn; eexists _, _; split; reflexivity.
Qed.

Lemma object_of_cons (entry : ca_cert) (rest : list ca_cert) (objs : list p11kit_object) :
  Forall (object_of rest) objs -> Forall (object_of (entry :: rest)) objs.
Proof.
  apply Forall_impl. intros o (e & Hin & Ho). exists e. split; [now right | exact Ho].
Qed.

Lemma has_eku_for_cons (entry : ca_cert) (rest : list ca_cert) (key : string) :
  has_eku_for rest key -> has_eku_for (entry :: rest) key.
Proof.
  intros (cert & nick & tr & e & p & u & Hin & H). exists cert, nick, tr, e, p, u.
  split; [now right | exact H].
Qed.

(** What the loop appends to the open file: the certificate and extension
    objects of elements of [ca_certs], with at most one extension object
    per public-key info, none for a key already in [has_eku], and, when
    the loop completes, the certificate object of every element in input
    order and one extension object for every other key that some
    certificate with an extended key usage has. *)
Lemma write_cert_objects_objects (f : string) (ca_certs : list ca_cert) :
  forall (has_eku : gset string) (w : World) (content : string),
    fs w !! f = Some (File content) ->
    exists objs,
      fs (snd (write_cert_objects f ca_certs has_eku w)) !! f =
        Some (File (content ++ render_objects objs)) /\
      Forall (object_of ca_certs) objs /\
      NoDup (extension_keys objs) /\
      (forall k, In k (extension_keys objs) -> (k ∉ has_eku) /\ has_eku_for ca_certs k) /\
      (fst (write_cert_objects f ca_certs has_eku w) = Ok tt ->
       map Some (certificates_of objs) = map certificate_object_of ca_certs /\
       forall k, has_eku_for ca_certs k -> k ∈ has_eku \/ In k (extension_keys objs)).
Proof.
  induction ca_certs as [|[[[cert nickname] trusted] eku] rest IH];
    intros has_eku w content Hfile.
  - exists []. cbn. rewrite string_app_nil_r.
    split; [exact Hfile |]. split; [constructor |]. split; [constructor |].
    split; [intros k [] |].
    intros _. split; [reflexivity |]. intros k (c & n & t & e & p & u & [] & _).
  - cbn [write_cert_objects].
    destruct (decode_certificate_fields cert nickname trusted eku w)
      as [(s & i & n & p & Hdec & Hpki & Hobj) | (e & w1 & Hdec & Hfs)].
    2: { rewrite (bind_raise _ _ _ _ _ Hdec). exists []. cbn.
         rewrite string_app_nil_r, Hfs.
         split; [exact Hfile |]. split; [constructor |]. split; [constructor |].
         split; [intros k [] | discriminate]. }
    rewrite (bind_ok _ _ _ _ _ Hdec). cbv beta iota zeta.
    set (key := quote_from_bytes p) in *.
    set (cert_text := certificate_object _ _ _ _ _ _ _).
    set (cert_obj := CertificateObject (quote nickname) (quote_from_bytes s)
                       (quote_from_bytes i) (quote_from_bytes n) key trusted
                       (public_bytes_pem cert)) in *.
    rewrite (bind_ok _ _ _ _ _ (f_write_ok f cert_text content w Hfile)).
    set (w2 := mkWorld _ _ _).
    assert (fs w2 !! f = Some (File (content ++ cert_text))) as Hfile2
      by (cbn; apply lookup_insert_eq).
    assert (object_of ((cert, nickname, trusted, eku) :: rest) cert_obj) as Hcert.
    { exists (cert, nickname, trusted, eku). split; [now left | now left]. }
    assert (forall objs,
      map Some (certificates_of objs) = map certificate_object_of rest ->
      map Some (certificates_of (cert_obj :: objs)) =
      map certificate_object_of ((cert, nickname, trusted, eku) :: rest)) as Hmap.
    { intros objs Hobjs. cbn [map]. rewrite Hobj. subst cert_obj.
      cbn [certificates_of List.filter is_certificate_object map].
      f_equal. exact Hobjs. }
    assert (forall k, has_eku_for ((cert, nickname, trusted, eku) :: rest) k ->
                      (key = k /\ extended_key_usage cert <> None) \/ has_eku_for rest k)
      as Hsplit.
    { intros k (c & nk & t & e & p' & u & [Hin | Hin] & Hp & Hk & Hu).
      - injection Hin as <- <- <- <-. left. split; [| congruence].
        rewrite Hpki in Hp. injection Hp as <-. exact Hk.
      - right. exists c, nk, t, e, p', u. auto. }
    destruct (extended_key_usage cert) as [usage|] eqn:Husage.
    + destruct (bool_decide (key ∈ has_eku)) eqn:Hmem.
      * apply bool_decide_eq_true in Hmem.
        destruct (IH has_eku w2 _ Hfile2) as (objs & Hout & Hfrom & Hnd & Hkeys & Hall).
        exists (cert_obj :: objs).
        split; [rewrite Hout, string_app_assoc; reflexivity |].
        split; [constructor; [exact Hcert | now apply object_of_cons] |].
        split; [exact Hnd |].
        split.
        { intros k Hk. destruct (Hkeys k Hk) as [Hnot Hfor].
          split; [exact Hnot | now apply has_eku_for_cons]. }
        intros Hok. destruct (Hall Hok) as [Hcerts Hevery].
        split; [now apply Hmap |].
        intros k Hk. destruct (Hsplit k Hk) as [[<- _] | Hrest]; [now left |].
        now apply Hevery.
      * apply bool_decide_eq_false in Hmem.
        destruct (encode_extended_key_usage_run cert w2)
          as [(v & Henc & Hv) | (e & w3 & Henc & Hfs3)].
        2: { rewrite (bind_raise _ _ _ _ _ Henc). exists [cert_obj]. cbn.
             rewrite string_app_nil_r, Hfs3.
             split; [exact Hfile2 |].
             split; [constructor; [exact Hcert | constructor] |].
             split; [constructor |].
             split; [intros k [] | discriminate]. }
        rewrite (bind_ok _ _ _ _ _ Henc). cbv beta iota zeta.
        set (ext_text := extension_object _ _ _).
        set (ext_obj := ExtensionObject (quote nickname) key (quote_from_bytes v)).
        rewrite (bind_ok _ _ _ _ _ (f_write_ok f ext_text _ w2 Hfile2)).
        set (w4 := mkWorld _ _ _).
        assert (fs w4 !! f = Some (File ((content ++ cert_text) ++ ext_text))) as Hfile4
          by (cbn; apply lookup_insert_eq).
        assert (object_of ((cert, nickname, trusted, eku) :: rest) ext_obj) as Hext.
        { exists (cert, nickname, trusted, eku). split; [now left | right].
          unfold extension_object_of. now rewrite Husage, Hpki, Hv. }
        destruct (IH ({[key]} ∪ has_eku) w4 _ Hfile4)
          as (objs & Hout & Hfrom & Hnd & Hkeys & Hall).
        exists (cert_obj :: ext_obj :: objs).
        split; [rewrite Hout, !string_app_assoc; reflexivity |].
        split; [constructor; [exact Hcert |];
                constructor; [exact Hext | now apply object_of_cons] |].
        split.
        { cbn. constructor; [| exact Hnd].
          intros Hin. destruct (Hkeys key Hin) as [Hnot _]. apply Hnot.
          apply elem_of_union. left. now apply elem_of_singleton. }
        split.
        { intros k [<- | Hk].
          - split; [exact Hmem |].
            exists cert, nickname, trusted, eku, p, usage. split; [now left | auto].
          - destruct (Hkeys k Hk) as [Hnot Hfor].
            split; [| now apply has_eku_for_cons].
            intros Hin. apply Hnot. apply elem_of_union. now right. }
        intros Hok. destruct (Hall Hok) as [Hcerts Hevery].
        split; [apply (Hmap (ext_obj :: objs)); exact Hcerts |].
        intros k Hk. destruct (Hsplit k Hk) as [[<- _] | Hrest];
          [right; now left |].
        destruct (Hevery k Hrest) as [Hin | Hin]; [| right; now right].
        apply elem_of_union in Hin as [->%elem_of_singleton | Hin];
          [right; now left | now left].
    + destruct (IH has_eku w2 _ Hfile2) as (objs & Hout & Hfrom & Hnd & Hkeys & Hall).
      exists (cert_obj :: objs).
      split; [rewrite Hout, string_app_assoc; reflexivity |].
      split; [constructor; [exact Hcert | now apply object_of_cons] |].
      split; [exact Hnd |].
      split.
      { intros k Hk. destruct (Hkeys k Hk) as [Hnot Hfor].
        split; [exact Hnot | now apply has_eku_for_cons]. }
      intros Hok. destruct (Hall Hok) as [Hcerts Hevery].
      split; [now apply Hmap |].
      intros k Hk. destruct (Hsplit k Hk) as [[_ Hne] | Hrest]; [congruence |].
      now apply Hevery.
Qed.

(** Percent-quoting loses nothing: distinct public-key infos are written
    as distinct keys. *)
Lemma hex_digit_inj (n m : N) :
  (n < 16)%N -> (m < 16)%N -> hex_digit n = hex_digit m -> n = m.
Proof.
  unfold hex_digit. intros Hn Hm H.
  apply (f_equal N_of_ascii) in H.
  destruct (N.ltb_spec n 10), (N.ltb_spec m 10);
    rewrite !N_ascii_embedding in H by lia; lia.
Qed.

Lemma always_safe_not_percent (c : byte) :
  always_safe c = true -> ascii_of_byte c <> "%"%char.
Proof.
  intros Hsafe Hc. apply (f_equal byte_of_ascii) in Hc.
  rewrite byte_of_ascii_of_byte in Hc. subst c. discriminate.
Qed.

Lemma quote_byte_app (x : byte) (a : string) :
  quote_byte x ++ a =
  if always_safe x then String (ascii_of_byte x) a
  else String "%" (String (hex_digit (to_N x / 16)) (String (hex_digit (to_N x mod 16)) a)).
Proof. unfold quote_byte. destruct (always_safe x); reflexivity. Qed.

Lemma quote_byte_inj (x y : byte) (a b : string) :
  quote_byte x ++ a = quote_byte y ++ b -> x = y /\ a = b.
Proof.
  rewrite !quote_byte_app.
  destruct (always_safe x) eqn:Hx, (always_safe y) eqn:Hy; intros H.
  - injection H as Hc Hab. split; [| exact Hab].
    apply (f_equal byte_of_ascii) in Hc. now rewrite !byte_of_ascii_of_byte in Hc.
  - injection H as Hc _. now destruct (always_safe_not_percent _ Hx).
  - injection H as Hc _. symmetry in Hc. now destruct (always_safe_not_percent _ Hy).
  - injection H as Hhi Hlo Hab. split; [| exact Hab].
    pose proof (to_N_bounded x). pose proof (to_N_bounded y).
    apply hex_digit_inj in Hhi;
      [| apply N.Div0.div_lt_upper_bound; lia | apply N.Div0.div_lt_upper_bound; lia].
    apply hex_digit_inj in Hlo; [| apply N.mod_lt; lia | apply N.mod_lt; lia].
    apply to_N_eqb_eq, N.eqb_eq.
    rewrite (N.div_mod (to_N x) 16), (N.div_mod (to_N y) 16) by lia.
    now rewrite Hhi, Hlo.
Qed.

Lemma quote_from_bytes_inj (a b : list byte) :
  quote_from_bytes a = quote_from_bytes b -> a = b.
Proof.
  revert b. induction a as [|x a IH]; intros [|y b]; cbn [quote_from_bytes];
    try reflexivity.
  - rewrite quote_byte_app. destruct (always_safe y); discriminate.
  - rewrite quote_byte_app. destruct (always_safe x); discriminate.
  - intros [-> H]%quote_byte_inj. f_equal. now apply IH.
Qed.

Lemma bind_ret_snd {A B} (m : M A) (b : B) (w : World) :
  snd (bind m (fun _ => ret b) w) = snd (m w) /\
  (fst (bind m (fun _ => ret b) w) = Ok b -> exists a, fst (m w) = Ok a).
Proof.
  unfold bind, ret. destruct (m w) as [[a|e] w']; cbn; split; eauto. discriminate.
Qed.

(** C6, amended: when the trust file can be opened for writing, what
    [write_p11kit_certs] leaves in it is the header followed by objects
    that are, field by field, the certificate objects and extension
    objects of input certificates, with at most one extension object per
    public-key info, each for a public key of an input certificate that
    carries an extended key usage; and when the call returns, the
    certificate objects are those of the input certificates, one each and
    in input order, and there is exactly one extension object for every
    public key with such a certificate, however many certificates share
    it, and none for a public key whose certificates carry no extended
    key usage. Distinct public-key infos are written as distinct keys. *)
Theorem write_p11kit_certs_extension_objects
    (host : Host) (filename : string) (ca_certs : list ca_cert) (w : World) :
  writable host w filename ->
  exists objs,
    fs (snd (write_p11kit_certs host filename ca_certs w)) !! filename =
      Some (File (p11kit_header ++ render_objects objs)) /\
    Forall (object_of ca_certs) objs /\
    NoDup (extension_keys objs) /\
    (forall k, In k (extension_keys objs) -> has_eku_for ca_certs k) /\
    (fst (write_p11kit_certs host filename ca_certs w) = Ok true ->
     map Some (certificates_of objs) = map certificate_object_of ca_certs /\
     forall k, has_eku_for ca_certs k -> In k (extension_keys objs)) /\
    (forall p q : list byte, quote_from_bytes p = quote_from_bytes q -> p = q).
Proof.
  intros Hw. unfold write_p11kit_certs.
  rewrite (bind_ok _ _ _ _ _ (try_except_ok _ _ _ _ _ (open_w_ok host _ _ Hw))).
  erewrite bind_ok by (apply f_write_ok; cbn; apply lookup_insert_eq).
  erewrite bind_ok by (apply try_except_ok; unfold os_fchmod; apply emit_run).
  match goal with |- context [bind (write_cert_objects _ _ _) _ ?w0] =>
    set (w3 := w0)
  end.
  assert (fs w3 !! filename = Some (File p11kit_header)) as Hfile
    by (cbn; apply lookup_insert_eq).
  destruct (write_cert_objects_objects filename ca_certs ∅ w3 _ Hfile)
    as (objs & Hout & Hfrom & Hnd & Hkeys & Hall).
  destruct (bind_ret_snd (write_cert_objects filename ca_certs ∅) true w3)
    as [Hsnd Hfst].
  exists objs. rewrite Hsnd.
  split; [exact Hout |]. split; [exact Hfrom |]. split; [exact Hnd |].
  split; [intros k Hk; now apply Hkeys |].
  split; [| exact quote_from_bytes_inj].
  intros Hok. destruct (Hfst Hok) as [[] Hloop].
  destruct (Hall Hloop) as [Hcerts Hevery].
  split; [exact Hcerts |].
  intros k Hk. destruct (Hevery k Hk) as [Hin | Hin]; [| exact Hin].
  now apply not_elem_of_empty in Hin.
Qed.

Lemma write_p11kit_certs_extension_objects_witness :
  exists objs,
    fs (snd (write_p11kit_certs plain_host ipa_p11_kit
               [(example_cert "key1" (Some ["1.3.6.1.5.5.7.3.1"]), "CA 1", Some true, None);
                (example_cert "key1" (Some ["1.3.6.1.5.5.7.3.1"]), "CA 2", None, None)]
               empty_world)) !! ipa_p11_kit =
      Some (File (p11kit_header ++ render_objects objs)) /\
    map Some (certificates_of objs) =
      map certificate_object_of
        [(example_cert "key1" (Some ["1.3.6.1.5.5.7.3.1"]), "CA 1", Some true, None);
         (example_cert "key1" (Some ["1.3.6.1.5.5.7.3.1"]), "CA 2", None, None)] /\
    NoDup (extension_keys objs) /\
    In "key1" (extension_keys objs).
Proof.
  destruct (write_p11kit_certs_extension_objects plain_host ipa_p11_kit
              [(example_cert "key1" (Some ["1.3.6.1.5.5.7.3.1"]), "CA 1", Some true, None);
               (example_cert "key1" (Some ["1.3.6.1.5.5.7.3.1"]), "CA 2", None, None)]
              empty_world) as (objs & Hout & _ & Hnd & _ & Hall & _).
  - split; [reflexivity | vm_compute; discriminate].
  - destruct Hall as [Hcerts Hevery]; [vm_compute; reflexivity |].
    exists objs. split; [exact Hout |]. split; [exact Hcerts |]. split; [exact Hnd |].
    apply Hevery.
    exists (example_cert "key1" (Some ["1.3.6.1.5.5.7.3.1"])), "CA 1", (Some true), None,
      (encode_utf8 "key1"), ["1.3.6.1.5.5.7.3.1"].
    split; [now left |]. repeat split; reflexivity.
Defined.

(** * Further properties *)

(** ** SELinux helpers *)

(** X1: [restore_context] does nothing beyond the [selinuxenabled] probe when
    SELinux is not enabled or [restorecon] is missing. Otherwise it runs
    [restorecon], with [-F] exactly when [force] is set, on the given path
    and returns whatever the exit code of [restorecon] is; only a command
    that cannot be started raises. No file is changed in any case. *)
Theorem restore_context_effect
    (paths : Paths) (host : Host) (filepath : string) (force : bool) (w : World) :
  (selinux_enabled_on paths host = false \/ fs w !! SBIN_RESTORECON paths = None ->
   restore_context paths host filepath force w =
   (Ok tt, logged (Run [SELINUXENABLED paths]) w)) /\
  (selinux_enabled_on paths host = true ->
   fs w !! SBIN_RESTORECON paths <> None ->
   restore_context paths host filepath force w =
   (match exec host (SBIN_RESTORECON paths :: (if force then ["-F"] else []) ++ [filepath])%list with
    | Exited _ _ => Ok tt
    | SpawnFailed errno => Raise (OSError errno)
    end,
    logged_all
      [Run [SELINUXENABLED paths];
       Run (SBIN_RESTORECON paths :: (if force then ["-F"] else []) ++ [filepath])%list] w)).
Proof.
  unfold restore_context.
  rewrite (bind_ok _ _ _ _ _ (is_selinux_enabled_run paths host w)).
  split.
  - intros [-> | Hmissing]; [reflexivity |].
    destruct (selinux_enabled_on paths host); [| reflexivity].
    cbn [negb]. unfold os_path_exists, bind, get_fs, ret. cbn [fs logged logged_all].
    now rewrite Hmissing.
  - intros -> Hpresent. cbn [negb].
    unfold os_path_exists, bind at 1 2, get_fs, ret. cbn [fs logged logged_all].
    destruct (fs w !! SBIN_RESTORECON paths); [| congruence]. cbn [negb].
    unfold ipautil_run, bind, emit, ret, raise. cbn [app].
    destruct (exec host _) as [rc out | errno]; rewrite ?andb_false_r;
      unfold logged; now rewrite logged_all_compose.
Qed.

(** X2: [check_selinux_status] returns [False] when SELinux is not enabled
    (also when [selinuxenabled] cannot be started), raises [RuntimeError]
    exactly when SELinux is enabled and [restorecon] does not exist, and
    returns [True] otherwise; it runs nothing but the probe. *)
Theorem check_selinux_status_cases
    (paths : Paths) (host : Host) (restorecon : string) (w : World) :
  check_selinux_status paths host restorecon w =
  (if negb (selinux_enabled_on paths host) then Ok false
   else match fs w !! restorecon with
        | Some _ => Ok true
        | None => Raise (OtherError "RuntimeError")
        end,
   logged (Run [SELINUXENABLED paths]) w).
Proof.
  unfold check_selinux_status.
  rewrite (bind_ok _ _ _ _ _ (is_selinux_enabled_run paths host w)).
  destruct (selinux_enabled_on paths host); [| reflexivity].
  cbn [negb]. unfold os_path_exists, bind, get_fs, ret, raise. cbn [fs logged logged_all].
  destruct (fs w !! restorecon); reflexivity.
Qed.

(** ** The whole batch of SELinux booleans *)

Section BatchOutcome.

Variable paths : Paths.
Variable host : Host.


End BatchOutcome.


(** ** Certificate bundles *)

Lemma world_eta (w : World) : mkWorld (fs w) (fstore_files w) (journal w) = w.
Proof. now destruct w. Qed.

Lemma remove_ca_certificates_bundle_run (host : Host) (filename : string) (w : World) :
  remove_ca_certificates_bundle host filename w =
  match fs w !! filename with
  | Some (File _) =>
      match io_fault host filename with
      | None => (Ok true, mkWorld (delete filename (fs w)) (fstore_files w) (journal w))
      | Some errno => (Raise (OSError errno), logged (Log ERROR "Could not remove %s") w)
      end
  | _ => (Ok false, w)
  end.
Proof.
  unfold remove_ca_certificates_bundle, os_path_isfile, os_unlink, io_check,
    try_except, bind, get_fs, set_fs, ret, raise, logger, emit.
  destruct (fs w !! filename) as [[content|]|] eqn:E; cbn; try reflexivity.
  destruct (io_fault host filename); cbn; [reflexivity |].
  now rewrite E.
Qed.

(** X4: [remove_ca_certificates_bundle] returns [True] exactly when the path
    was a regular file and it has deleted it, leaving every other file as
    it was; it returns [False] and changes nothing when the path is not a
    regular file, so a second call after a removal returns [False]; when
    the deletion is refused the error is logged and raised and the file
    stays. *)
Theorem remove_ca_certificates_bundle_effect
    (host : Host) (filename : string) (w : World) :
  (is_regular w filename = false ->
   remove_ca_certificates_bundle host filename w = (Ok false, w)) /\
  (deletable host w filename = true ->
   exists w',
     remove_ca_certificates_bundle host filename w = (Ok true, w') /\
     fs w' = delete filename (fs w) /\
     remove_ca_certificates_bundle host filename w' = (Ok false, w')) /\
  (is_regular w filename = true -> deletable host w filename = false ->
   exists errno w',
     remove_ca_certificates_bundle host filename w = (Raise (OSError errno), w') /\
     fs w' = fs w).
Proof.
  rewrite remove_ca_certificates_bundle_run. unfold deletable, is_regular.
  destruct (fs w !! filename) as [[content|]|] eqn:E;
    destruct (io_fault host filename) as [errno|] eqn:F; cbn;
    repeat split; intros; try discriminate; eauto.
  eexists. split; [reflexivity |]. split; [reflexivity |].
  cbn. now rewrite lookup_delete_eq.
Qed.

Lemma remove_ca_certificates_bundle_effect_witness :
  exists w',
    remove_ca_certificates_bundle plain_host ipa_p11_kit
      (world_with_file ipa_p11_kit "x") = (Ok true, w') /\
    fs w' = delete ipa_p11_kit (fs (world_with_file ipa_p11_kit "x")) /\
    remove_ca_certificates_bundle plain_host ipa_p11_kit w' = (Ok false, w').
Proof.
  apply (proj1 (proj2 (remove_ca_certificates_bundle_effect plain_host ipa_p11_kit
                         (world_with_file ipa_p11_kit "x")))).
  reflexivity.
Defined.

Lemma remove_ca_certificates_bundle_after (host : Host) (filename : string)
    (w w' : World) (b : bool) :
  remove_ca_certificates_bundle host filename w = (Ok b, w') ->
  b = is_regular w filename /\ is_regular w' filename = false /\
  fstore_files w' = fstore_files w /\ journal w' = journal w /\
  forall p, p <> filename -> fs w' !! p = fs w !! p.
Proof.
  rewrite remove_ca_certificates_bundle_run. unfold is_regular.
  destruct (fs w !! filename) as [[content|]|] eqn:E;
    [destruct (io_fault host filename); [discriminate |] | |];
    intros [= <- <-]; cbn; rewrite ?lookup_delete_eq, ?E; repeat split; auto.
  intros p Hp. now apply lookup_delete_ne.
Qed.

Section CaCertsFacts.

Variable more_paths : MorePaths.
Variable host : Host.

(** X5: [platform_remove_ca_certs] tries both bundles, also when the first
    one was removed: when it returns, neither path is a regular file any
    more, every other file is as before, and the result is [True] exactly
    when at least one of the two was a regular file. *)
Theorem platform_remove_ca_certs_removes_both (w w' : World) (b : bool) :
  platform_remove_ca_certs more_paths host w = (Ok b, w') ->
  b = is_regular w (IPA_P11_KIT more_paths) ||
      is_regular w (SYSTEMWIDE_IPA_CA_CRT more_paths) /\
  is_regular w' (IPA_P11_KIT more_paths) = false /\
  is_regular w' (SYSTEMWIDE_IPA_CA_CRT more_paths) = false /\
  forall p, p <> IPA_P11_KIT more_paths -> p <> SYSTEMWIDE_IPA_CA_CRT more_paths ->
            fs w' !! p = fs w !! p.
Proof.
  unfold platform_remove_ca_certs.
  intros (b1 & w1 & H1 & H)%bind_Ok_inv.
  apply bind_Ok_inv in H as (b2 & w2 & H2 & [= <- <-]).
  apply remove_ca_certificates_bundle_after in H1 as (-> & Hgone1 & _ & _ & Hframe1).
  apply remove_ca_certificates_bundle_after in H2 as (-> & Hgone2 & _ & _ & Hframe2).
  assert (is_regular w2 (IPA_P11_KIT more_paths) = false) as Hgone1'.
  { destruct (String.eqb_spec (IPA_P11_KIT more_paths) (SYSTEMWIDE_IPA_CA_CRT more_paths))
      as [Heq | Hne]; [now rewrite Heq |].
    unfold is_regular in *. now rewrite (Hframe2 _ Hne). }
  split; [| split; [exact Hgone1' | split; [exact Hgone2 |]]].
  - destruct (String.eqb_spec (IPA_P11_KIT more_paths) (SYSTEMWIDE_IPA_CA_CRT more_paths))
      as [Heq | Hne].
    + rewrite <- Heq, Hgone1. now rewrite orb_false_r, orb_diag.
    + f_equal. unfold is_regular. rewrite (Hframe1 _ (not_eq_sym Hne)). reflexivity.
  - intros p Hp1 Hp2. now rewrite (Hframe2 _ Hp2), (Hframe1 _ Hp1).
Qed.

(** X6: [platform_insert_ca_certs] returns [True] whenever it returns, and by
    then the legacy bundle is no regular file any more. *)
Theorem platform_insert_ca_certs_result
    (ca_certs : list ca_cert) (w w' : World) (b : bool) :
  platform_insert_ca_certs more_paths host ca_certs w = (Ok b, w') ->
  b = true /\ is_regular w' (SYSTEMWIDE_IPA_CA_CRT more_paths) = false.
Proof.
  unfold platform_insert_ca_certs.
  intros (written & w1 & Hwrite & H)%bind_Ok_inv.
  apply bind_Ok_inv in H as (removed & w2 & Hremove & [= <- <-]).
  apply remove_ca_certificates_bundle_after in Hremove as (_ & Hgone & _).
  split; [| exact Hgone].
  unfold write_p11kit_certs in Hwrite.
  apply bind_Ok_inv in Hwrite as (? & ? & _ & Hwrite).
  apply bind_Ok_inv in Hwrite as (? & ? & _ & Hwrite).
  apply bind_Ok_inv in Hwrite as (? & ? & _ & Hwrite).
  apply bind_Ok_inv in Hwrite as (? & ? & _ & [= <- _]).
  reflexivity.
Qed.

End CaCertsFacts.

Lemma platform_remove_ca_certs_removes_both_witness :
  platform_remove_ca_certs fedora_more_paths plain_host world_with_legacy_bundle =
    (Ok true, empty_world) /\
  is_regular empty_world (IPA_P11_KIT fedora_more_paths) = false /\
  is_regular empty_world (SYSTEMWIDE_IPA_CA_CRT fedora_more_paths) = false.
Proof.
  assert (platform_remove_ca_certs fedora_more_paths plain_host world_with_legacy_bundle =
          (Ok true, empty_world)) as E by (vm_compute; reflexivity).
  destruct (platform_remove_ca_certs_removes_both fedora_more_paths plain_host
              world_with_legacy_bundle empty_world true E) as (_ & H1 & H2 & _).
  exact (conj E (conj H1 H2)).
Defined.

Lemma platform_insert_ca_certs_result_witness :
  exists w',
    platform_insert_ca_certs fedora_more_paths plain_host
      [(example_cert "key1" None, "CA 1", Some true, None)] world_with_legacy_bundle =
      (Ok true, w') /\
    is_regular w' (SYSTEMWIDE_IPA_CA_CRT fedora_more_paths) = false.
Proof.
  destruct (platform_insert_ca_certs fedora_more_paths plain_host
              [(example_cert "key1" None, "CA 1", Some true, None)]
              world_with_legacy_bundle) as [r w'] eqn:E.
  assert (r = Ok true) as -> by (vm_compute in E; now injection E as <- _).
  exists w'. split; [reflexivity |].
  exact (proj2 (platform_insert_ca_certs_result fedora_more_paths plain_host _ _ _ _ E)).
Defined.

(** ** Stripping blanks *)

Lemma string_cons_app (c : ascii) (a b : string) :
  String c a ++ b = String c (a ++ b).
Proof. reflexivity. Qed.

Lemma lstrip_app_blank (a x : string) :
  all_space a = true -> lstrip (a ++ x) = lstrip x.
Proof.
  induction a as [|c a IH]; [reflexivity |].
  cbn [all_space]. intros [Hc Ha]%andb_prop.
  rewrite string_cons_app. cbn [lstrip]. rewrite Hc. auto.
Qed.

Lemma rstrip_blank (b : string) : all_space b = true -> rstrip b = "".
Proof.
  induction b as [|c b IH]; [reflexivity |].
  cbn [all_space rstrip]. intros [Hc Hb]%andb_prop. now rewrite (IH Hb), Hc.
Qed.

Lemma rstrip_app_blank (x b : string) :
  all_space b = true -> rstrip (x ++ b) = rstrip x.
Proof.
  intros Hb. induction x as [|c x IH]; [now apply rstrip_blank |].
  rewrite string_cons_app. cbn [rstrip]. now rewrite IH.
Qed.

Lemma rstrip_nonspace_end (x : string) (c : ascii) :
  is_space c = false -> rstrip (x ++ String c "") = x ++ String c "".
Proof.
  intros Hc. induction x as [|d x IH].
  - change ("" ++ String c "") with (String c ""). cbn [rstrip]. now rewrite Hc.
  - rewrite string_cons_app. cbn [rstrip]. rewrite IH.
    destruct x; reflexivity.
Qed.

Lemma lstrip_decomp (s : string) :
  exists a, s = a ++ lstrip s /\ all_space a = true.
Proof.
  induction s as [|c s (a & Hs & Ha)]; [exists ""; auto |].
  cbn [lstrip]. destruct (is_space c) eqn:Hc.
  - exists (String c a). rewrite string_cons_app, <- Hs. cbn. now rewrite Hc, Ha.
  - exists "". auto.
Qed.

Lemma rstrip_decomp (s : string) :
  exists b, s = rstrip s ++ b /\ all_space b = true.
Proof.
  induction s as [|c s (b & Hs & Hb)]; [exists ""; auto |].
  cbn [rstrip]. destruct (rstrip s) as [|d r] eqn:Hr.
  - destruct (is_space c) eqn:Hc.
    + exists (String c b). split; [| cbn [all_space]; now rewrite Hc, Hb].
      change (String c s = String c b). f_equal. exact Hs.
    + exists b. split; [| exact Hb].
      change (String c s = String c ("" ++ b)). f_equal. exact Hs.
  - exists b. rewrite string_cons_app, <- Hs. auto.
Qed.

(** A text is its stripped form between two runs of blanks. *)
Lemma str_strip_decomp (s : string) :
  exists a b,
    s = a ++ str_strip s ++ b /\ all_space a = true /\ all_space b = true.
Proof.
  destruct (rstrip_decomp s) as (b & Hs & Hb).
  destruct (lstrip_decomp (rstrip s)) as (a & Hr & Ha).
  exists a, b. unfold str_strip. rewrite <- string_app_assoc, <- Hr. auto.
Qed.

Lemma str_strip_zero (s : string) :
  str_strip s = "0" <->
  exists a b, s = a ++ "0" ++ b /\ all_space a = true /\ all_space b = true.
Proof.
  split.
  - intros H. destruct (str_strip_decomp s) as (a & b & Hs & Ha & Hb).
    rewrite H in Hs. eauto.
  - intros (a & b & -> & Ha & Hb). unfold str_strip.
    rewrite <- string_app_assoc, (rstrip_app_blank _ _ Hb).
    rewrite rstrip_nonspace_end by reflexivity.
    now rewrite (lstrip_app_blank _ _ Ha).
Qed.

(** ** Probes of the host *)

Lemma text_rstrip_idem (s : string) : text_rstrip (text_rstrip s) = text_rstrip s.
Proof.
  induction s as [|c s IH]; [reflexivity |].
  cbn [text_rstrip].
  destruct (is_blank_char (String c (text_rstrip s))) eqn:E; [reflexivity |].
  cbn [text_rstrip]. now rewrite IH, E.
Qed.

(** What has no whitespace at its end has none at the end of its suffixes. *)
Lemma text_rstrip_suffix (a b : string) :
  text_rstrip (a ++ b) = a ++ b -> text_rstrip b = b.
Proof.
  induction a as [|c a IH]; [auto |].
  rewrite string_cons_app. cbn [text_rstrip].
  destruct (is_blank_char (String c (text_rstrip (a ++ b)))); [discriminate |].
  intros [= H]. now apply IH.
Qed.

Lemma text_lstrip_suffix (s : string) :
  exists a, s = a ++ text_lstrip s /\ all_blank a.
Proof.
  remember (String.length s) as n eqn:Hn.
  assert (String.length s <= n)%nat as Hlen by lia. clear Hn.
  revert s Hlen. induction n as [|n IH]; intros s Hlen.
  - destruct s; [exists ""; split; [reflexivity | constructor] | cbn in Hlen; lia].
  - destruct s as [|c rest]; [exists ""; split; [reflexivity | constructor] |].
    cbn [text_lstrip]. cbn [String.length] in Hlen.
    destruct (is_blank_char (String c "")) eqn:E1.
    { destruct (IH rest ltac:(lia)) as (a & Ha & Hblank). exists (String c a). split.
      - rewrite string_cons_app. now f_equal.
      - now apply (all_blank_cons (String c "") a). }
    destruct rest as [|d rest2]; [exists ""; split; [reflexivity | constructor] |].
    cbn [String.length] in Hlen.
    destruct (is_blank_char (String c (String d ""))) eqn:E2.
    { destruct (IH rest2 ltac:(lia)) as (a & Ha & Hblank).
      exists (String c (String d a)). split.
      - rewrite !string_cons_app. now do 2 f_equal.
      - now apply (all_blank_cons (String c (String d "")) a). }
    destruct rest2 as [|e rest3]; [exists ""; split; [reflexivity | constructor] |].
    cbn [String.length] in Hlen.
    destruct (is_blank_char (String c (String d (String e "")))) eqn:E3;
      [| exists ""; split; [reflexivity | constructor]].
    destruct (IH rest3 ltac:(lia)) as (a & Ha & Hblank).
    exists (String c (String d (String e a))). split.
    + rewrite !string_cons_app. now do 3 f_equal.
    + now apply (all_blank_cons (String c (String d (String e ""))) a).
Qed.

Lemma text_rstrip_prefix (s : string) :
  exists b, s = text_rstrip s ++ b /\ all_blank b.
Proof.
  induction s as [|c s (b & Hs & Hb)]; [exists ""; split; [reflexivity | constructor] |].
  cbn [text_rstrip].
  destruct (is_blank_char (String c (text_rstrip s))) eqn:E.
  - exists (String c (text_rstrip s) ++ b). split.
    + change (String c s = String c (text_rstrip s ++ b)). now f_equal.
    + now constructor.
  - exists b. split; [| exact Hb].
    change (String c s = String c (text_rstrip s ++ b)). now f_equal.
Qed.

(** What [strip] takes away is whitespace at the two ends. *)
Lemma text_strip_decomp (s : string) :
  exists a b, s = a ++ text_strip s ++ b /\ all_blank a /\ all_blank b.
Proof.
  destruct (text_rstrip_prefix s) as (b & Hs & Hb).
  destruct (text_lstrip_suffix (text_rstrip s)) as (a & Hr & Ha).
  exists a, b. unfold text_strip. rewrite <- string_app_assoc, <- Hr. auto.
Qed.

Lemma text_lstrip_idem (s : string) : text_lstrip (text_lstrip s) = text_lstrip s.
Proof.
  remember (String.length s) as n eqn:Hn.
  assert (String.length s <= n)%nat as Hlen by lia. clear Hn.
  revert s Hlen. induction n as [|n IH]; intros s Hlen.
  - destruct s; [reflexivity | cbn in Hlen; lia].
  - destruct s as [|c rest]; [reflexivity |].
    cbn [text_lstrip]. cbn [String.length] in Hlen.
    destruct (is_blank_char (String c "")) eqn:E1; [apply IH; lia |].
    destruct rest as [|d rest2]; [cbn [text_lstrip]; now rewrite E1 |].
    cbn [String.length] in Hlen.
    destruct (is_blank_char (String c (String d ""))) eqn:E2; [apply IH; lia |].
    destruct rest2 as [|e rest3]; [cbn [text_lstrip]; now rewrite E1, E2 |].
    cbn [String.length] in Hlen.
    destruct (is_blank_char (String c (String d (String e "")))) eqn:E3; [apply IH; lia |].
    cbn [text_lstrip]. now rewrite E1, E2, E3.
Qed.

Lemma text_rstrip_lstrip (s : string) :
  text_rstrip s = s -> text_rstrip (text_lstrip s) = text_lstrip s.
Proof.
  intros H. destruct (text_lstrip_suffix s) as (a & Ha & _).
  apply (text_rstrip_suffix a). now rewrite <- Ha.
Qed.

Section ProbeFacts.

Variable more_paths : MorePaths.
Variable host : Host.

(** X7: [is_fips_enabled] never raises on a file it cannot read and changes
    nothing: it returns [False] when the file is missing or unreadable,
    and on a readable file it returns [False] exactly when the text is the
    digit 0 between blanks; an empty file, like any other text, gives
    [True]. *)
Theorem is_fips_enabled_cases (w : World) :
  (io_fault host (PROC_FIPS_ENABLED more_paths) <> None \/
   is_regular w (PROC_FIPS_ENABLED more_paths) = false ->
   is_fips_enabled more_paths host w = (Ok false, w)) /\
  (forall content,
     io_fault host (PROC_FIPS_ENABLED more_paths) = None ->
     fs w !! PROC_FIPS_ENABLED more_paths = Some (File content) ->
     is_ascii content = true ->
     exists b,
       is_fips_enabled more_paths host w = (Ok b, w) /\
       (b = false <->
        exists a z, translate_newlines content = a ++ "0" ++ z /\
                    all_space a = true /\ all_space z = true)).
Proof.
  unfold is_fips_enabled, read_text, read_file, io_check, try_except, bind,
    get_fs, ret, raise, is_regular.
  split.
  - intros [Hfault | Hreg].
    + destruct (io_fault host (PROC_FIPS_ENABLED more_paths)); [reflexivity | congruence].
    + destruct (io_fault host (PROC_FIPS_ENABLED more_paths)); [reflexivity |].
      cbn. destruct (fs w !! PROC_FIPS_ENABLED more_paths) as [[c|]|];
        [discriminate | reflexivity | reflexivity].
  - intros content -> Hfile _. cbn. rewrite Hfile. cbn.
    destruct (String.eqb_spec (str_strip (translate_newlines content)) "0") as [Hz | Hz];
      cbn; eexists; (split; [reflexivity |]); split.
    + intros _. now apply str_strip_zero.
    + reflexivity.
    + discriminate.
    + intros H. apply str_strip_zero in H. congruence.
Qed.

(** X8: [detect_container] returns [None] exactly when the detector exits
    with 1. When it exits with 0 it returns the name it printed, decoded
    and without whitespace at either end (what is left out of the output
    is whitespace before and after the name), or raises
    [UnicodeDecodeError] when the output is no UTF-8. Every other exit
    code raises the command failure, and a detector that cannot be started
    raises [OSError]. Nothing but the one command is run. *)
Theorem detect_container_cases (w : World) :
  detect_container more_paths host w =
    (match exec host [SYSTEMD_DETECT_VIRT more_paths; "--container"] with
     | Exited rc output =>
         if rc =? 0 then
           if utf8_valid output then Ok (Some (text_strip output))
           else Raise (OtherError "UnicodeDecodeError")
         else if rc =? 1 then Ok None
         else Raise (CalledProcessError [SYSTEMD_DETECT_VIRT more_paths; "--container"] rc)
     | SpawnFailed errno => Raise (OSError errno)
     end,
     logged (Run [SYSTEMD_DETECT_VIRT more_paths; "--container"]) w) /\
  (forall name w',
     detect_container more_paths host w = (Ok (Some name), w') ->
     (exists output a b,
        exec host [SYSTEMD_DETECT_VIRT more_paths; "--container"] = Exited 0 output /\
        output = a ++ name ++ b /\ all_blank a /\ all_blank b) /\
     text_lstrip name = name /\ text_rstrip name = name).
Proof.
  assert (detect_container more_paths host w =
    (match exec host [SYSTEMD_DETECT_VIRT more_paths; "--container"] with
     | Exited rc output =>
         if rc =? 0 then
           if utf8_valid output then Ok (Some (text_strip output))
           else Raise (OtherError "UnicodeDecodeError")
         else if rc =? 1 then Ok None
         else Raise (CalledProcessError [SYSTEMD_DETECT_VIRT more_paths; "--container"] rc)
     | SpawnFailed errno => Raise (OSError errno)
     end,
     logged (Run [SYSTEMD_DETECT_VIRT more_paths; "--container"]) w)) as Hrun.
  { unfold detect_container, subprocess_check_output, decode_text, try_except, bind,
      emit, ret, raise.
    destruct (exec host _) as [rc output | errno]; [| reflexivity].
    destruct (rc =? 0); [now destruct (utf8_valid output) |].
    cbn. destruct (rc =? 1); reflexivity. }
  split; [exact Hrun |].
  intros name w'. rewrite Hrun.
  destruct (exec host _) as [rc output | errno]; [| discriminate].
  destruct (Z.eqb_spec rc 0) as [-> | _]; [| destruct (rc =? 1); discriminate].
  destruct (utf8_valid output); [| discriminate].
  intros [= <- _]. split; [| unfold text_strip; split].
  - destruct (text_strip_decomp output) as (a & b & Hout & Ha & Hb).
    exists output, a, b. auto.
  - apply text_lstrip_idem.
  - apply text_rstrip_lstrip, text_rstrip_idem.
Qed.

End ProbeFacts.

(** ** Lines of a text *)

Lemma has_char_app (c : ascii) (a b : string) :
  has_char c (a ++ b) = has_char c a || has_char c b.
Proof.
  induction a as [|x a IH]; [reflexivity |].
  rewrite string_cons_app. cbn [has_char]. now rewrite IH, orb_assoc.
Qed.

Lemma translate_cr_free (s : string) :
  has_char CR s = false -> translate_newlines s = s.
Proof.
  unfold translate_newlines. induction s as [|c s IH]; [reflexivity |].
  cbn [has_char translate_newlines_from]. intros [Hc Hs]%orb_false_elim.
  rewrite Hc. destruct (Ascii.eqb_spec c LF) as [-> | _]; now rewrite IH.
Qed.

Lemma readlines_from_line (body rest cur : string) :
  has_char LF body = false ->
  readlines_from cur (body ++ String LF rest) =
  (cur ++ body ++ String LF "") :: readlines_from "" rest.
Proof.
  revert cur. induction body as [|c body IH]; intros cur Hbody.
  - change ("" ++ String LF rest) with (String LF rest).
    cbn [readlines_from]. now rewrite Ascii.eqb_refl.
  - cbn [has_char] in Hbody. apply orb_false_elim in Hbody as [Hc Hbody].
    rewrite string_cons_app. cbn [readlines_from]. rewrite Hc.
    rewrite (IH _ Hbody). f_equal.
    rewrite string_app_assoc. reflexivity.
Qed.

Lemma concat_lines_app (a b : list string) :
  concat_lines (a ++ b) = concat_lines a ++ concat_lines b.
Proof.
  induction a as [|l a IH]; [reflexivity |].
  cbn [app concat_lines]. now rewrite IH, string_app_assoc.
Qed.

(** Reading back what [writelines] wrote gives the same lines. *)
Lemma readlines_concat_lines (ls : list string) :
  Forall proper_line ls -> readlines (concat_lines ls) = ls.
Proof.
  unfold readlines. induction 1 as [|l ls (body & -> & Hbody) _ IH]; [reflexivity |].
  cbn [concat_lines]. rewrite string_app_assoc.
  change (String LF "" ++ concat_lines ls) with (String LF (concat_lines ls)).
  rewrite (readlines_from_line _ _ _ Hbody), IH. reflexivity.
Qed.

Lemma ends_with_lf_cons (c : ascii) (s : string) :
  ends_with_lf (String c s) = true ->
  (s = "" /\ c = LF) \/ (s <> "" /\ ends_with_lf s = true).
Proof.
  destruct s as [|d s]; cbn [ends_with_lf].
  - intros H. left. split; [reflexivity |]. now apply Ascii.eqb_eq.
  - intros H. right. split; [discriminate | exact H].
Qed.

Lemma readlines_from_proper (s cur : string) :
  has_char LF cur = false ->
  ends_with_lf s = true \/ (s = "" /\ cur = "") ->
  Forall proper_line (readlines_from cur s).
Proof.
  revert cur. induction s as [|c s IH]; intros cur Hcur Hend.
  - destruct Hend as [Hend | [_ ->]]; [discriminate | constructor].
  - destruct Hend as [Hend | [Hs _]]; [| discriminate].
    cbn [readlines_from]. destruct (Ascii.eqb_spec c LF) as [-> | Hc].
    + constructor; [exists cur; auto |].
      apply IH; [reflexivity |].
      apply ends_with_lf_cons in Hend as [[-> _] | [_ Hend]]; auto.
    + apply IH.
      * rewrite has_char_app, Hcur. cbn.
        destruct (Ascii.eqb_spec c LF); [contradiction | reflexivity].
      * apply ends_with_lf_cons in Hend as [[_ ->] | [_ Hend]]; [contradiction | auto].
Qed.

Lemma readlines_proper (s : string) :
  complete_text s = true -> Forall proper_line (readlines s).
Proof.
  unfold complete_text, readlines. intros [Hs%String.eqb_eq | Hs]%orb_prop;
    apply readlines_from_proper; auto.
Qed.

Lemma Forall_filter {A} (P : A -> Prop) (f : A -> bool) (l : list A) :
  Forall P l -> Forall P (List.filter f l).
Proof.
  induction 1 as [|x l Hx _ IH]; cbn; [constructor |].
  destruct (f x); [constructor |]; auto.
Qed.

Lemma readlines_from_char_free (c : ascii) (s cur : string) :
  has_char c cur = false -> has_char c s = false ->
  Forall (fun l => has_char c l = false) (readlines_from cur s).
Proof.
  revert cur. induction s as [|x s IH]; intros cur Hcur Hs; cbn [readlines_from].
  - destruct (String.eqb cur ""); constructor; auto.
  - cbn [has_char] in Hs. apply orb_false_elim in Hs as [Hx Hs].
    assert (has_char c (cur ++ String x "") = false) as Hcur'.
    { rewrite has_char_app, Hcur. cbn. now rewrite Hx. }
    destruct (Ascii.eqb x LF); [constructor |]; auto.
Qed.

Lemma concat_lines_char_free (c : ascii) (ls : list string) :
  Forall (fun l => has_char c l = false) ls -> has_char c (concat_lines ls) = false.
Proof.
  induction 1 as [|l ls Hl _ IH]; [reflexivity |].
  cbn [concat_lines]. now rewrite has_char_app, Hl, IH.
Qed.

Lemma ends_with_lf_app (a b : string) :
  ends_with_lf b = true -> ends_with_lf (a ++ b) = true.
Proof.
  intros Hb. induction a as [|c a IH]; [exact Hb |].
  rewrite string_cons_app. cbn [ends_with_lf].
  destruct (a ++ b) eqn:E; [| exact IH].
  destruct b; [discriminate Hb | destruct a; discriminate E].
Qed.

Lemma rstrip_cons_nonspace (c : ascii) (s : string) :
  is_space c = false -> rstrip (String c s) = String c (rstrip s).
Proof. intros Hc. cbn [rstrip]. rewrite Hc. now destruct (rstrip s). Qed.

Lemma nisdomain_line_recognised (nisdomain : string) :
  is_nisdomain_line (nisdomain_line nisdomain) = true.
Proof.
  unfold is_nisdomain_line, nisdomain_line, str_strip.
  change ("NISDOMAIN=" ++ nisdomain ++ nl)
    with (String "N" (String "I" (String "S" (String "D" (String "O" (String "M"
           (String "A" (String "I" (String "N" (String "=" (nisdomain ++ nl))))))))))).
  rewrite !rstrip_cons_nonspace by reflexivity.
  reflexivity.
Qed.

Lemma nisdomain_line_proper (nisdomain : string) :
  single_line nisdomain = true -> proper_line (nisdomain_line nisdomain).
Proof.
  unfold single_line. intros [Hlf _]%andb_prop.
  exists ("NISDOMAIN=" ++ nisdomain). split.
  - unfold nisdomain_line, nl. now rewrite string_app_assoc.
  - rewrite has_char_app. apply negb_true_iff in Hlf. rewrite Hlf. reflexivity.
Qed.

(** ** The NIS domain of [/etc/sysconfig/network] *)

(** *** The lines [set_nisdomain] drops *)

Lemma upper_char_space (c : ascii) : is_space c = true -> upper_char c = c.
Proof.
  destruct c as [[] [] [] [] [] [] [] []]; vm_compute; intros H;
    first [discriminate H | reflexivity].
Qed.

Lemma upper_word_nonspace (word upper : string) :
  str_upper word = upper ->
  (forall c, In c (list_ascii_of_string upper) -> is_space c = false) ->
  forall c, In c (list_ascii_of_string word) -> is_space c = false.
Proof.
  revert upper. induction word as [|x word IH]; intros upper Hup Hns c Hc; [destruct Hc |].
  cbn [str_upper] in Hup. subst upper. cbn [list_ascii_of_string] in Hns, Hc.
  destruct Hc as [<- | Hc].
  - destruct (is_space x) eqn:E; [| reflexivity].
    rewrite <- (upper_char_space _ E) in E. rewrite <- E.
    apply Hns. now left.
  - apply (IH (str_upper word) eq_refl); [| exact Hc].
    intros d Hd. apply Hns. now right.
Qed.

Lemma rstrip_word (word rest : string) :
  (forall c, In c (list_ascii_of_string word) -> is_space c = false) ->
  rstrip (word ++ rest) = word ++ rstrip rest.
Proof.
  induction word as [|x word IH]; intros Hns; [reflexivity |].
  rewrite !string_cons_app, rstrip_cons_nonspace by (apply Hns; now left).
  rewrite IH; [reflexivity |]. intros c Hc. apply Hns. now right.
Qed.

Lemma rstrip_app_kept (a b : string) :
  rstrip b <> "" -> rstrip (a ++ b) = a ++ rstrip b.
Proof.
  intros Hb. induction a as [|x a IH]; [reflexivity |].
  rewrite !string_cons_app. cbn [rstrip]. rewrite IH.
  destruct (a ++ rstrip b) eqn:E; [| reflexivity].
  destruct a; [contradiction | discriminate E].
Qed.

Lemma str_upper_app (a b : string) : str_upper (a ++ b) = str_upper a ++ str_upper b.
Proof.
  induction a as [|x a IH]; [reflexivity |].
  rewrite string_cons_app. cbn [str_upper]. now rewrite IH.
Qed.

Lemma prefix_upper_split (n core : string) :
  String.prefix n (str_upper core) = true ->
  exists word rest, core = word ++ rest /\ str_upper word = n.
Proof.
  revert core. induction n as [|x n IH]; intros core H.
  - exists "", core. auto.
  - destruct core as [|y core]; [discriminate H |].
    cbn [str_upper String.prefix] in H.
    destruct (ascii_dec x (upper_char y)) as [-> | _]; [| discriminate H].
    destruct (IH core H) as (word & rest & -> & <-).
    exists (String y word), rest. auto.
Qed.

(** The test of [set_nisdomain], in words of the line alone. *)
Lemma is_nisdomain_line_spec (line : string) :
  is_nisdomain_line line = true <-> begins_nisdomain line.
Proof.
  unfold is_nisdomain_line, begins_nisdomain. split.
  - intros H. destruct (str_strip_decomp line) as (a & b & Hline & Ha & _).
    destruct (prefix_upper_split _ _ H) as (word & rest & Hcore & Hword).
    exists a, word, (rest ++ b). split; [| auto].
    rewrite Hline at 1. rewrite Hcore. now rewrite string_app_assoc.
  - intros (blanks & word & rest & -> & Hblanks & Hword).
    assert (forall c, In c (list_ascii_of_string word) -> is_space c = false) as Hns.
    { apply (upper_word_nonspace word "NISDOMAIN" Hword).
      intros c Hc. cbn in Hc.
      repeat (destruct Hc as [<- | Hc]; [reflexivity |]). destruct Hc. }
    destruct word as [|x word]; [discriminate Hword |].
    unfold str_strip.
    rewrite rstrip_app_kept
      by (rewrite rstrip_word by exact Hns; rewrite string_cons_app; discriminate).
    rewrite rstrip_word by exact Hns.
    rewrite lstrip_app_blank by exact Hblanks.
    rewrite string_cons_app. cbn [lstrip].
    rewrite (Hns x (or_introl eq_refl)).
    rewrite <- string_cons_app, str_upper_app, Hword.
    apply prefix_app. reflexivity.
Qed.

Lemma begins_nisdomain_new_line (nisdomain : string) :
  begins_nisdomain (nisdomain_line nisdomain).
Proof.
  exists "", "NISDOMAIN", ("=" ++ nisdomain ++ nl). repeat split.
Qed.

Section NisDomainFacts.

Variable more_paths : MorePaths.
Variable host : Host.

Local Abbreviation network := (SYSCONF_NETWORK more_paths).

(** The file [set_nisdomain] leaves when the old one could be read. *)
Lemma set_nisdomain_run (nisdomain content : string) (w : World) :
  io_fault host network = None ->
  fs w !! network = Some (File content) ->
  has_char CR content = false ->
  set_nisdomain more_paths host nisdomain w =
  (Ok tt,
   mkWorld (<[network := File (concat_lines
                                 (kept_lines content ++ [nisdomain_line nisdomain]))]> (fs w))
           (fstore_files w) (journal w)).
Proof.
  intros Hfault Hfile Hcr. unfold set_nisdomain.
  assert (read_text host network w = (Ok content, w)) as Hread.
  { unfold read_text, read_file, io_check, bind, get_fs, ret. rewrite Hfault.
    cbn. rewrite Hfile. now rewrite (translate_cr_free _ Hcr). }
  erewrite bind_ok; cycle 1.
  { apply try_except_ok. erewrite bind_ok by exact Hread. reflexivity. }
  erewrite bind_ok; cycle 1.
  { apply open_w_ok. split; [exact Hfault |]. rewrite Hfile. discriminate. }
  erewrite f_write_ok by (cbn; apply lookup_insert_eq).
  cbn. now rewrite insert_insert_eq.
Qed.

(** The file [set_nisdomain] leaves when there was none. *)
Lemma set_nisdomain_fresh (nisdomain : string) (w : World) :
  io_fault host network = None ->
  fs w !! network = None ->
  set_nisdomain more_paths host nisdomain w =
  (Ok tt,
   mkWorld (<[network := File (nisdomain_line nisdomain)]> (fs w))
           (fstore_files w) (journal w)).
Proof.
  intros Hfault Hfile. unfold set_nisdomain.
  assert (read_text host network w = (Raise (OSError ENOENT), w)) as Hread.
  { unfold read_text, read_file, io_check, bind, get_fs, ret. rewrite Hfault.
    cbn. now rewrite Hfile. }
  match goal with
  | |- bind ?m _ _ = _ => assert (m w = (Ok [], w)) as Htry
  end.
  { erewrite try_except_caught;
      [| erewrite bind_raise by exact Hread; reflexivity | reflexivity].
    reflexivity. }
  rewrite (bind_ok _ _ _ _ _ Htry).
  erewrite bind_ok; cycle 1.
  { apply open_w_ok. split; [exact Hfault |]. rewrite Hfile. discriminate. }
  erewrite f_write_ok by (cbn; apply lookup_insert_eq).
  cbn. rewrite insert_insert_eq. unfold nisdomain_line.
  now rewrite string_app_nil_r.
Qed.

Lemma kept_lines_proper (content : string) :
  complete_text content = true -> Forall proper_line (kept_lines content).
Proof. intros H. apply Forall_filter, readlines_proper, H. Qed.

Lemma kept_lines_kept (content : string) :
  List.filter (fun line => negb (is_nisdomain_line line)) (kept_lines content) =
  kept_lines content.
Proof.
  unfold kept_lines. induction (readlines content) as [|l ls IH]; [reflexivity |].
  cbn [List.filter]. destruct (is_nisdomain_line l) eqn:E; cbn [negb List.filter];
    [exact IH | now rewrite E, IH].
Qed.

Lemma new_lines_proper (nisdomain content : string) :
  complete_text content = true -> single_line nisdomain = true ->
  Forall proper_line (kept_lines content ++ [nisdomain_line nisdomain]).
Proof.
  intros Hc Hd. apply Forall_app. split; [now apply kept_lines_proper |].
  constructor; [now apply nisdomain_line_proper | constructor].
Qed.

(** What [set_nisdomain] wrote is again a text it reads line by line. *)
Lemma new_content_shape (nisdomain content : string) :
  has_char CR content = false -> single_line nisdomain = true ->
  has_char CR (concat_lines (kept_lines content ++ [nisdomain_line nisdomain])) = false /\
  complete_text (concat_lines (kept_lines content ++ [nisdomain_line nisdomain])) = true.
Proof.
  intros Hcr Hd. split.
  - apply concat_lines_char_free, Forall_app. split.
    + apply Forall_filter. now apply readlines_from_char_free.
    + constructor; [| constructor]. unfold nisdomain_line, nl.
      unfold single_line in Hd. apply andb_prop in Hd as [_ Hd%negb_true_iff].
      now rewrite !has_char_app, Hd.
  - unfold complete_text. apply orb_true_intro. right.
    rewrite concat_lines_app. apply ends_with_lf_app.
    cbn [concat_lines]. rewrite string_app_nil_r. unfold nisdomain_line.
    do 2 (apply ends_with_lf_app). reflexivity.
Qed.

(** X9: [set_nisdomain] on a readable ASCII file of complete lines leaves
    a file whose lines are the old lines, in their order, except those
    that after leading blanks begin with the letters NISDOMAIN in any
    letter case (so a line [NISDOMAINNAME=x] goes as well, and a line
    [export NISDOMAIN=x] stays), followed by the new [NISDOMAIN] line;
    every other file is untouched. *)
Theorem set_nisdomain_single_setting (nisdomain content : string) (w : World) :
  io_fault host network = None ->
  fs w !! network = Some (File content) ->
  is_ascii content = true ->
  has_char CR content = false ->
  complete_text content = true ->
  single_line nisdomain = true ->
  exists w' content' keep,
    set_nisdomain more_paths host nisdomain w = (Ok tt, w') /\
    fs w' !! network = Some (File content') /\
    readlines content' =
      (List.filter keep (readlines content) ++
       [("NISDOMAIN=" ++ nisdomain ++ nl)%string])%list /\
    (forall line, keep line = false <-> begins_nisdomain line) /\
    (forall path, path <> network -> fs w' !! path = fs w !! path) /\
    journal w' = journal w.
Proof.
  intros Hfault Hfile _ Hcr Hc Hd.
  eexists _, _, (fun line => negb (is_nisdomain_line line)).
  split; [apply (set_nisdomain_run _ content); assumption |].
  cbn [fs journal]. rewrite lookup_insert_eq.
  rewrite (readlines_concat_lines _ (new_lines_proper _ _ Hc Hd)).
  repeat split.
  - intros H. apply is_nisdomain_line_spec. now apply negb_false_iff.
  - intros H. apply negb_false_iff. now apply is_nisdomain_line_spec.
  - intros path Hpath. now rewrite lookup_insert_ne.
Qed.

(** X10: of two calls of [set_nisdomain] the last one wins: the file is
    the one a single call with the second domain leaves.  In particular a
    repeated call with the same domain changes nothing. *)
Theorem set_nisdomain_last_wins (first second content : string) (w : World) :
  io_fault host network = None ->
  fs w !! network = Some (File content) ->
  is_ascii content = true ->
  has_char CR content = false ->
  complete_text content = true ->
  single_line first = true ->
  single_line second = true ->
  exists w1 w2 w2',
    set_nisdomain more_paths host first w = (Ok tt, w1) /\
    set_nisdomain more_paths host second w1 = (Ok tt, w2) /\
    set_nisdomain more_paths host second w = (Ok tt, w2') /\
    w2 = w2'.
Proof.
  intros Hfault Hfile _ Hcr Hc H1 H2.
  destruct (new_content_shape first content Hcr H1) as [Hcr1 Hc1].
  do 3 eexists. split; [apply (set_nisdomain_run _ content); assumption |].
  split.
  { apply set_nisdomain_run; [exact Hfault | cbn; apply lookup_insert_eq | exact Hcr1]. }
  split; [apply (set_nisdomain_run _ content); assumption |].
  cbn [fs fstore_files journal]. rewrite insert_insert_eq.
  unfold kept_lines at 1.
  rewrite (readlines_concat_lines _ (new_lines_proper _ _ Hc H1)).
  rewrite List.filter_app, kept_lines_kept. cbn [List.filter].
  rewrite nisdomain_line_recognised. cbn [negb]. now rewrite app_nil_r.
Qed.

(** X11: without an old file [set_nisdomain] writes the one line; on an
    ASCII file that is a single line without a line feed the new setting
    is glued to that line, unless that line begins, after blanks, with the
    letters NISDOMAIN in any letter case and is dropped. *)
Theorem set_nisdomain_missing_or_unterminated (nisdomain : string) (w : World) :
  io_fault host network = None ->
  (fs w !! network = None ->
   exists w', set_nisdomain more_paths host nisdomain w = (Ok tt, w') /\
              fs w' !! network = Some (File ("NISDOMAIN=" ++ nisdomain ++ nl))) /\
  (forall body, fs w !! network = Some (File body) ->
     is_ascii body = true ->
     has_char CR body = false -> has_char LF body = false -> body <> "" ->
     exists w', set_nisdomain more_paths host nisdomain w = (Ok tt, w') /\
       (begins_nisdomain body ->
        fs w' !! network = Some (File ("NISDOMAIN=" ++ nisdomain ++ nl))) /\
       (~ begins_nisdomain body ->
        fs w' !! network = Some (File (body ++ "NISDOMAIN=" ++ nisdomain ++ nl)))).
Proof.
  intros Hfault. split.
  - intros Hfile. eexists. split; [now apply set_nisdomain_fresh |].
    cbn. apply lookup_insert_eq.
  - intros body Hfile _ Hcr Hlf Hne.
    eexists. split; [apply (set_nisdomain_run _ body); assumption |].
    cbn [fs]. rewrite lookup_insert_eq.
    assert (readlines body = [body]) as Hlines.
    { unfold readlines. clear Hfile Hcr.
      assert (forall cur, readlines_from cur body = [(cur ++ body)%string]) as Hgen.
      { induction body as [|c body IH]; [contradiction |]. intros cur.
        cbn [has_char] in Hlf. apply orb_false_elim in Hlf as [Hc Hlf].
        cbn [readlines_from]. rewrite Hc. destruct body as [|d body].
        - cbn [readlines_from]. destruct (String.eqb_spec (cur ++ String c "") "") as [E|_];
            [destruct cur; discriminate E | reflexivity].
        - rewrite IH by (auto; discriminate). now rewrite string_app_assoc. }
      apply Hgen. }
    unfold kept_lines, nisdomain_line. rewrite Hlines. cbn [List.filter].
    pose proof (is_nisdomain_line_spec body) as Hspec.
    destruct (is_nisdomain_line body); cbn [negb app concat_lines];
      rewrite ?string_app_nil_r; split; intros Hb; try reflexivity.
    + exfalso. apply Hb, Hspec. reflexivity.
    + apply Hspec in Hb. discriminate Hb.
Qed.

End NisDomainFacts.

Lemma set_nisdomain_single_setting_witness :
  exists w' content',
    set_nisdomain fedora_more_paths plain_host "example.test"
      (world_with_file "/etc/sysconfig/network" network_variants) = (Ok tt, w') /\
    fs w' !! "/etc/sysconfig/network" = Some (File content') /\
    readlines content' =
      [("NETWORKING=yes" ++ nl)%string; ("export NISDOMAIN=y" ++ nl)%string;
       ("NISDOMAIN=example.test" ++ nl)%string].
Proof.
  destruct (set_nisdomain_single_setting fedora_more_paths plain_host "example.test"
              network_variants (world_with_file "/etc/sysconfig/network" network_variants))
    as (w' & content' & keep & Hrun & Hfile & Hlines & Hkeep & _);
    try reflexivity.
  exists w', content'. split; [exact Hrun |]. split; [exact Hfile |].
  rewrite Hlines.
  change (readlines network_variants)
    with [("NETWORKING=yes" ++ nl)%string; (" nisdomain=old" ++ nl)%string;
          ("NISDOMAINNAME=x" ++ nl)%string; ("export NISDOMAIN=y" ++ nl)%string].
  assert (forall line, keep line = negb (is_nisdomain_line line)) as Heq.
  { intros line. destruct (is_nisdomain_line line) eqn:E; cbn [negb].
    - apply Hkeep, is_nisdomain_line_spec, E.
    - destruct (keep line) eqn:K; [reflexivity |].
      apply Hkeep, is_nisdomain_line_spec in K. congruence. }
  cbn [List.filter]. rewrite !Heq. reflexivity.
Defined.

Lemma set_nisdomain_last_wins_witness :
  exists w1 w2 w2',
    set_nisdomain fedora_more_paths plain_host "old.test"
      (world_with_file "/etc/sysconfig/network" network_file) = (Ok tt, w1) /\
    set_nisdomain fedora_more_paths plain_host "example.test" w1 = (Ok tt, w2) /\
    set_nisdomain fedora_more_paths plain_host "example.test"
      (world_with_file "/etc/sysconfig/network" network_file) = (Ok tt, w2') /\
    w2 = w2'.
Proof.
  apply (set_nisdomain_last_wins fedora_more_paths plain_host "old.test" "example.test" network_file
           (world_with_file "/etc/sysconfig/network" network_file));
    reflexivity.
Defined.

Lemma set_nisdomain_missing_or_unterminated_witness :
  (exists w',
     set_nisdomain fedora_more_paths plain_host "example.test" empty_world = (Ok tt, w') /\
     fs w' !! "/etc/sysconfig/network" = Some (File ("NISDOMAIN=example.test" ++ nl))) /\
  (exists w',
     set_nisdomain fedora_more_paths plain_host "example.test"
       (world_with_file "/etc/sysconfig/network" " nisdomain=old") = (Ok tt, w') /\
     fs w' !! "/etc/sysconfig/network" = Some (File ("NISDOMAIN=example.test" ++ nl))) /\
  (exists w',
     set_nisdomain fedora_more_paths plain_host "example.test"
       (world_with_file "/etc/sysconfig/network" "NETWORKING=yes") = (Ok tt, w') /\
     fs w' !! "/etc/sysconfig/network" =
     Some (File ("NETWORKING=yes" ++ "NISDOMAIN=example.test" ++ nl))).
Proof.
  split; [| split].
  - apply (proj1 (set_nisdomain_missing_or_unterminated fedora_more_paths plain_host
                    "example.test" empty_world eq_refl)).
    reflexivity.
  - destruct (proj2 (set_nisdomain_missing_or_unterminated fedora_more_paths plain_host
                       "example.test"
                       (world_with_file "/etc/sysconfig/network" " nisdomain=old")
                       eq_refl) " nisdomain=old")
      as (w' & Hrun & Hdrop & _);
      [reflexivity | reflexivity | reflexivity | reflexivity | discriminate |].
    exists w'. split; [exact Hrun |]. apply Hdrop.
    exists " ", "nisdomain", "=old". repeat split.
  - destruct (proj2 (set_nisdomain_missing_or_unterminated fedora_more_paths plain_host
                       "example.test"
                       (world_with_file "/etc/sysconfig/network" "NETWORKING=yes")
                       eq_refl) "NETWORKING=yes")
      as (w' & Hrun & _ & Hkeep);
      [reflexivity | reflexivity | reflexivity | reflexivity | discriminate |].
    exists w'. split; [exact Hrun |]. apply Hkeep.
    intros H%is_nisdomain_line_spec. discriminate H.
Defined.

(** ** More on the resolver *)

Lemma lines_aux_last (body cur : string) :
  has_char LF body = false -> lines_aux cur body = [(cur ++ body)%string].
Proof.
  revert cur. induction body as [|c body IH]; intros cur Hbody.
  - cbn. now rewrite string_app_nil_r.
  - cbn [has_char] in Hbody. apply orb_false_elim in Hbody as [Hc Hbody].
    cbn [lines_aux]. change (ascii_of_nat 10) with LF. rewrite Hc.
    rewrite (IH _ Hbody), string_app_assoc. reflexivity.
Qed.

Lemma lines_aux_line (body rest cur : string) :
  has_char LF body = false ->
  lines_aux cur (body ++ String LF rest) = (cur ++ body)%string :: lines_aux "" rest.
Proof.
  revert cur. induction body as [|c body IH]; intros cur Hbody.
  - change ("" ++ String LF rest) with (String LF rest). cbn [lines_aux].
    change (ascii_of_nat 10) with LF. now rewrite Ascii.eqb_refl, string_app_nil_r.
  - cbn [has_char] in Hbody. apply orb_false_elim in Hbody as [Hc Hbody].
    rewrite string_cons_app. cbn [lines_aux]. change (ascii_of_nat 10) with LF.
    rewrite Hc, (IH _ Hbody), string_app_assoc. reflexivity.
Qed.

(** Lines without a line feed, joined by line feeds, are the lines of the
    text. *)
Lemma str_lines_join (ls : list string) :
  ls <> [] -> Forall (fun l => has_char LF l = false) ls ->
  str_lines (join nl ls) = ls.
Proof.
  intros Hne Hls. unfold str_lines. induction Hls as [|x ls Hx Hls IH]; [contradiction |].
  destruct ls as [|y ls].
  - cbn [join]. now rewrite lines_aux_last.
  - change (join nl (x :: y :: ls)) with (x ++ String LF (join nl (y :: ls))).
    rewrite (lines_aux_line _ _ _ Hx). f_equal. apply IH. discriminate.
Qed.

Lemma has_char_join (c : ascii) (sep : string) (ls : list string) :
  has_char c sep = false -> Forall (fun l => has_char c l = false) ls ->
  has_char c (join sep ls) = false.
Proof.
  intros Hsep. induction 1 as [|x ls Hx Hls IH]; [reflexivity |].
  destruct ls as [|y ls]; [exact Hx |].
  change (join sep (x :: y :: ls)) with (x ++ sep ++ join sep (y :: ls)).
  now rewrite !has_char_app, Hx, Hsep, IH.
Qed.

Lemma ends_with_lf_char_free (s : string) :
  has_char LF s = false -> ends_with_lf s = false.
Proof.
  induction s as [|c s IH]; [reflexivity |].
  cbn [has_char]. intros [Hc Hs]%orb_false_elim. cbn [ends_with_lf].
  destruct s; [exact Hc | now apply IH].
Qed.

Lemma ends_with_lf_app_nonempty (a b : string) :
  b <> "" -> ends_with_lf (a ++ b) = ends_with_lf b.
Proof.
  intros Hb. induction a as [|c a IH]; [reflexivity |].
  rewrite string_cons_app. cbn [ends_with_lf].
  destruct (a ++ b) eqn:E; [| exact IH].
  destruct a; [contradiction | discriminate E].
Qed.

(** Joining lines that are not empty leaves no line feed at the end. *)
Lemma ends_with_lf_join (ls : list string) :
  Forall (fun l => l <> "" /\ has_char LF l = false) ls ->
  join nl ls <> "" \/ ls = [] ->
  ends_with_lf (join nl ls) = false.
Proof.
  induction 1 as [|x ls [Hne Hx] Hls IH]; [reflexivity |]. intros _.
  destruct ls as [|y ls]; [now apply ends_with_lf_char_free |].
  change (join nl (x :: y :: ls)) with (x ++ String LF (join nl (y :: ls))).
  rewrite ends_with_lf_app_nonempty by discriminate.
  assert (join nl (y :: ls) <> "") as Hj.
  { inversion Hls as [|? ? [Hy _] _]; subst. destruct ls; cbn [join]; [exact Hy |].
    destruct y; [contradiction | discriminate]. }
  cbn [ends_with_lf]. destruct (join nl (y :: ls)) eqn:E; [contradiction |].
  apply IH. left. discriminate.
Qed.

Section MoreResolverFacts.

Variable paths : Paths.
Variable host : Host.
Variable base : list string -> list string -> bool -> bool -> M unit.

Local Abbreviation resolv_conf := (RESOLV_CONF paths).
Local Abbreviation nm_conf := (NETWORK_MANAGER_IPA_CONF paths).

(** The backup of the resolver file, made only when the store has none. *)
Lemma resolv_conf_backup_step (fstore : bool) (w1 : World) :
  exists w' evs,
    (if fstore then
       bind (fstore_has_file resolv_conf)
         (fun saved => if negb saved then fstore_backup_file resolv_conf else ret tt)
     else ret tt) w1 = (Ok tt, w') /\
    fs w' = fs w1 /\
    journal w' = (journal w1 ++ evs)%list /\
    Forall (fun e => e = BackupFile resolv_conf) evs /\
    (fstore = true -> fstore_files w' !! resolv_conf = first_backup resolv_conf w1) /\
    (forall p, p <> resolv_conf -> fstore_files w' !! p = fstore_files w1 !! p).
Proof.
  unfold first_backup. destruct fstore.
  - unfold fstore_has_file, fstore_backup_file, bind, get_fstore, get_fs, ret,
      emit, set_fstore. cbn.
    destruct (fstore_files w1 !! resolv_conf) as [saved|] eqn:Es; cbn.
    + exists w1, []. rewrite app_nil_r. repeat split; auto.
    + destruct (fs w1 !! resolv_conf) as [[c|]|] eqn:Ef; cbn;
        (eexists; exists [BackupFile resolv_conf]; split; [reflexivity |]); cbn;
        repeat split; eauto; try (intros; now rewrite lookup_insert_ne).
      intros _. now rewrite lookup_insert_eq.
  - exists w1, []. rewrite app_nil_r. repeat split; auto. discriminate.
Qed.


(** X13: with NetworkManager and systemd-resolved both disabled,
    [configure_dns_resolver] writes the resolver file for any name servers
    and search domains: the comment line, one [search] line with the
    domains separated by blanks, one [nameserver] line per server in input
    order; the last line has no line feed, and no other file is written. *)
Theorem configure_dns_resolver_static_lines
    (nameservers searchdomains : list string) (fstore : bool) (w w1 : World) :
  nameservers <> [] -> searchdomains <> [] ->
  Forall (fun l => has_char LF l = false) (nameservers ++ searchdomains) ->
  base nameservers searchdomains false fstore w = (Ok tt, w1) ->
  nm_enabled host = false ->
  writable host w1 resolv_conf ->
  exists w2 content,
    configure_dns_resolver paths host base (PyList nameservers) (PyList searchdomains)
      false fstore w = (Ok tt, w2) /\
    fs w2 = <[resolv_conf := File content]> (fs w1) /\
    str_lines content =
      "# auto-generated by IPA installer" ::
      ("search " ++ join " " searchdomains)%string ::
      map (fun nameserver => ("nameserver " ++ nameserver)%string) nameservers /\
    ends_with_lf content = false.
Proof.
  intros Hns Hsd [Hnlf Hslf]%Forall_app Hbase Hnm [Hfault Hdir].
  destruct (resolv_conf_backup_step fstore w1) as (w' & evs & Hbackup & Hfs & _).
  destruct nameservers as [|n ns]; [contradiction |].
  destruct searchdomains as [|d ds]; [contradiction |].
  set (cfg := ("# auto-generated by IPA installer" ::
               ("search " ++ join " " (d :: ds))%string ::
               map (fun nameserver => ("nameserver " ++ nameserver)%string) (n :: ns))).
  assert (Forall (fun l => l <> "" /\ has_char LF l = false) cfg) as Hcfg.
  { constructor; [split; [discriminate | reflexivity] |].
    constructor.
    - split; [discriminate |]. rewrite has_char_app, has_char_join; auto.
    - apply Forall_map. eapply Forall_impl; [| exact Hnlf].
      intros l Hl. cbn beta. split; [discriminate |]. now rewrite has_char_app, Hl. }
  exists (mkWorld (<[resolv_conf := File (join nl cfg)]> (fs w1))
            (fstore_files w')
            (journal w' ++
             [Log DEBUG
                "Neither Network Manager nor systemd-resolved are enabled, write %s directly."])),
    (join nl cfg).
  split; [| split; [reflexivity | split]].
  - unfold configure_dns_resolver.
    rewrite (bind_ok _ _ _ tt w) by reflexivity.
    rewrite (bind_ok _ _ _ tt w) by reflexivity.
    cbn [items_of].
    rewrite (bind_ok _ _ _ _ _ Hbase).
    rewrite (bind_ok _ _ _ _ _ Hbackup).
    rewrite (bind_ok _ _ _ false w') by (unfold nm_is_enabled; now rewrite Hnm).
    rewrite (bind_ok _ _ _ tt w') by reflexivity.
    cbn [negb andb].
    rewrite (bind_ok _ _ _ _ _ (logger_run _ _ _)).
    fold cfg.
    erewrite bind_ok; cycle 1.
    { apply open_w_ok. split; [exact Hfault | cbn; now rewrite Hfs]. }
    erewrite f_write_ok by (cbn; apply lookup_insert_eq).
    unfold logged, logged_all. cbn [fs fstore_files journal].
    rewrite insert_insert_eq, Hfs. reflexivity.
  - apply str_lines_join; [discriminate |].
    eapply Forall_impl; [| exact Hcfg]. now intros l [_ Hl].
  - apply ends_with_lf_join; [exact Hcfg | left].
    subst cfg. cbn [join]. discriminate.
Qed.

(** X14: with systemd-resolved enabled and NetworkManager disabled,
    [configure_dns_resolver] writes no file at all: beyond the base class
    method it only makes the backup of the resolver file. *)
Theorem configure_dns_resolver_resolved_only
    (nameservers searchdomains : list string) (fstore : bool) (w w1 : World) :
  nameservers <> [] -> searchdomains <> [] ->
  base nameservers searchdomains true fstore w = (Ok tt, w1) ->
  nm_enabled host = false ->
  exists w2 evs,
    configure_dns_resolver paths host base (PyList nameservers) (PyList searchdomains)
      true fstore w = (Ok tt, w2) /\
    fs w2 = fs w1 /\
    journal w2 = (journal w1 ++ evs)%list /\
    Forall (fun e => e = BackupFile resolv_conf) evs.
Proof.
  intros Hns Hsd Hbase Hnm.
  destruct (resolv_conf_backup_step fstore w1) as (w' & evs & Hbackup & Hfs & Hj & Hevs & _).
  destruct nameservers as [|n ns]; [contradiction |].
  destruct searchdomains as [|d ds]; [contradiction |].
  exists w', evs. split; [| auto].
  unfold configure_dns_resolver.
  rewrite (bind_ok _ _ _ tt w) by reflexivity.
  rewrite (bind_ok _ _ _ tt w) by reflexivity.
  cbn [items_of].
  rewrite (bind_ok _ _ _ _ _ Hbase).
  rewrite (bind_ok _ _ _ _ _ Hbackup).
  rewrite (bind_ok _ _ _ false w') by (unfold nm_is_enabled; now rewrite Hnm).
  rewrite (bind_ok _ _ _ tt w') by reflexivity.
  reflexivity.
Qed.

(** X15: a call of [configure_dns_resolver] with a backup store that
    returns leaves in the store the first copy of the resolver file: the
    copy the store held already, or else the file as the base class method
    left it, before anything is written; other entries of the store are
    kept. *)
Theorem configure_dns_resolver_first_backup
    (nameservers searchdomains : list string) (resolve1_enabled : bool)
    (w w1 w2 : World) :
  base nameservers searchdomains resolve1_enabled true w = (Ok tt, w1) ->
  configure_dns_resolver paths host base (PyList nameservers) (PyList searchdomains)
    resolve1_enabled true w = (Ok tt, w2) ->
  fstore_files w2 !! resolv_conf = first_backup resolv_conf w1 /\
  forall p, p <> resolv_conf -> fstore_files w2 !! p = fstore_files w1 !! p.
Proof.
  intros Hbase Hrun.
  destruct (resolv_conf_backup_step true w1)
    as (w' & evs & Hbackup & Hfs & Hj & Hevs & Hfirst & Hothers).
  destruct nameservers as [|n ns]; [discriminate Hrun |].
  destruct searchdomains as [|d ds]; [discriminate Hrun |].
  enough (fstore_files w2 = fstore_files w') as ->; [auto |].
  revert Hrun. unfold configure_dns_resolver.
  rewrite (bind_ok _ _ _ tt w) by reflexivity.
  rewrite (bind_ok _ _ _ tt w) by reflexivity.
  cbn [items_of].
  rewrite (bind_ok _ _ _ _ _ Hbase).
  rewrite (bind_ok _ _ _ _ _ Hbackup).
  unfold nm_is_enabled, open_w, os_fchmod, f_write, nm_reload_or_restart, logger,
    emit, io_check, bind, ret, raise, get_fs, set_fs, logged, logged_all.
  cbn [fs fstore_files journal].
  destruct (nm_enabled host), resolve1_enabled; cbn [negb andb];
    repeat match goal with
           | |- context [io_fault host ?p] => destruct (io_fault host p)
           | |- context [fs w' !! ?p] => destruct (fs w' !! p) as [[?|]|]
           | |- context [<[?p := ?x]> ?m !! ?p] => rewrite (lookup_insert_eq m p x)
           | _ => progress cbn [fs fstore_files journal]
           end;
    intros [= <-]; reflexivity.
Qed.

End MoreResolverFacts.


Lemma configure_dns_resolver_static_lines_witness :
  exists w2 content,
    configure_dns_resolver fedora_paths plain_host base_noop
      (PyList ["192.0.2.1"]) (PyList ["example.test"; "example.org"]) false false
      empty_world = (Ok tt, w2) /\
    fs w2 = <[RESOLV_CONF fedora_paths := File content]> (fs empty_world) /\
    str_lines content =
      ["# auto-generated by IPA installer"; "search example.test example.org";
       "nameserver 192.0.2.1"] /\
    ends_with_lf content = false.
Proof.
  apply (configure_dns_resolver_static_lines fedora_paths plain_host base_noop
           ["192.0.2.1"] ["example.test"; "example.org"] false empty_world empty_world).
  - discriminate.
  - discriminate.
  - repeat constructor.
  - reflexivity.
  - reflexivity.
  - split; [reflexivity | vm_compute; discriminate].
Defined.

Lemma configure_dns_resolver_resolved_only_witness :
  exists w2 evs,
    configure_dns_resolver fedora_paths plain_host base_noop
      (PyList ["192.0.2.1"]) (PyList ["example.test"]) true true
      world_with_resolv_conf = (Ok tt, w2) /\
    fs w2 = fs world_with_resolv_conf /\
    journal w2 = (journal world_with_resolv_conf ++ evs)%list /\
    Forall (fun e => e = BackupFile (RESOLV_CONF fedora_paths)) evs.
Proof.
  apply (configure_dns_resolver_resolved_only fedora_paths plain_host base_noop
           ["192.0.2.1"] ["example.test"] true
           world_with_resolv_conf world_with_resolv_conf).
  - discriminate.
  - discriminate.
  - reflexivity.
  - reflexivity.
Defined.

Lemma configure_dns_resolver_first_backup_witness :
  fstore_files
    (snd (configure_dns_resolver fedora_paths plain_host base_noop
            (PyList ["192.0.2.1"]) (PyList ["example.test"]) false true
            world_with_resolv_conf))
    !! RESOLV_CONF fedora_paths = Some "nameserver 192.0.2.53".
Proof.
  apply (proj1 (configure_dns_resolver_first_backup fedora_paths plain_host base_noop
                  ["192.0.2.1"] ["example.test"] false
                  world_with_resolv_conf world_with_resolv_conf _
                  eq_refl eq_refl)).
Defined.

Section UnconfigureFacts.

Variable paths : Paths.
Variable host : Host.
Variable base : bool -> M unit.

Local Abbreviation nm_conf := (NETWORK_MANAGER_IPA_CONF paths).

(** X16: after the base class method, [unconfigure_dns_resolver] removes
    the NetworkManager override when it is a regular file, and then
    reloads NetworkManager only when that service is enabled; without the
    file it does nothing more. Unlike the other removal paths it does not
    catch an error of the deletion. *)
Theorem unconfigure_dns_resolver_effect (fstore : bool) (w w1 : World) :
  base fstore w = (Ok tt, w1) ->
  unconfigure_dns_resolver paths host base fstore w =
  if is_regular w1 nm_conf then
    match io_fault host nm_conf with
    | Some errno => (Raise (OSError errno), w1)
    | None =>
        (Ok tt,
         mkWorld (delete nm_conf (fs w1)) (fstore_files w1)
           (journal w1 ++
            (if nm_enabled host then [ReloadOrRestart "NetworkManager"] else [])))
    end
  else (Ok tt, w1).
Proof.
  intros Hbase. unfold unconfigure_dns_resolver.
  rewrite (bind_ok _ _ _ _ _ Hbase).
  unfold is_regular, os_path_isfile, os_unlink, io_check, nm_is_enabled,
    nm_reload_or_restart, emit, logged, logged_all, bind, get_fs, set_fs, ret, raise.
  cbn [fs fstore_files journal].
  destruct (fs w1 !! nm_conf) as [[content|]|] eqn:E; try reflexivity.
  destruct (io_fault host nm_conf); [reflexivity |].
  cbn [fs]. rewrite E. destruct (nm_enabled host); cbn [fs fstore_files journal];
    [reflexivity | now rewrite app_nil_r].
Qed.

End UnconfigureFacts.

Lemma unconfigure_dns_resolver_effect_witness :
  unconfigure_dns_resolver fedora_paths nm_host (fun _ => ret tt) true
    (world_with_file (NETWORK_MANAGER_IPA_CONF fedora_paths) "[main]") =
  (Ok tt, mkWorld (delete (NETWORK_MANAGER_IPA_CONF fedora_paths)
                     (fs (world_with_file (NETWORK_MANAGER_IPA_CONF fedora_paths) "[main]")))
            ∅ [ReloadOrRestart "NetworkManager"]).
Proof.
  apply (unconfigure_dns_resolver_effect fedora_paths nm_host (fun _ => ret tt) true
           (world_with_file (NETWORK_MANAGER_IPA_CONF fedora_paths) "[main]")
           (world_with_file (NETWORK_MANAGER_IPA_CONF fedora_paths) "[main]")).
  reflexivity.
Defined.

(** ** Removing the httpd drop-in *)

(** X17: when the systemd drop-in of httpd can be deleted,
    [remove_httpd_service_ipa_conf] deletes it and then runs
    [systemctl --system daemon-reload]; a failure of that command reaches
    the caller, with the file already gone. *)
Theorem remove_httpd_service_ipa_conf_removes
    (paths : Paths) (host : Host) (w : World) :
  deletable host w (SYSTEMD_SYSTEM_HTTPD_IPA_CONF paths) = true ->
  remove_httpd_service_ipa_conf paths host w =
  (match exec host [SYSTEMCTL paths; "--system"; "daemon-reload"] with
   | Exited rc _ =>
       if rc =? 0 then Ok tt
       else Raise (CalledProcessError [SYSTEMCTL paths; "--system"; "daemon-reload"] rc)
   | SpawnFailed errno => Raise (OSError errno)
   end,
   mkWorld (delete (SYSTEMD_SYSTEM_HTTPD_IPA_CONF paths) (fs w)) (fstore_files w)
     (journal w ++ [Run [SYSTEMCTL paths; "--system"; "daemon-reload"]])).
Proof.
  unfold deletable, is_regular. intros [Hreg Hfault]%andb_prop.
  unfold remove_httpd_service_ipa_conf, systemd_daemon_reload, ipautil_run, try_except,
    os_unlink, io_check, emit, logged, logged_all, bind, get_fs, set_fs, ret, raise.
  destruct (io_fault host _); [discriminate |]. cbn [fs fstore_files journal].
  destruct (fs w !! SYSTEMD_SYSTEM_HTTPD_IPA_CONF paths) as [[content|]|];
    try discriminate.
  cbn [fs fstore_files journal].
  destruct (exec host _) as [rc out | errno]; [| reflexivity].
  rewrite andb_true_r. destruct (rc =? 0); reflexivity.
Qed.

Lemma remove_httpd_service_ipa_conf_removes_witness :
  remove_httpd_service_ipa_conf fedora_paths plain_host
    (world_with_file (SYSTEMD_SYSTEM_HTTPD_IPA_CONF fedora_paths) "[Service]") =
  (Raise (CalledProcessError [SYSTEMCTL fedora_paths; "--system"; "daemon-reload"] 1),
   mkWorld (delete (SYSTEMD_SYSTEM_HTTPD_IPA_CONF fedora_paths)
              (fs (world_with_file (SYSTEMD_SYSTEM_HTTPD_IPA_CONF fedora_paths) "[Service]")))
     ∅ [Run [SYSTEMCTL fedora_paths; "--system"; "daemon-reload"]]).
Proof.
  apply (remove_httpd_service_ipa_conf_removes fedora_paths plain_host
           (world_with_file (SYSTEMD_SYSTEM_HTTPD_IPA_CONF fedora_paths) "[Service]")).
  reflexivity.
Defined.

(** ** The PKCS#11 overrides, written and taken back *)

Section MorePkcs11Facts.

Variable paths : Paths.
Variable host : Host.

Local Abbreviation softhsm2_module := (module_filename paths "softhsm2").

Lemma restore_context_returns (filepath : string) (force : bool) (w : World) :
  commands_start host ->
  exists evs, restore_context paths host filepath force w = (Ok tt, logged_all evs w).
Proof.
  intros Hstart. unfold restore_context.
  rewrite (bind_ok _ _ _ _ _ (is_selinux_enabled_run paths host w)).
  destruct (selinux_enabled_on paths host); cbn [negb]; [| eexists; reflexivity].
  unfold os_path_exists, bind, get_fs, ret. cbn.
  destruct (fs w !! SBIN_RESTORECON paths); cbn; [| eexists; reflexivity].
  unfold ipautil_run, bind, emit. cbn.
  destruct (exec host _) as [rc out | errno] eqn:E; [| now apply Hstart in E].
  rewrite andb_false_r. cbn. unfold logged. rewrite logged_all_compose.
  eexists; reflexivity.
Qed.

Lemma backup_module_file_returns (filename : string) (w : World) :
  io_fault host filename = None ->
  reads_as_text w filename = true ->
  exists evs,
    backup_module_file host filename w =
    (Ok tt, mkWorld (fs w) (store_after_backup host w filename) (journal w ++ evs)).
Proof.
  intros Hfault Htext.
  unfold store_after_backup, backup_due, backup_module_file, os_path_isfile, read_file,
    decode_text, io_check, and_then, fstore_has_file, fstore_backup_file, logger, emit,
    logged, logged_all, set_fstore, bind, get_fs, get_fstore, ret, raise.
  unfold reads_as_text in Htext.
  rewrite Hfault.
  destruct (fs w !! filename) as [[content|]|] eqn:Efs; cbn; rewrite ?Efs; cbn;
    try (exists []; rewrite app_nil_r; now destruct w).
  rewrite Htext. cbn.
  destruct (str_contains "IPA" content); cbn;
    [destruct (fstore_files w !! filename); exists []; rewrite app_nil_r; now destruct w |].
  destruct (fstore_files w !! filename); cbn; rewrite ?Efs;
    [exists []; rewrite app_nil_r; now destruct w |].
  eexists. rewrite <- app_assoc. reflexivity.
Qed.

Lemma write_module_file_returns (filename module : string)
    (disabled_in : list string) (w : World) :
  commands_start host -> writable host w filename ->
  exists evs,
    write_module_file paths host filename module disabled_in w =
    (Ok tt, mkWorld (<[filename := File (module_override module disabled_in)]> (fs w))
              (fstore_files w) (journal w ++ evs)).
Proof.
  intros Hstart Hw. unfold write_module_file.
  rewrite (bind_ok _ _ _ _ _ (open_w_ok host _ _ Hw)).
  erewrite bind_ok by (apply f_write_ok; cbn; apply lookup_insert_eq).
  erewrite bind_ok by (apply f_write_ok; cbn; apply lookup_insert_eq).
  erewrite bind_ok by (apply f_write_ok; cbn; apply lookup_insert_eq).
  erewrite bind_ok by (unfold os_fchmod; apply emit_run).
  match goal with |- context [bind (restore_context _ _ _ _) _ ?w0] =>
    destruct (restore_context_returns filename false w0 Hstart) as [evs Hrc]
  end.
  rewrite (bind_ok _ _ _ _ _ Hrc), logger_run.
  unfold logged, logged_all. cbn [fs fstore_files journal].
  rewrite !insert_insert_eq. exists (([Chmod filename 420] ++ evs) ++
                                      [Log DEBUG "Created PKCS#11 module config '%s'."])%list.
  rewrite <- !app_assoc. do 4 f_equal.
  unfold module_override. now rewrite !string_app_assoc.
Qed.

(** One call, when the override can be written. *)
Lemma configure_pkcs11_modules_run (w : World) :
  commands_start host -> writable host w softhsm2_module ->
  reads_as_text w softhsm2_module = true ->
  exists evs,
    configure_pkcs11_modules paths host w =
    (Ok [softhsm2_module],
     mkWorld (<[softhsm2_module :=
                  File (module_override (LIBSOFTHSM2_SO paths) ["p11-kit-proxy"])]> (fs w))
       (store_after_backup host w softhsm2_module) (journal w ++ evs)).
Proof.
  intros Hstart [Hfault Hdir] Htext.
  unfold configure_pkcs11_modules, PKCS11_MODULES. cbn [configure_modules].
  destruct (backup_module_file_returns softhsm2_module w Hfault Htext) as [evs1 Hb].
  rewrite (bind_ok _ _ _ _ _ Hb).
  match goal with |- context [bind (write_module_file _ _ _ ?m ?d) _ ?w0] =>
    destruct (write_module_file_returns softhsm2_module m d w0 Hstart) as [evs2 Hw];
      [split; [exact Hfault | exact Hdir] |]
  end.
  rewrite (bind_ok _ _ _ _ _ Hw). cbn [fs fstore_files journal].
  exists (evs1 ++ evs2)%list. now rewrite app_assoc.
Qed.



End MorePkcs11Facts.



(** ** The certificate objects of the trust file *)

Lemma decode_certificate_of (cert : IPACertificate) (nickname : string)
    (trusted : option bool) (eku : option (list string)) (w : World) :
  match certificate_object_of (cert, nickname, trusted, eku) with
  | Some o =>
      exists s i n p,
        decode_certificate cert w = (Ok (s, i, n, p), w) /\
        o = CertificateObject (quote nickname) (quote_from_bytes s) (quote_from_bytes i)
              (quote_from_bytes n) (quote_from_bytes p) trusted (public_bytes_pem cert)
  | None =>
      exists e w1, decode_certificate cert w = (Raise e, w1) /\
                   fs w1 = fs w /\ fstore_files w1 = fstore_files w
  end.
Proof.
  unfold certificate_object_of, decode_certificate, try_except, bind, lift, ret.
  destruct (subject_bytes cert) as [s|e];
    [destruct (issuer_bytes cert) as [i|e];
     [destruct (serial_number_bytes cert) as [n|e];
      [destruct (public_key_info_bytes cert) as [p|e] |] |] |];
    try (eexists _, _, _, _; split; reflexivity);
    destruct e; cbn; eexists _, _; repeat split; reflexivity.
Qed.

(** The loop over elements that all encode: it appends their objects and
    goes on with the rest. *)
Lemma write_cert_objects_app (f : string) (good rest : list ca_cert) :
  forall (has_eku : gset string) (w : World) (content : string),
    fs w !! f = Some (File content) ->
    Forall (fun entry => encodes entry = true) good ->
    exists objs has_eku',
      write_cert_objects f (good ++ rest) has_eku w =
      write_cert_objects f rest has_eku'
        (mkWorld (<[f := File (content ++ render_objects objs)]> (fs w))
           (fstore_files w) (journal w)) /\
      map Some (certificates_of objs) = map certificate_object_of good.
Proof.
  induction good as [|[[[cert nickname] trusted] eku] good IH];
    intros has_eku w content Hfile Hgood.
  - exists [], has_eku. cbn [app render_objects certificates_of List.filter map].
    rewrite string_app_nil_r, insert_id by exact Hfile. now rewrite world_eta.
  - inversion Hgood as [|? ? Hentry Hgood']; subst.
    unfold encodes in Hentry.
    pose proof (decode_certificate_of cert nickname trusted eku w) as Hdec.
    destruct (certificate_object_of (cert, nickname, trusted, eku)) as [o|] eqn:Hobj;
      [| discriminate].
    destruct Hdec as (s & i & n & p & Hdec & ->).
    cbn [app write_cert_objects].
    rewrite (bind_ok _ _ _ _ _ Hdec). cbv beta iota zeta.
    set (key := quote_from_bytes p).
    set (cert_text := certificate_object _ _ _ _ _ _ _).
    set (cert_obj := CertificateObject (quote nickname) (quote_from_bytes s)
                       (quote_from_bytes i) (quote_from_bytes n) key trusted
                       (public_bytes_pem cert)).
    rewrite (bind_ok _ _ _ _ _ (f_write_ok f cert_text content w Hfile)).
    set (w2 := mkWorld _ _ _).
    assert (fs w2 !! f = Some (File (content ++ cert_text))) as Hfile2
      by (cbn; apply lookup_insert_eq).
    assert (forall objs,
      map Some (certificates_of objs) = map certificate_object_of good ->
      map Some (certificates_of (cert_obj :: objs)) =
      map certificate_object_of ((cert, nickname, trusted, eku) :: good)) as Hmap.
    { intros objs Hobjs. cbn [certificates_of List.filter is_certificate_object cert_obj map].
      rewrite Hobj. f_equal. exact Hobjs. }
    destruct (extended_key_usage cert) as [usage|] eqn:Husage.
    + destruct (bool_decide (key ∈ has_eku)).
      * destruct (IH has_eku w2 _ Hfile2 Hgood') as (objs & has_eku' & Hrun & Hobjs).
        exists (cert_obj :: objs), has_eku'. split; [| now apply Hmap].
        rewrite Hrun. subst w2. cbn [fs fstore_files journal render_objects render_object].
        now rewrite insert_insert_eq, string_app_assoc.
      * destruct (extended_key_usage_bytes cert) as [v|e] eqn:Hv; [| discriminate].
        assert (encode_extended_key_usage cert w2 = (Ok v, w2)) as Henc.
        { unfold encode_extended_key_usage, try_except, lift. now rewrite Hv. }
        rewrite (bind_ok _ _ _ _ _ Henc). cbv beta iota zeta.
        set (ext_text := extension_object _ _ _).
        rewrite (bind_ok _ _ _ _ _ (f_write_ok f ext_text _ w2 Hfile2)).
        set (w4 := mkWorld _ _ _).
        assert (fs w4 !! f = Some (File ((content ++ cert_text) ++ ext_text))) as Hfile4
          by (cbn; apply lookup_insert_eq).
        destruct (IH ({[key]} ∪ has_eku) w4 _ Hfile4 Hgood')
          as (objs & has_eku' & Hrun & Hobjs).
        exists (cert_obj :: ExtensionObject (quote nickname) key (quote_from_bytes v) :: objs),
          has_eku'.
        split.
        { rewrite Hrun. subst w4 w2.
          cbn [fs fstore_files journal render_objects render_object].
          now rewrite !insert_insert_eq, !string_app_assoc. }
        cbn [certificates_of List.filter is_certificate_object cert_obj map].
        rewrite Hobj. f_equal. exact Hobjs.
    + destruct (IH has_eku w2 _ Hfile2 Hgood') as (objs & has_eku' & Hrun & Hobjs).
      exists (cert_obj :: objs), has_eku'. split; [| now apply Hmap].
      rewrite Hrun. subst w2. cbn [fs fstore_files journal render_objects render_object].
      now rewrite insert_insert_eq, string_app_assoc.
Qed.

Section TrustFileFacts.

Variable host : Host.

(** The trust file, opened and with its header and mode, ready for the
    loop. *)
Lemma write_p11kit_certs_opened (filename : string) (ca_certs : list ca_cert)
    (w : World) :
  writable host w filename ->
  write_p11kit_certs host filename ca_certs w =
  bind (write_cert_objects filename ca_certs ∅) (fun _ => ret true)
    (mkWorld (<[filename := File p11kit_header]> (fs w)) (fstore_files w)
       (journal w ++ [Chmod filename 420])).
Proof.
  intros Hw. unfold write_p11kit_certs.
  rewrite (bind_ok _ _ _ _ _ (try_except_ok _ _ _ _ _ (open_w_ok host _ _ Hw))).
  erewrite bind_ok by (apply f_write_ok; cbn; apply lookup_insert_eq).
  erewrite bind_ok by (apply try_except_ok; unfold os_fchmod; apply emit_run).
  unfold logged, logged_all. cbn [fs fstore_files journal].
  now rewrite insert_insert_eq.
Qed.



(** X22: when the trust file cannot be opened for writing,
    [write_p11kit_certs] logs the failure and raises the [OSError] of
    [open]; no file is changed and no certificate is read. *)
Theorem write_p11kit_certs_open_failure
    (filename : string) (ca_certs : list ca_cert) (w : World) :
  ~ writable host w filename ->
  exists errno,
    write_p11kit_certs host filename ca_certs w =
    (Raise (OSError errno), logged (Log ERROR "Failed to open %s") w).
Proof.
  intros Hw. unfold write_p11kit_certs, writable in *.
  unfold try_except at 1, open_w, io_check, logger, emit, bind, get_fs, raise, ret.
  destruct (io_fault host filename) as [errno|]; [exists errno; reflexivity |].
  destruct (fs w !! filename) as [[content|]|] eqn:E;
    try (exfalso; apply Hw; split; [reflexivity | congruence]).
  exists EISDIR. reflexivity.
Qed.

End TrustFileFacts.



Lemma write_p11kit_certs_open_failure_witness :
  exists errno,
    write_p11kit_certs plain_host ipa_p11_kit
      [(example_cert "key1" None, "CA 1", Some true, None)]
      (world_with_dir ipa_p11_kit) =
    (Raise (OSError errno),
     logged (Log ERROR "Failed to open %s") (world_with_dir ipa_p11_kit)).
Proof.
  apply (write_p11kit_certs_open_failure plain_host ipa_p11_kit
           [(example_cert "key1" None, "CA 1", Some true, None)]
           (world_with_dir ipa_p11_kit)).
  intros [_ Hdir]. apply Hdir. reflexivity.
Defined.

(** ** Reloading the system-wide CA store *)

(** X23: [reload_systemwide_ca_store] runs [update-ca-trust] and nothing
    else. It returns [True] and logs at info level when the command exits
    with 0, returns [False] and logs an error, without raising, on any
    other exit code, and lets the [OSError] of a command that cannot be
    started reach the caller unlogged. No file is changed. *)
Theorem reload_systemwide_ca_store_cases
    (more_paths : MorePaths) (host : Host) (w : World) :
  reload_systemwide_ca_store more_paths host w =
  match exec host [UPDATE_CA_TRUST more_paths] with
  | Exited rc _ =>
      if rc =? 0
      then (Ok true,
            logged_all [Run [UPDATE_CA_TRUST more_paths];
                        Log INFO "Systemwide CA database updated."] w)
      else (Ok false,
            logged_all [Run [UPDATE_CA_TRUST more_paths];
                        Log ERROR "Could not update systemwide CA trust database: %s"] w)
  | SpawnFailed errno =>
      (Raise (OSError errno), logged (Run [UPDATE_CA_TRUST more_paths]) w)
  end.
Proof.
  unfold reload_systemwide_ca_store, ipautil_run, try_except, logger, emit, bind,
    ret, raise.
  destruct (exec host _) as [rc out | errno]; [| reflexivity].
  rewrite andb_true_r. destruct (rc =? 0); cbn [negb];
    unfold logged; now rewrite logged_all_compose.
Qed.
